(** * FinanceAgent: the analysis pipeline, checked against its specification

    A shallow embedding of the parts of the repository the specification's
    testable properties talk about:

    - [core/data_processor.py]   the news batcher and its character budget
    - [core/result_manager.py]   the on-disk artifact store
    - [tools/stock_tools.py]     the four acquisition tools
    - [tools/tushare_provider.py] the provider's date window
    - [tools/parsers.py]         the report parsers
    - [tools/crawler.py]         sentiment labelling and publish-time resolution
    - [graph/nodes/analysis_nodes.py], [graph/main_graph.py]  the DAG nodes
    - [api/streaming_protocol.py], [api/impl_stock.py]        the event stream

    Python values are modelled as the code has them: a [str] is a list of
    Unicode code points, an [int] is a [Z], a [float] is an IEEE-754 binary64
    value ([spec_float]), a [dict] is an insertion-ordered association list,
    the file system below the result directory is a finite map from paths to
    the JSON documents stored there.  The LLM, the data providers, the JSON
    decoder and the clock are collaborators outside the repository; they are
    the fields of the record [World]. *)

From Stdlib Require Import ZArith NArith List Bool Lia String Ascii.
From Stdlib Require Import Floats.SpecFloat.
From stdpp Require Import base tactics option list gmap sets strings.

Local Open Scope Z_scope.

(** ** Python strings *)

Module PyStr.

(** A Python [str] is a sequence of code points. *)
Abbreviation pystr := (list N).

(** String literals of the source are written as UTF-8 text and decoded to
    code points once. *)
Definition cont (b : N) : N := N.land b 63.

Fixpoint decode_bytes (bs : list N) : pystr :=
  match bs with
  | [] => []
  | b :: rest =>
      if (b <? 128)%N then b :: decode_bytes rest
      else if (b <? 224)%N then
        match rest with
        | b1 :: r => (N.land b 31 * 64 + cont b1)%N :: decode_bytes r
        | _ => [b]
        end
      else if (b <? 240)%N then
        match rest with
        | b1 :: b2 :: r =>
            (N.land b 15 * 4096 + cont b1 * 64 + cont b2)%N :: decode_bytes r
        | _ => [b]
        end
      else
        match rest with
        | b1 :: b2 :: b3 :: r =>
            (N.land b 7 * 262144 + cont b1 * 4096 + cont b2 * 64 + cont b3)%N
              :: decode_bytes r
        | _ => [b]
        end
  end.

Definition u8 (s : string) : pystr :=
  decode_bytes (map N_of_ascii (list_ascii_of_string s)).

Definition chr_eqb (a b : N) : bool := (a =? b)%N.

(** [s.startswith(p)] *)
Fixpoint startswith (p s : pystr) : bool :=
  match p, s with
  | [], _ => true
  | _ :: _, [] => false
  | a :: p', b :: s' => chr_eqb a b && startswith p' s'
  end.

(** [p in s] *)
Fixpoint py_in (p s : pystr) : bool :=
  startswith p s ||
  match s with
  | [] => false
  | _ :: s' => py_in p s'
  end.

(** [s.endswith(p)] *)
Definition endswith (p s : pystr) : bool :=
  startswith (rev p) (rev s).

(** [s.find(p)]: the lowest index where [p] occurs, -1 when absent. *)
Fixpoint find_from (p s : pystr) (i : Z) : Z :=
  if startswith p s then i
  else match s with
       | [] => -1
       | _ :: s' => find_from p s' (i + 1)
       end.

Definition find (p s : pystr) : Z := find_from p s 0.

(** [s.rfind(p)]: the highest index where [p] occurs, -1 when absent. *)
Fixpoint rfind_from (p s : pystr) (i : Z) : Z :=
  match s with
  | [] => if startswith p s then i else -1
  | _ :: s' =>
      let r := rfind_from p s' (i + 1) in
      if 0 <=? r then r else if startswith p s then i else -1
  end.

Definition rfind (p s : pystr) : Z := rfind_from p s 0.

(** [str.isspace] of one character. *)
Definition isspace (c : N) : bool :=
  ((9 <=? c) && (c <=? 13) || (28 <=? c) && (c <=? 32) || (c =? 133)
   || (c =? 160) || (c =? 5760) || (8192 <=? c) && (c <=? 8202)
   || (c =? 8232) || (c =? 8233) || (c =? 8239) || (c =? 8287)
   || (c =? 12288))%N.

Fixpoint lstrip (s : pystr) : pystr :=
  match s with
  | c :: s' => if isspace c then lstrip s' else s
  | [] => []
  end.

Definition rstrip (s : pystr) : pystr := rev (lstrip (rev s)).

(** [s.strip()] *)
Definition strip (s : pystr) : pystr := rstrip (lstrip s).

(** [s[i:j]] for non-negative [i], [j]. *)
Definition slice (s : pystr) (i j : Z) : pystr :=
  take (Z.to_nat (j - i)) (drop (Z.to_nat i) s).

(** [len(s)] *)
Definition len (s : pystr) : Z := Z.of_nat (length s).

(** [sep.join(parts)] *)
Fixpoint join (sep : pystr) (parts : list pystr) : pystr :=
  match parts with
  | [] => []
  | [p] => p
  | p :: rest => p ++ sep ++ join sep rest
  end.

(** [any(e in s for e in needles)] *)
Definition any_in (needles : list pystr) (s : pystr) : bool :=
  existsb (fun e => py_in e s) needles.

(** Decimal rendering of a non-negative integer, zero padded to [w]
    digits ([f"{n:0wd}"]). *)
Fixpoint digits_fuel (fuel : nat) (n : Z) (acc : pystr) : pystr :=
  match fuel with
  | O => acc
  | S f =>
      let acc' := (48 + Z.to_N (n mod 10))%N :: acc in
      if n / 10 =? 0 then acc' else digits_fuel f (n / 10) acc'
  end.

Definition str_of_nonneg (n : Z) : pystr :=
  digits_fuel (S (Z.to_nat (Z.log2 n))) n [].

Definition zpad (w : nat) (n : Z) : pystr :=
  let d := str_of_nonneg n in
  replicate (w - length d) 48%N ++ d.

Definition is_digit (c : N) : bool := ((48 <=? c) && (c <=? 57))%N.

End PyStr.

Import PyStr.

(** ** Python floats

    A [float] is an IEEE-754 binary64 value; arithmetic is the correctly
    rounded arithmetic of [SpecFloat]. *)

Module PyFloat.

Definition prec : Z := 53.
Definition emax : Z := 1024.

Abbreviation float := spec_float.

(** [float(z)] for an [int] *)
Definition of_Z (z : Z) : float := binary_normalize prec emax z 0 false.

(** A decimal literal [num/den] of the source, e.g. [0.95] as [lit 95 100]:
    both are integers a double holds exactly, and the division is correctly
    rounded, as the reading of the literal is. *)
Definition lit (num den : Z) : float := SFdiv prec emax (of_Z num) (of_Z den).

Definition mul (x y : float) : float := SFmul prec emax x y.
Definition div (x y : float) : float := SFdiv prec emax x y.
Definition geb (x y : float) : bool := SFleb y x.

(** [int(x)]: truncation toward zero; [None] when Python raises (infinities
    and NaN). *)
Definition to_int (x : float) : option Z :=
  match x with
  | S754_zero _ => Some 0
  | S754_finite s m e =>
      let v := if 0 <=? e then Z.pos m * 2 ^ e else Z.pos m / 2 ^ (- e) in
      Some (if s then - v else v)
  | _ => None
  end.

(** The message of the exception [int(x)] raises. *)
Definition to_int_error (x : float) : string :=
  match x with
  | S754_nan => "cannot convert float NaN to integer"
  | _ => "cannot convert float infinity to integer"
  end.

End PyFloat.

(** ** Python's [re]: a backtracking matcher

    The patterns of the repository use literals, classes, ordered
    alternation, greedy bounded and unbounded repetition, capturing groups
    and the word boundary.  Matching is the backtracking search of [re]:
    alternatives are tried left to right, repetitions take as much as they
    can first, and the first complete match wins.  [\d] is modelled on the
    ASCII digits, [\w] on ASCII letters, digits, underscore and the CJK
    ideographs. *)

Module Re.

Inductive regex :=
| Eps
| Chr (cls : N -> bool)
| Seq (a b : regex)
| Alt (a b : regex)
| Rep (lo : nat) (hi : option nat) (a : regex)
| Grp (i : nat) (a : regex)
| Bnd.

(** Captured groups, latest first. *)
Definition caps := list (nat * pystr).

Fixpoint group (i : nat) (c : caps) : option pystr :=
  match c with
  | [] => None
  | (j, s) :: c' => if Nat.eqb i j then Some s else group i c'
  end.

(** A match in progress: the character before the position (for [\b]), the
    remaining input and the groups captured so far. *)
Definition cont (R : Type) := option N -> pystr -> caps -> option R.
Definition matcher (R : Type) := option N -> pystr -> caps -> cont R -> option R.

Definition is_word (c : N) : bool :=
  (is_digit c || (65 <=? c) && (c <=? 90) || (97 <=? c) && (c <=? 122)
   || (c =? 95) || (19968 <=? c) && (c <=? 40959))%N.

Definition word_before (prev : option N) : bool :=
  match prev with Some c => is_word c | None => false end.

Definition word_after (s : pystr) : bool :=
  match s with c :: _ => is_word c | [] => false end.

Definition dec_hi (hi : option nat) : option nat :=
  match hi with Some h => Some (Nat.pred h) | None => None end.

(** Greedy repetition of the matcher [ma] between [lo] and [hi] times; an
    iteration beyond [lo] must consume input. *)
Fixpoint rep {R} (ma : matcher R) (fuel lo : nat) (hi : option nat)
    (prev : option N) (s : pystr) (c : caps) (k : cont R) : option R :=
  match fuel with
  | O => None
  | S f =>
      match lo with
      | S lo' =>
          ma prev s c (fun p' s' c' => rep ma f lo' (dec_hi hi) p' s' c' k)
      | O =>
          match hi with
          | Some O => k prev s c
          | _ =>
              match ma prev s c
                      (fun p' s' c' =>
                         if (length s' <? length s)%nat
                         then rep ma f O (dec_hi hi) p' s' c' k
                         else None) with
              | Some x => Some x
              | None => k prev s c
              end
          end
      end
  end.

Fixpoint run {R} (r : regex) (prev : option N) (s : pystr) (c : caps)
    (k : cont R) {struct r} : option R :=
  match r with
  | Eps => k prev s c
  | Chr cls =>
      match s with
      | ch :: s' => if cls ch then k (Some ch) s' c else None
      | [] => None
      end
  | Seq a b => run a prev s c (fun p' s' c' => run b p' s' c' k)
  | Alt a b =>
      match run a prev s c k with
      | Some x => Some x
      | None => run b prev s c k
      end
  | Rep lo hi a => rep (run a) (S (lo + length s)) lo hi prev s c k
  | Grp i a =>
      run a prev s c
        (fun p' s' c' => k p' s' ((i, take (length s - length s') s) :: c'))
  | Bnd =>
      if xorb (word_before prev) (word_after s) then k prev s c else None
  end.

(** [pattern.match(s)]: the groups and the unmatched rest. *)
Definition re_match (r : regex) (s : pystr) : option (caps * pystr) :=
  run r None s [] (fun _ s' c => Some (c, s')).

(** [pattern.fullmatch(s)] *)
Definition fullmatch (r : regex) (s : pystr) : option caps :=
  run r None s [] (fun _ s' c => match s' with [] => Some c | _ => None end).

(** [pattern.search(s)]: the leftmost match. *)
Fixpoint search_from (r : regex) (prev : option N) (s : pystr) : option caps :=
  match run r prev s [] (fun _ _ c => Some c) with
  | Some c => Some c
  | None =>
      match s with
      | [] => None
      | ch :: s' => search_from r (Some ch) s'
      end
  end.

Definition search (r : regex) (s : pystr) : option caps := search_from r None s.

(** The rest of the input after the first match at this position. *)
Definition match_end (r : regex) (prev : option N) (s : pystr)
    : option (option N * pystr) :=
  run r prev s [] (fun p' s' _ => Some (p', s')).

(** [pattern.sub(repl, s)] for a pattern that matches no empty string:
    every leftmost non-overlapping match is replaced. *)
Fixpoint sub_from (fuel : nat) (r : regex) (repl : pystr) (prev : option N)
    (s : pystr) : pystr :=
  match fuel with
  | O => s
  | S f =>
      match s with
      | [] => []
      | ch :: s1 =>
          match match_end r prev s with
          | Some (p', s') =>
              if (length s' <? length s)%nat
              then repl ++ sub_from f r repl p' s'
              else ch :: sub_from f r repl (Some ch) s1
          | None => ch :: sub_from f r repl (Some ch) s1
          end
      end
  end.

Definition sub (r : regex) (repl s : pystr) : pystr :=
  sub_from (length s) r repl None s.

(** Pattern building blocks. *)
Definition lit (c : N) : regex := Chr (fun x => (x =? c)%N).
Definition rng (lo hi : N) : regex := Chr (fun x => ((lo <=? x) && (x <=? hi))%N).
Definition oneof (cs : pystr) : regex := Chr (fun x => existsb (N.eqb x) cs).
Definition digit : regex := Chr is_digit.
Definition space : regex := Chr isspace.

Fixpoint seqs (rs : list regex) : regex :=
  match rs with
  | [] => Eps
  | [r] => r
  | r :: rs' => Seq r (seqs rs')
  end.

Fixpoint alts (rs : list regex) : regex :=
  match rs with
  | [] => Eps
  | [r] => r
  | r :: rs' => Alt r (alts rs')
  end.

Definition str (s : pystr) : regex := seqs (map lit s).
Definition opt (r : regex) : regex := Rep 0 (Some 1%nat) r.
Definition star (r : regex) : regex := Rep 0 None r.
Definition plus (r : regex) : regex := Rep 1 None r.
Definition times (lo hi : nat) (r : regex) : regex := Rep lo (Some hi) r.

(** A character class as written between brackets: single characters and
    ranges.  [re] refuses a range whose ends are in the wrong order
    ([re.error: bad character range]); [None] stands for that error. *)
Inductive class_item :=
| CChar (c : N)
| CRange (lo hi : N).

Definition item_ok (it : class_item) : bool :=
  match it with
  | CChar _ => true
  | CRange lo hi => (lo <=? hi)%N
  end.

Definition in_item (c : N) (it : class_item) : bool :=
  match it with
  | CChar x => (c =? x)%N
  | CRange lo hi => ((lo <=? c) && (c <=? hi))%N
  end.

Definition cls (items : list class_item) : option regex :=
  if forallb item_ok items
  then Some (Chr (fun c => existsb (in_item c) items))
  else None.

(** Every class of the pattern accepts only characters satisfying [ok]. *)
Fixpoint classes_within (ok : N -> bool) (r : regex) : Prop :=
  match r with
  | Eps | Bnd => True
  | Chr cls => forall ch, cls ch = true -> ok ch = true
  | Seq a b | Alt a b => classes_within ok a /\ classes_within ok b
  | Rep _ _ a | Grp _ a => classes_within ok a
  end.

End Re.

(** ** Python's [datetime]: naive date-times, [strptime], [strftime] *)

Module Dates.

Record datetime := mkdt {
  year : Z; month : Z; day : Z; hour : Z; minute : Z; second : Z
}.

Definition is_leap (y : Z) : bool :=
  (y mod 4 =? 0) && (negb (y mod 100 =? 0) || (y mod 400 =? 0)).

Definition days_in_month (y m : Z) : Z :=
  if m =? 2 then (if is_leap y then 29 else 28)
  else if (m =? 4) || (m =? 6) || (m =? 9) || (m =? 11) then 30 else 31.

(** [_DAYS_BEFORE_MONTH[m]] of a common year. *)
Definition days_before_month_common (m : Z) : Z :=
  nth (Z.to_nat m) [0; 0; 31; 59; 90; 120; 151; 181; 212; 243; 273; 304; 334] 0.

Definition days_before_month (y m : Z) : Z :=
  days_before_month_common m + (if (2 <? m) && is_leap y then 1 else 0).

Definition days_before_year (y : Z) : Z :=
  let y1 := y - 1 in y1 * 365 + y1 / 4 - y1 / 100 + y1 / 400.

(** [date.toordinal()]: 0001-01-01 is day 1. *)
Definition ymd2ord (y m d : Z) : Z :=
  days_before_year y + days_before_month y m + d.

(** [date.fromordinal(n)], the arithmetic of [_ord2ymd]. *)
Definition ord2ymd (n0 : Z) : Z * Z * Z :=
  let n := n0 - 1 in
  let n400 := n / 146097 in let n := n mod 146097 in
  let yr := n400 * 400 + 1 in
  let n100 := n / 36524 in let n := n mod 36524 in
  let n4 := n / 1461 in let n := n mod 1461 in
  let n1 := n / 365 in let n := n mod 365 in
  let yr := yr + n100 * 100 + n4 * 4 + n1 in
  if (n1 =? 4) || (n100 =? 4) then (yr - 1, 12, 31)
  else
    let leapyear := (n1 =? 3) && (negb (n4 =? 24) || (n100 =? 3)) in
    let mo := Z.shiftr (n + 50) 5 in
    let preceding :=
      days_before_month_common mo + (if (2 <? mo) && leapyear then 1 else 0) in
    if n <? preceding then
      let mo' := mo - 1 in
      let dim :=
        (if mo' =? 2 then 28
         else if (mo' =? 4) || (mo' =? 6) || (mo' =? 9) || (mo' =? 11) then 30
         else 31)
        + (if (mo' =? 2) && leapyear then 1 else 0) in
      (yr, mo', n - (preceding - dim) + 1)
    else (yr, mo, n - preceding + 1).

Definition MAXORDINAL : Z := 3652059.

(** The constructor's range check: [ValueError] outside it. *)
Definition valid (dt : datetime) : bool :=
  (1 <=? year dt) && (year dt <=? 9999) && (1 <=? month dt) && (month dt <=? 12)
  && (1 <=? day dt) && (day dt <=? days_in_month (year dt) (month dt))
  && (0 <=? hour dt) && (hour dt <=? 23) && (0 <=? minute dt) && (minute dt <=? 59)
  && (0 <=? second dt) && (second dt <=? 59).

Definition toordinal (dt : datetime) : Z := ymd2ord (year dt) (month dt) (day dt).

(** [dt - timedelta(days=k)]; [None] is the [OverflowError] of a result out
    of the representable range. *)
Definition sub_days (dt : datetime) (k : Z) : option datetime :=
  let o := toordinal dt - k in
  if (1 <=? o) && (o <=? MAXORDINAL) then
    let '(y, m, d) := ord2ymd o in
    Some (mkdt y m d (hour dt) (minute dt) (second dt))
  else None.

(** [dt.replace(year=y)]; [None] is its [ValueError]. *)
Definition replace_year (dt : datetime) (y : Z) : option datetime :=
  let dt' := mkdt y (month dt) (day dt) (hour dt) (minute dt) (second dt) in
  if valid dt' then Some dt' else None.

(** [strftime]: the three formats the code uses. *)
Definition strftime_Ymd (dt : datetime) : pystr :=
  zpad 4 (year dt) ++ zpad 2 (month dt) ++ zpad 2 (day dt).

Definition strftime_Y_m_d (dt : datetime) : pystr :=
  zpad 4 (year dt) ++ [45%N] ++ zpad 2 (month dt) ++ [45%N] ++ zpad 2 (day dt).

Definition strftime_Y_m_d_HM (dt : datetime) : pystr :=
  strftime_Y_m_d dt ++ [32%N] ++ zpad 2 (hour dt) ++ [58%N] ++ zpad 2 (minute dt).

(** [dt + timedelta(seconds=delta)]; [None] is the [OverflowError]. *)
Definition shift_seconds (dt : datetime) (delta : Z) : option datetime :=
  let total :=
    toordinal dt * 86400 + hour dt * 3600 + minute dt * 60 + second dt + delta in
  let o := total / 86400 in
  let r := total mod 86400 in
  if (1 <=? o) && (o <=? MAXORDINAL) then
    let '(y, m, d) := ord2ymd o in
    Some (mkdt y m d (r / 3600) (r mod 3600 / 60) (r mod 60))
  else None.

(** [a > b] *)
Definition later (a b : datetime) : bool :=
  let key d :=
    toordinal d * 86400 + hour d * 3600 + minute d * 60 + second d in
  key b <? key a.

(** [datetime.fromtimestamp(secs, tz)] for a zone [offset] seconds east of
    UTC, as a wall-clock time of that zone. *)
Definition fromtimestamp (secs offset : Z) : option datetime :=
  shift_seconds (mkdt 1970 1 1 0 0 0) (secs + offset).

(** A [strptime] format: directives and literal characters. *)
Inductive directive := dY | dm | dd | dH | dM | dS.
Inductive fmt_item := FDir (d : directive) | FLit (c : N).

Definition group_of (d : directive) : nat :=
  match d with dY => 1 | dm => 2 | dd => 3 | dH => 4 | dM => 5 | dS => 6 end%nat.

(** The pattern [_strptime] compiles a directive to. *)
Definition regex_of_directive (d : directive) : Re.regex :=
  let D := Re.digit in
  Re.Grp (group_of d)
    match d with
    | dY => Re.seqs [D; D; D; D]
    | dm => Re.alts [Re.Seq (Re.lit 49) (Re.rng 48 50);
                     Re.Seq (Re.lit 48) (Re.rng 49 57); Re.rng 49 57]
    | dd => Re.alts [Re.Seq (Re.lit 51) (Re.rng 48 49); Re.Seq (Re.rng 49 50) D;
                     Re.Seq (Re.lit 48) (Re.rng 49 57); Re.rng 49 57;
                     Re.Seq (Re.lit 32) (Re.rng 49 57)]
    | dH => Re.alts [Re.Seq (Re.lit 50) (Re.rng 48 51); Re.Seq (Re.rng 48 49) D; D]
    | dM => Re.alts [Re.Seq (Re.rng 48 53) D; D]
    | dS => Re.alts [Re.Seq (Re.lit 54) (Re.rng 48 49); Re.Seq (Re.rng 48 53) D; D]
    end.

(** A literal of the format matches itself; white space matches [\s+]. *)
Definition regex_of_item (it : fmt_item) : Re.regex :=
  match it with
  | FDir d => regex_of_directive d
  | FLit c => if isspace c then Re.plus Re.space else Re.lit c
  end.

Definition regex_of_format (fmt : list fmt_item) : Re.regex :=
  Re.seqs (map regex_of_item fmt).

(** [int(s)] of a captured field: decimal digits, blanks skipped. *)
Definition int_of (s : pystr) : Z :=
  fold_left (fun acc c => if is_digit c then acc * 10 + (Z.of_N c - 48) else acc) s 0.

Definition field (d : directive) (c : Re.caps) (default : Z) : Z :=
  match Re.group (group_of d) c with
  | Some s => int_of s
  | None => default
  end.

(** [datetime.strptime(s, fmt)]; [None] is its [ValueError]: no match, text
    left over after the match, or a date that does not exist. *)
Definition strptime (fmt : list fmt_item) (s : pystr) : option datetime :=
  match Re.re_match (regex_of_format fmt) s with
  | Some (c, []) =>
      let dt := mkdt (field dY c 1900) (field dm c 1) (field dd c 1)
                     (field dH c 0) (field dM c 0) (field dS c 0) in
      if valid dt then Some dt else None
  | _ => None
  end.

(** The formats of the repository. *)
Definition F_Ymd : list fmt_item := [FDir dY; FDir dm; FDir dd].
Definition F_Y_m_d : list fmt_item := [FDir dY; FLit 45; FDir dm; FLit 45; FDir dd].
Definition F_Y_slash : list fmt_item := [FDir dY; FLit 47; FDir dm; FLit 47; FDir dd].
Definition F_Y_dot : list fmt_item := [FDir dY; FLit 46; FDir dm; FLit 46; FDir dd].
Definition F_Y_cn : list fmt_item :=
  [FDir dY; FLit 24180; FDir dm; FLit 26376; FDir dd; FLit 26085].

Definition with_time (date : list fmt_item) (seconds : bool) : list fmt_item :=
  date ++ [FLit 32; FDir dH; FLit 58; FDir dM]
       ++ (if seconds then [FLit 58; FDir dS] else []).

(** The first format of [fmts] that parses [s]: the
    [for fmt in formats: try: ... except ValueError: continue] loops. *)
Fixpoint first_format (fmts : list (list fmt_item)) (s : pystr) : option datetime :=
  match fmts with
  | [] => None
  | f :: rest =>
      match strptime f s with
      | Some dt => Some dt
      | None => first_format rest s
      end
  end.

End Dates.

(** ** JSON values, Python dicts and tables *)

Module Py.

(** What [json.dump] writes and [json.load] reads back. *)
Inductive json :=
| JNull
| JBool (b : bool)
| JInt (z : Z)
| JStr (s : pystr)
| JList (l : list json)
| JDict (d : list (pystr * json)).

(** A [dict] with string keys, in insertion order. *)
Abbreviation dict := (list (pystr * json)).

Definition str_eqb (a b : pystr) : bool := bool_decide (a = b).

(** [d.get(k)] *)
Fixpoint dict_get (k : pystr) (d : dict) : option json :=
  match d with
  | [] => None
  | (k', v) :: d' => if str_eqb k k' then Some v else dict_get k d'
  end.

(** [d[k] = v] *)
Fixpoint dict_set (k : pystr) (v : json) (d : dict) : dict :=
  match d with
  | [] => [(k, v)]
  | (k', v') :: d' =>
      if str_eqb k k' then (k, v) :: d' else (k', v') :: dict_set k v d'
  end.

(** Truthiness: [bool(v)]. *)
Definition truthy (v : json) : bool :=
  match v with
  | JNull => false
  | JBool b => b
  | JInt z => negb (z =? 0)
  | JStr s => match s with [] => false | _ => true end
  | JList l => match l with [] => false | _ => true end
  | JDict d => match d with [] => false | _ => true end
  end.

(** [d.get(k)] on a value that may not be a dict at all; the callers test
    [isinstance(v, dict)] first. *)
Definition get (k : pystr) (v : json) : option json :=
  match v with
  | JDict d => dict_get k d
  | _ => None
  end.

(** [v == s] for a string [s] *)
Definition is_str (s : pystr) (v : json) : bool :=
  match v with
  | JStr s' => str_eqb s' s
  | _ => false
  end.

(** A [DataFrame] as the specification's Table: ordered columns, ordered
    rows of cells. *)
Record table := mktable {
  columns : list pystr;
  rows : list (list json);
}.

(** [df.empty] *)
Definition table_empty (t : table) : bool :=
  match columns t, rows t with
  | [], _ | _, [] => true
  | _, _ => false
  end.

(** [df.to_dict(orient='records')] *)
Definition to_records (t : table) : list json :=
  map (fun r => JDict (combine (columns t) r)) (rows t).

(** The outcome of a call that may raise: the value, or the message of the
    exception. *)
Inductive outcome (A : Type) :=
| Returned (a : A)
| Raised (msg : pystr).
Arguments Returned {A} a.
Arguments Raised {A} msg.

End Py.

Import Py.

(** ** The collaborators

    Everything the pipeline calls outside the repository: the standard
    library's JSON decoder and clock, the data vendors behind the provider
    adapters, and the LLM. *)

Inductive cm_status :=
| CmInitRaises (e : pystr)   (* [cache_manager.initialize()] raised [e] *)
| CmNoProvider               (* [get_provider()] returned nothing *)
| CmReady.

Inductive tool_kind := Fundamental | Fund | Tech | News.

(** One LLM invocation, by what is asked. *)
Inductive llm_call :=
| SummarizeTable (objective : pystr) (t : table)
| AnalyzeTech (objective : pystr) (t : table)
| AnalyzeFund (objective : pystr) (t : table)
| SummarizeCorpus (corpus stat_line : pystr)
| Chain (prompt : pystr) (inputs : dict).

Record World := {
  (** [json.loads]; [None] is [JSONDecodeError] *)
  json_loads : pystr -> option json;
  (** [datetime.now()] *)
  now : Dates.datetime;
  (** [str(v)] *)
  py_str : json -> pystr;
  (** [json.dumps(v, ensure_ascii=False)] *)
  json_dumps : json -> pystr;
  (** [str(e)] of the [TypeError] raised when a report field is looked up in
      or assigned to the non-dict value [v] *)
  type_error : json -> pystr;
  (** [AGENT_ROLES[role]] ([config/agent_roles.py]) *)
  agent_role : pystr -> pystr;
  (** the state of [cache_manager] when a tool asks for the provider *)
  cm : cm_status;
  (** [cache_manager.get_news_provider()] returned a provider *)
  news_provider_ready : bool;
  (** a provider fetch: [None] for a [None] result *)
  fetch : tool_kind -> pystr -> pystr -> option pystr -> outcome (option table);
  (** [_select_important_columns(df, objective)], LLM and fallback included *)
  select_columns : table -> pystr -> list pystr;
  (** [df[columns]] *)
  project : table -> list pystr -> table;
  (** steps 1 to 3 of [analyze_news_batched]: selection, ordering and
      [_format_news_rows] *)
  news_parts : table -> pystr -> list pystr;
  (** [llm.invoke(prompt).content] *)
  llm : llm_call -> outcome pystr;
  (** [_process_company_info(...)] for the symbol *)
  company_summary : pystr -> option pystr;
}.

(** ** core/data_processor.py: the news batcher *)

Module DataProcessor.

Definition nlnl : pystr := [10; 10]%N.

(** The loop of [_batch_strings_by_chars]: [batches] are the closed batches,
    [buf] the items of the open one and [cur] its length once joined. *)
Fixpoint batch_loop (parts : list pystr) (max_chars : Z)
    (batches buf : list pystr) (cur : Z) : list pystr :=
  match parts with
  | [] =>
      match buf with
      | [] => batches
      | _ => batches ++ [join nlnl buf]
      end
  | p :: rest =>
      let p_len := len p in
      match buf with
      | [] => batch_loop rest max_chars batches [p] p_len
      | _ =>
          if cur + 2 + p_len <=? max_chars
          then batch_loop rest max_chars batches (buf ++ [p]) (cur + 2 + p_len)
          else batch_loop rest max_chars (batches ++ [join nlnl buf]) [p] p_len
      end
  end.

(** [_batch_strings_by_chars(parts, max_chars, min_pack_chars)]; the branch on
    [min_pack_chars] is a [pass] in the source. *)
Definition _batch_strings_by_chars (parts : list pystr)
    (max_chars min_pack_chars : Z) : list pystr :=
  batch_loop parts max_chars [] [] 0.

Definition is_cjk (ch : N) : bool := ((19968 <=? ch) && (ch <=? 40959))%N.

(** [_cjk_ratio(text)] *)
Definition _cjk_ratio (text : pystr) : PyFloat.float :=
  match text with
  | [] => PyFloat.of_Z 0
  | _ =>
      let total := len text in
      let cjk := len (filter (fun ch => is_cjk ch = true) text) in
      PyFloat.div (PyFloat.of_Z cjk) (PyFloat.of_Z (Z.max total 1))
  end.

(** [_calc_batch_char_cap(sample_parts, model_max_tokens, input_ratio,
    prompt_tokens, output_tokens)]; [None] when one of the two [int(...)]
    conversions raises. *)
Definition _calc_batch_char_cap (sample_parts : list pystr)
    (model_max_tokens : Z) (input_ratio : PyFloat.float)
    (prompt_tokens output_tokens : Z) : option Z :=
  let sample := join [10%N] (take 20 sample_parts) in
  let cjk_r := _cjk_ratio sample in
  let chars_per_token :=
    if PyFloat.geb cjk_r (PyFloat.lit 2 10)
    then PyFloat.of_Z 1 else PyFloat.lit 32 10 in
  match PyFloat.to_int (PyFloat.mul (PyFloat.of_Z model_max_tokens) input_ratio) with
  | None => None
  | Some t =>
      let input_token_budget := Z.max (t - prompt_tokens - output_tokens) 8000 in
      match PyFloat.to_int
              (PyFloat.mul
                 (PyFloat.mul (PyFloat.of_Z input_token_budget) chars_per_token)
                 (PyFloat.lit 95 100)) with
      | None => None
      | Some cap => Some (Z.max (Z.min cap 38000) 4000)
      end
  end.

(** The batches [analyze_news_batched] sends to the LLM for the formatted
    items [parts] when [max_chars] is not given; the prompt and output
    reserves are the defaults 1200 and 1500. *)
Definition news_batches (parts : list pystr) (min_pack_chars : Z)
    (model_max_tokens : Z) (input_ratio : PyFloat.float) : option (list pystr) :=
  match _calc_batch_char_cap parts model_max_tokens input_ratio 1200 1500 with
  | None => None
  | Some max_chars => Some (_batch_strings_by_chars parts max_chars min_pack_chars)
  end.

(** The message of the exception [_calc_batch_char_cap] raises when it
    returns nothing. *)
Definition cap_error (model_max_tokens : Z) (input_ratio : PyFloat.float) : pystr :=
  u8 (PyFloat.to_int_error
        (PyFloat.mul (PyFloat.of_Z model_max_tokens) input_ratio)).

Section WithWorld.

Context (W : World).

(** [_summarize_table(df, objective)] *)
Definition _summarize_table (df : table) (objective : pystr) : pystr :=
  if table_empty df then u8 "无可用数据。"
  else
    match llm W (SummarizeTable objective df) with
    | Returned content => content
    | Raised e => u8 "生成摘要时出错: " ++ e
    end.

(** [process_and_summarize(df, objective)] *)
Definition process_and_summarize (df : table) (objective : pystr) : pystr :=
  match select_columns W df objective with
  | [] => u8 "【" ++ objective ++ u8 "】: 未找到相关数据列。"
  | important_columns =>
      let important_df := project W df important_columns in
      u8 "【" ++ objective ++ u8 "】" ++ [10%N]
        ++ _summarize_table important_df objective
  end.

(** [_analyze_tech_table(df, objective)] *)
Definition _analyze_tech_table (df : table) (objective : pystr) : pystr :=
  if table_empty df then u8 "无可用数据。"
  else
    match llm W (AnalyzeTech objective df) with
    | Returned content => content
    | Raised e => u8 "生成报告时出错: " ++ e
    end.

(** [df.tail(n)] *)
Definition tail_rows (n : nat) (t : table) : table :=
  mktable (columns t) (drop (length (rows t) - n) (rows t)).

(** [_analyze_fund_table(df, objective)] *)
Definition _analyze_fund_table (df : table) (objective : pystr) : pystr :=
  if table_empty df then u8 "无可用数据。"
  else
    match select_columns W df objective with
    | [] => u8 "【" ++ objective ++ u8 "】: 未找到相关数据列。"
    | important_columns =>
        let important_df := project W df important_columns in
        let important_df :=
          if (100 <? length (rows important_df))%nat
          then tail_rows 100 important_df else important_df in
        match llm W (AnalyzeFund objective important_df) with
        | Returned content => content
        | Raised e => u8 "生成报告时出错: " ++ e
        end
    end.

(** [summarize_news_corpus(corpus, start_dt, end_dt, stat_line)] *)
Definition summarize_news_corpus (corpus stat_line : pystr) : pystr :=
  match llm W (SummarizeCorpus corpus stat_line) with
  | Returned content => strip content
  | Raised e => u8 "生成新闻语料摘要时出错: " ++ e
  end.

(** [enumerate(batches, 1)] with the summaries of step 5. *)
Fixpoint batch_summaries (objective stat_line : pystr) (total : Z) (i : Z)
    (batches : list pystr) : list pystr :=
  match batches with
  | [] => []
  | corpus :: rest =>
      let head := u8 "【批次 " ++ str_of_nonneg i ++ u8 "/" ++ str_of_nonneg total
                    ++ u8 "】" ++ objective in
      let sub := summarize_news_corpus corpus stat_line in
      (head ++ [10%N] ++ sub)
        :: batch_summaries objective stat_line total (i + 1) rest
  end.

(** [analyze_news_batched(df, objective, max_chars, min_pack_chars,
    model_max_tokens, input_ratio)] *)
Definition analyze_news_batched (df : table) (objective : pystr)
    (max_chars : option Z) (min_pack_chars model_max_tokens : Z)
    (input_ratio : PyFloat.float) : outcome pystr :=
  if table_empty df then Returned (u8 "无可用新闻数据。")
  else
    match news_parts W df objective with
    | [] => Returned (u8 "无可用新闻数据。")
    | parts =>
        let cap :=
          match max_chars with
          | Some mc => Some mc
          | None => _calc_batch_char_cap parts model_max_tokens input_ratio 1200 1500
          end in
        match cap with
        | None => Raised (cap_error model_max_tokens input_ratio)
        | Some mc =>
            let batches := _batch_strings_by_chars parts mc min_pack_chars in
            let n := Z.of_nat (length batches) in
            let stat_line :=
              u8 "样本数:" ++ str_of_nonneg (Z.of_nat (length parts))
                ++ u8 " 批次数:" ++ str_of_nonneg n ++ u8 "（按长度合并摘要）" in
            Returned
              (join ([10; 10]%N ++ u8 "---" ++ [10; 10]%N)
                 (batch_summaries objective stat_line n 1 batches))
        end
    end.

End WithWorld.

End DataProcessor.

(** ** tools/crawler.py: sentiment labelling *)

Module Crawler.

(** The two word lists of the news configuration ([get_news_config()]) that
    sentiment labelling reads; a YAML file may override the defaults. *)
Record news_cfg := {
  pos_words : list pystr;
  neg_words : list pystr;
}.

(** [DEFAULT_NEWS_CFG] *)
Definition DEFAULT_NEWS_CFG : news_cfg := {|
  pos_words := map u8
    ["增持"; "回购"; "超预期"; "上调"; "利好"; "签约"; "中标"; "获批"; "突破";
     "增长"; "创新高"; "涨停"; "提价"; "盈利改善"; "产能扩张"; "政策支持";
     "订单充足"]%string;
  neg_words := map u8
    ["减持"; "限售解禁"; "下调"; "利空"; "亏损"; "违规"; "问询函"; "处罚";
     "被调查"; "下滑"; "爆雷"; "停牌"; "诉讼"; "资产减值"; "延期"; "产线停工";
     "业绩预亏"]%string;
|}.

Definition POSITIVE : pystr := u8 "正面".
Definition NEGATIVE : pystr := u8 "负面".
Definition NEUTRAL : pystr := u8 "中性".

(** [_simple_cn_sentiment(text)] under the configuration [cfg] *)
Definition _simple_cn_sentiment (cfg : news_cfg) (text : pystr) : pystr :=
  let t := text in
  let pos := any_in (pos_words cfg) t in
  let neg := any_in (neg_words cfg) t in
  if pos && negb neg then POSITIVE
  else if neg && negb pos then NEGATIVE
  else NEUTRAL.

(** The label of a news item, step 3.1 of [_process_news_with_crawl4ai]:
    [label = _simple_cn_sentiment(f"{title}\n{snippet}")]. *)
Definition item_sentiment (cfg : news_cfg) (title snippet : pystr) : pystr :=
  _simple_cn_sentiment cfg (title ++ [10%N] ++ snippet).

(** The number of words of [words] that occur in [t]. *)
Definition word_hits (words : list pystr) (t : pystr) : Z :=
  Z.of_nat (length (filter (fun w => py_in w t = true) words)).

(** The label as the specification words it: the sign of positive hits
    minus negative hits. *)
Definition sentiment_by_sign (cfg : news_cfg) (t : pystr) : pystr :=
  let d := word_hits (pos_words cfg) t - word_hits (neg_words cfg) t in
  if 0 <? d then POSITIVE else if d <? 0 then NEGATIVE else NEUTRAL.

(** *** Publish-time resolution *)

(** [CHINA_TZ]: seconds east of UTC. *)
Definition CHINA_TZ : Z := 8 * 3600.

Definition TIME_KEYS : list pystr :=
  map u8 ["datePublished"; "dateModified"; "pubdate"; "publishdate";
          "published_time"; "发布时间"; "发表时间"; "时间"; "datetime";
          "content_time"]%string.

Definition BACKSLASH : N := 92.

(** [\d{lo,hi}] *)
Definition digits (lo hi : nat) : Re.regex := Re.times lo hi Re.digit.

(** The date pattern of [_parse_any_dt_cn]:
    [(20\d{2}[-/.]\d{1,2}[-/.]\d{1,2}(?:[ T]\d{1,2}:\d{2}(?::\d{2})?)?)] *)
Definition date_fragment_re : Re.regex :=
  Re.Grp 1 (Re.seqs [
    Re.str (u8 "20"); digits 2 2; Re.oneof (u8 "-/."); digits 1 2;
    Re.oneof (u8 "-/."); digits 1 2;
    Re.opt (Re.seqs [Re.oneof (u8 " T"); digits 1 2; Re.lit 58; digits 2 2;
                     Re.opt (Re.seqs [Re.lit 58; digits 2 2])])]).

(** The pattern step 3 of [_extract_publish_time_and_text] searches the page
    for.  The source writes it as a raw string with doubled backslashes,
    [r"(20\\d{2}[\\-/.年]\\d{1,2}[\\-/.月]\\d{1,2}(?:[\\sT]\\d{1,2}:\\d{2}(?::\\d{2})?)?)"]:
    each [\\d] is a backslash followed by the letter d, and in the classes
    [\\-/] is the range from the backslash (92) to the slash (47). *)
Definition backslash_d (lo hi : nat) : Re.regex :=
  Re.Seq (Re.lit BACKSLASH) (Re.times lo hi (Re.lit 100)).

Definition visible_date_re : option Re.regex :=
  match Re.cls [Re.CRange BACKSLASH 47; Re.CChar 46; Re.CChar 24180],
        Re.cls [Re.CRange BACKSLASH 47; Re.CChar 46; Re.CChar 26376],
        Re.cls [Re.CChar BACKSLASH; Re.CChar 115; Re.CChar 84] with
  | Some sep_year, Some sep_month, Some sep_time =>
      Some (Re.Grp 1 (Re.seqs [
        Re.str (u8 "20"); backslash_d 2 2; sep_year; backslash_d 1 2;
        sep_month; backslash_d 1 2;
        Re.opt (Re.seqs [sep_time; backslash_d 1 2; Re.lit 58; backslash_d 2 2;
                         Re.opt (Re.seqs [Re.lit 58; backslash_d 2 2])])]))
  | _, _, _ => None
  end.

(** [[　\s]*发布时间[:：]\s*] *)
Definition prefix_re : Re.regex :=
  Re.seqs [Re.star (Re.Chr (fun c => (c =? 12288)%N || isspace c));
           Re.str (u8 "发布时间"); Re.oneof (u8 ":："); Re.star Re.space].

(** The formats [_parse_any_dt_cn] tries, in order. *)
Definition fmts : list (list Dates.fmt_item) :=
  [Dates.with_time Dates.F_Y_m_d true; Dates.with_time Dates.F_Y_m_d false;
   Dates.with_time Dates.F_Y_slash false; Dates.with_time Dates.F_Y_dot false;
   Dates.F_Y_m_d; Dates.F_Y_slash; Dates.F_Y_dot;
   Dates.with_time Dates.F_Y_cn false;
   Dates.F_Y_cn].

(** [_parse_any_dt_cn(s)] as a wall-clock time of UTC+8.  [Some None] is a
    [None] result; [None] is the [RecursionError] of the last step calling
    itself on the same text for ever. *)
Fixpoint _parse_any_dt_cn (fuel : nat) (s : pystr) : option (option Dates.datetime) :=
  match s with
  | [] => Some None
  | _ =>
      let s := Re.sub prefix_re [] (strip s) in
      match Dates.first_format fmts s with
      | Some dt => Some (Some dt)
      | None =>
          match Re.fullmatch (digits 10 13) s with
          | Some _ =>
              let ts := Dates.int_of (take 13 s) in
              let ts := if (length s =? 10)%nat then ts * 1000 else ts in
              Some (Dates.fromtimestamp (ts / 1000) CHINA_TZ)
          | None =>
              match Re.search date_fragment_re s with
              | Some c =>
                  match Re.group 1 c, fuel with
                  | Some g, S f =>
                      if (length g <? length s)%nat then _parse_any_dt_cn f g
                      else None
                  | Some g, O => None
                  | None, _ => Some None
                  end
              | None => Some None
              end
          end
      end
  end.

(** [/(20\d{2})[\-/](\d{1,2})[\-/](\d{1,2})(?:/|\b)] *)
Definition _url_dt_dash_re : Re.regex :=
  Re.seqs [Re.lit 47; Re.Grp 1 (Re.Seq (Re.str (u8 "20")) (digits 2 2));
           Re.oneof (u8 "-/"); Re.Grp 2 (digits 1 2);
           Re.oneof (u8 "-/"); Re.Grp 3 (digits 1 2);
           Re.Alt (Re.lit 47) Re.Bnd].

(** [/(20\d{2})(\d{2})(\d{2})(?:/|\b)] *)
Definition _url_dt_compact_re : Re.regex :=
  Re.seqs [Re.lit 47; Re.Grp 1 (Re.Seq (Re.str (u8 "20")) (digits 2 2));
           Re.Grp 2 (digits 2 2); Re.Grp 3 (digits 2 2);
           Re.Alt (Re.lit 47) Re.Bnd].

Definition ymd_of (c : Re.caps) : option pystr :=
  let field i := Dates.int_of (default [] (Re.group i c)) in
  let dt := Dates.mkdt (field 1%nat) (field 2%nat) (field 3%nat) 0 0 0 in
  if Dates.valid dt then Some (Dates.strftime_Y_m_d_HM dt) else None.

(** [_parse_dt_from_url(url)] *)
Definition _parse_dt_from_url (url : pystr) : option pystr :=
  match Re.search _url_dt_dash_re url with
  | Some c => ymd_of c
  | None =>
      match Re.search _url_dt_compact_re url with
      | Some c => ymd_of c
      | None => None
      end
  end.

(** [(\d+)\s*<unit>[前]?] *)
Definition relative_re (unit : string) : Re.regex :=
  Re.seqs [Re.Grp 1 (Re.plus Re.digit); Re.star Re.space; Re.str (u8 unit);
           Re.opt (Re.lit 21069)].

(** The amounts of [_infer_relative_time], in seconds per unit, in the order
    they are tried. *)
Definition relative_units : list (string * Z) :=
  [("分钟", 60); ("小时", 3600); ("天", 86400); ("个月", 30 * 86400)]%string.

(** What a page crawl returned. *)
Record crawl_result := mkcrawl {
  success : bool;
  extracted_content : pystr;
  markdown : pystr;
  cleaned_html : pystr;
}.

(** A news item being completed. *)
Record item := mkitem {
  title : pystr;
  snippet : pystr;
  url : pystr;
}.

Section Time.

Context (W : World).

(** The offset of the system's time zone, seconds east of UTC
    ([astimezone] reads a naive time in it), and [datetime.utcnow()]. *)
Variable local_offset : Z.
Variable utcnow : Dates.datetime.

(** [dt.astimezone(CHINA_TZ)] of a naive [dt]. *)
Definition to_china (dt : Dates.datetime) : option Dates.datetime :=
  Dates.shift_seconds dt (CHINA_TZ - local_offset).

(** [_infer_relative_time(text, ref_dt)]; [Raised] is the [OverflowError]
    of an amount that leaves the calendar. *)
Definition _infer_relative_time (text : pystr) (ref_dt : Dates.datetime)
    : outcome (option pystr) :=
  match text with
  | [] => Returned None
  | _ =>
      let base :=
        match to_china ref_dt with
        | Some b => b
        | None => default (now W) (to_china (now W))
        end in
      let first :=
        fold_left
          (fun found '(unit, secs) =>
             match found with
             | Some _ => found
             | None =>
                 match Re.search (relative_re unit) text with
                 | Some c => Some (Dates.int_of (default [] (Re.group 1 c)) * secs)
                 | None => None
                 end
             end)
          relative_units None in
      match first with
      | Some delta =>
          match Dates.shift_seconds base (- delta) with
          | Some dt => Returned (Some (Dates.strftime_Y_m_d_HM dt))
          | None => Raised (u8 "date value out of range")
          end
      | None => Returned None
      end
  end.

(** Step 1 of [_extract_publish_time_and_text]: the first of [TIME_KEYS]
    whose value in the extracted schema parses as a time. *)
Fixpoint schema_time (keys : list pystr) (data : dict) : option (option pystr) :=
  match keys with
  | [] => Some None
  | k :: rest =>
      let val :=
        match dict_get k data with
        | Some v => if truthy v then Some v else Some (JStr [])
        | None => Some (JStr [])
        end in
      match val with
      | Some (JStr v) =>
          match strip v with
          | [] => schema_time rest data
          | val =>
              match _parse_any_dt_cn (length val) val with
              | Some (Some dt) => Some (Some (Dates.strftime_Y_m_d_HM dt))
              | Some None => schema_time rest data
              | None => None
              end
          end
      | _ => None
      end
  end.

Definition schema_published_at (r : crawl_result) : pystr :=
  if success r && bool_decide (extracted_content r <> []) then
    match json_loads W (extracted_content r) with
    | Some data =>
        let data := if truthy data then data else JDict [] in
        match data with
        | JDict d => default [] (default None (schema_time TIME_KEYS d))
        | _ => []
        end
    | None => []
    end
  else [].

(** [<[^>]+>] *)
Definition tag_re : Re.regex :=
  Re.seqs [Re.lit 60; Re.plus (Re.Chr (fun c => negb (c =? 62)%N)); Re.lit 62].

(** The page text steps 2 and 3 work on. *)
Definition page_md_of (r : crawl_result) : pystr :=
  match strip (markdown r) with
  | [] =>
      match cleaned_html r with
      | [] => []
      | html => Re.sub tag_re [32%N] html
      end
  | md => md
  end.

(** Step 3: the date found in the visible text.  When [re] refuses the
    pattern, [re.search] raises and the handler of the step passes. *)
Definition visible_published_at (page_md : pystr) : pystr :=
  match visible_date_re with
  | None => []
  | Some pattern =>
      match Re.search pattern page_md with
      | Some c =>
          match Re.group 1 c with
          | Some g =>
              match _parse_any_dt_cn (length g) g with
              | Some (Some dt) => Dates.strftime_Y_m_d_HM dt
              | _ => []
              end
          | None => []
          end
      | None => []
      end
  end.

Definition or_else (a b : pystr) : pystr :=
  match a with [] => b | _ => a end.

(** The [published_at] of [_extract_publish_time_and_text(crawler, url)] on
    the crawl result [r]: schema fields, then the visible text, then the
    URL. *)
Definition extracted_published_at (r : crawl_result) (url : pystr) : pystr :=
  match url with
  | [] => []
  | _ =>
      or_else (schema_published_at r)
        (or_else (visible_published_at (page_md_of r))
           (default [] (_parse_dt_from_url url)))
  end.

(** The end of the news window: the request's [end_date], today when it
    does not parse or lies in the future. *)
Definition crawl_end_dt (end_date : option pystr) : Dates.datetime :=
  let end_dt :=
    match end_date with
    | Some (c :: s) =>
        let fmt := if py_in (u8 "-") (c :: s) then Dates.F_Y_m_d else Dates.F_Ymd in
        default utcnow (Dates.strptime fmt (c :: s))
    | _ => utcnow
    end in
  if Dates.later end_dt utcnow then utcnow else end_dt.

(** The [published_at] an item ends with in [_process_news_with_crawl4ai]:
    the preliminary URL date, overwritten by what the article page gave,
    then the URL again, then a relative phrase of the snippet and title. *)
Definition resolve_published_at (it : item) (page : option crawl_result)
    (end_dt : Dates.datetime) : outcome pystr :=
  let prelim_pt := default [] (_parse_dt_from_url (url it)) in
  let pub :=
    match page with
    | Some r => extracted_published_at r (url it)
    | None => []
    end in
  let published_at := or_else pub prelim_pt in
  let published_at :=
    or_else published_at (default [] (_parse_dt_from_url (url it))) in
  match published_at with
  | [] =>
      match _infer_relative_time (snippet it ++ [32%N] ++ title it) end_dt with
      | Returned rel => Returned (default [] rel)
      | Raised e => Raised e
      end
  | _ => Returned published_at
  end.

End Time.

End Crawler.

(** ** core/result_manager.py: the artifact store *)

Module ResultManager.

(** A file below the base directory: [<base>/<stock_code>/<date_dir>/<name>].
    The store maps the files that exist to the JSON document they hold.
    Writing does not fail here: the handlers of [save_report] and
    [save_tool_result], which return the empty path when the file system or
    [json.dump] raises, are left out.  A directory is there when it holds a
    file; one the source creates and leaves empty is not in the store. *)
Abbreviation path := (pystr * pystr * pystr)%type.
Abbreviation store := (gmap path json).

Definition filepath_str (p : path) : pystr :=
  let '(stock, date, name) := p in
  u8 "result/" ++ stock ++ u8 "/" ++ date ++ u8 "/" ++ name.

(** Lexicographic order on strings, and [sorted(...)]. *)
Fixpoint str_leb (a b : pystr) : bool :=
  match a, b with
  | [], _ => true
  | _ :: _, [] => false
  | x :: a', y :: b' => (x <? y)%N || ((x =? y)%N && str_leb a' b')
  end.

Fixpoint insert_sorted (x : pystr) (l : list pystr) : list pystr :=
  match l with
  | [] => [x]
  | y :: l' => if str_leb x y then x :: l else y :: insert_sorted x l'
  end.

Definition sorted (l : list pystr) : list pystr := fold_right insert_sorted [] l.

Section WithWorld.

Context (W : World).

(** [_parse_date(date_str)]; [None] is its [ValueError]. *)
Definition _parse_date (date_str : pystr) : option Dates.datetime :=
  match date_str with
  | [] => None
  | _ =>
      Dates.first_format
        [Dates.F_Y_m_d; Dates.F_Ymd; Dates.F_Y_slash; Dates.F_Y_dot; Dates.F_Y_cn]
        date_str
  end.

(** The directory name [_get_date_dir] chooses for [end_date]: the parsed
    date as YYYYMMDD, today when it is absent, empty or does not parse. *)
Definition _get_date_dir (end_date : option pystr) : pystr :=
  match end_date with
  | Some (c :: s) =>
      match _parse_date (c :: s) with
      | Some parsed_date => Dates.strftime_Ymd parsed_date
      | None => Dates.strftime_Ymd (now W)
      end
  | _ => Dates.strftime_Ymd (now W)
  end.

Definition RECENT_TWO_YEARS : pystr := u8 "近两年数据".

(** [_get_analysis_period(end_date)] *)
Definition _get_analysis_period (end_date : option pystr) : pystr :=
  match end_date with
  | Some (c :: s) =>
      match _parse_date (c :: s) with
      | Some end_dt =>
          match Dates.replace_year end_dt (Dates.year end_dt - 2) with
          | Some start_dt =>
              Dates.strftime_Y_m_d start_dt ++ u8 " 至 " ++ Dates.strftime_Y_m_d end_dt
          | None => RECENT_TWO_YEARS
          end
      | None => RECENT_TWO_YEARS
      end
  | _ => RECENT_TWO_YEARS
  end.

(** [_dt.now().strftime("%Y-%m-%d %H:%M:%S")] *)
Definition timestamp : pystr :=
  Dates.strftime_Y_m_d_HM (now W) ++ [58%N] ++ zpad 2 (Dates.second (now W)).

(** [save_report(stock_code, report_type, report_data, report_name, end_date)]:
    the store after the write and the path returned. *)
Definition save_report (st : store) (stock_code report_type : pystr)
    (report_data : json) (report_name end_date : option pystr) : store * pystr :=
  let date_dir := _get_date_dir end_date in
  let report_name :=
    match report_name with
    | None => report_type ++ u8 "_report"
    | Some n => n
    end in
  let filename := report_name ++ u8 ".json" in
  let payload := JDict [
    (u8 "report_type", JStr report_type);
    (u8 "timestamp", JStr timestamp);
    (u8 "analysis_period", JStr (_get_analysis_period end_date));
    (u8 "data", report_data)] in
  let p := (stock_code, date_dir, filename) in
  (<[p := payload]> st, filepath_str p).

(** [save_tool_result(stock_code, tool_name, tool_result, end_date)] *)
Definition save_tool_result (st : store) (stock_code tool_name : pystr)
    (tool_result : json) (end_date : option pystr) : store * pystr :=
  let date_dir := _get_date_dir end_date in
  let filename := tool_name ++ u8 "_tool_result.json" in
  let head := [
    (u8 "tool", JStr tool_name);
    (u8 "timestamp", JStr timestamp);
    (u8 "analysis_period", JStr (_get_analysis_period end_date))] in
  let payload :=
    match tool_result with
    | JDict _ | JList _ => head ++ [(u8 "data", tool_result)]
    | JStr s =>
        match json_loads W s with
        | Some parsed => head ++ [(u8 "data", parsed)]
        | None => head ++ [(u8 "text", JStr s)]
        end
    | other => head ++ [(u8 "text", JStr (py_str W other))]
    end in
  let p := (stock_code, date_dir, filename) in
  (<[p := JDict payload]> st, filepath_str p).

(** [load_tool_result(stock_code, tool_name, end_date)] *)
Definition load_tool_result (st : store) (stock_code tool_name : pystr)
    (end_date : option pystr) : option json :=
  st !! (stock_code, _get_date_dir end_date, tool_name ++ u8 "_tool_result.json").

(** [load_news_data(stock_code, end_date)]; a structured document that is
    truthy and not a dict has no [get], and the handler returns [None]. *)
Definition load_news_data (st : store) (stock_code : pystr)
    (end_date : option pystr) : option json :=
  let basic :=
    match load_tool_result st stock_code (u8 "news_sentiment") end_date with
    | Some v => if truthy v then Some v else None
    | None => None
    end in
  match load_tool_result st stock_code (u8 "news_sentiment_structured") end_date with
  | Some structured_data =>
      if truthy structured_data then
        match structured_data with
        | JDict d =>
            match dict_get (u8 "data") d with
            | Some data => if truthy data then Some structured_data else basic
            | None => basic
            end
        | _ => None
        end
      else basic
  | None => basic
  end.

(** [report_mapping] of [save_all_reports] *)
Definition report_mapping : list (pystr * pystr) :=
  map (fun '(k, v) => (u8 k, u8 v))
    [("fundamental_report", "fundamental"); ("technical_report", "technical");
     ("sentiment_report", "sentiment"); ("news_report", "news");
     ("fund_report", "fund"); ("bull_report", "bull"); ("bear_report", "bear");
     ("debate_report", "debate"); ("supervisor_report", "supervisor")]%string.

(** [save_all_reports(stock_code, state)]: the store after the writes and the
    [saved_files] dict. *)
Definition save_all_reports (st : store) (stock_code : pystr) (state : dict)
    : store * dict :=
  let end_date :=
    match dict_get (u8 "end_date") state with
    | Some (JStr s) => Some s
    | _ => None
    end in
  fold_left
    (fun '(st, saved) '(report_key, report_type) =>
       match dict_get report_key state with
       | Some v =>
           if truthy v then
             let '(st', filepath) :=
               save_report st stock_code report_type v None end_date in
             match filepath with
             | [] => (st', saved)
             | _ => (st', dict_set report_key (JStr filepath) saved)
             end
           else (st, saved)
       | None => (st, saved)
       end)
    report_mapping (st, []).

End WithWorld.

(** The names of the files in one directory of the store. *)
Definition names_in (st : store) (stock_code date_dir : pystr) : gset pystr :=
  set_map (fun p : path => p.2)
    (filter (fun p : path => p.1.1 = stock_code /\ p.1.2 = date_dir) (dom st)).

(** The date directories of a symbol. *)
Definition date_dirs (st : store) (stock_code : pystr) : gset pystr :=
  set_map (fun p : path => p.1.2)
    (filter (fun p : path => p.1.1 = stock_code) (dom st)).

(** [get_result_summary(stock_code)]: the listing of every date directory of
    the symbol, latest first, with its [.md] and [.json] files. *)
Definition get_result_summary (st : store) (stock_code : pystr) : pystr :=
  let dirs := rev (sorted (elements (date_dirs st stock_code))) in
  fold_left
    (fun summary date_dir =>
       let files :=
         filter (fun f => endswith (u8 ".md") f || endswith (u8 ".json") f = true)
           (elements (names_in st stock_code date_dir)) in
       summary ++ u8 "## " ++ date_dir ++ u8 " 分析结果" ++ [10; 10]%N
         ++ u8 "**文件总数**: " ++ str_of_nonneg (Z.of_nat (length files)) ++ [10; 10]%N
         ++ concat (map (fun f => u8 "- " ++ f ++ [10%N]) (sorted files))
         ++ [10%N])
    dirs
    (u8 "# 股票 " ++ stock_code ++ u8 " 分析结果摘要" ++ [10; 10]%N).

End ResultManager.

(** ** tools/tushare_provider.py: the fetch window *)

Module TushareProvider.

Section WithWorld.

Context (W : World).

(** [_get_date_range(end_date, years)]: the [(start_date, end_date)] pair of
    YYYYMMDD strings every fetch passes to the vendor; [None] is the
    [OverflowError] of a start before year 1. *)
Definition _get_date_range (end_date : option pystr) (years : Z)
    : option (pystr * pystr) :=
  let end_date_dt :=
    match end_date with
    | None => now W
    | Some s =>
        match Dates.first_format [Dates.F_Ymd; Dates.F_Y_m_d; Dates.F_Y_slash] s with
        | Some dt => dt
        | None => now W
        end
    end in
  match Dates.sub_days end_date_dt (365 * years) with
  | Some start_date_dt =>
      Some (Dates.strftime_Ymd start_date_dt, Dates.strftime_Ymd end_date_dt)
  | None => None
  end.

End WithWorld.

End TushareProvider.

(** ** tools/stock_tools.py: the acquisition tools *)

Module StockTools.

(** What a worker hands back for one interface. *)
Record payload := mkpayload {
  summary : pystr;
  raw : list json;
}.

(** One entry of [interface_results]. *)
Record interface_result := mkiface {
  objective : pystr;
  result : pystr;
  raw_rows : list json;
  status : pystr;
}.

Definition SUCCESS : pystr := u8 "success".
Definition ERROR : pystr := u8 "error".

(** The four diagnostics the tools look for in a summary. *)
Definition diagnostics : list pystr :=
  map u8 ["生成报告时出错"; "生成摘要时出错"; "数据获取失败"; "Error code:"]%string.

(** ["success" if not any(err in summary for err in [...]) else "error"] *)
Definition status_of (summary : pystr) : pystr :=
  if negb (any_in diagnostics summary) then SUCCESS else ERROR.

(** The entry a tool records for a worker's payload. *)
Definition entry_of (objective : pystr) (p : payload) : interface_result :=
  mkiface objective (summary p) (raw p) (status_of (summary p)).

Definition iface_json (r : interface_result) : json :=
  JDict [(u8 "objective", JStr (objective r)); (u8 "result", JStr (result r));
         (u8 "raw", JList (raw_rows r)); (u8 "status", JStr (status r))].

(** The date range a worker describes when its table is empty. *)
Inductive window :=
| WComputed (start_date end_date : pystr)
| WUnparsed      (* [strptime] raised [ValueError] *)
| WAbsent        (* no [end_date] *)
| WOverflow.     (* the subtraction raised [OverflowError] *)

(** [datetime.strptime(end_date, '%Y%m%d') - timedelta(days=days)] under
    [if end_date: try: ... except ValueError: ...]. *)
Definition window_of (end_date : option pystr) (days : Z) : window :=
  match end_date with
  | Some (c :: s) =>
      match Dates.strptime Dates.F_Ymd (c :: s) with
      | Some end_date_dt =>
          match Dates.sub_days end_date_dt days with
          | Some start_date_dt => WComputed (Dates.strftime_Ymd start_date_dt) (c :: s)
          | None => WOverflow
          end
      | None => WUnparsed
      end
  | _ => WAbsent
  end.

Definition OVERFLOW_MSG : pystr := u8 "date value out of range".

Definition fetch_failed (objective e : pystr) : payload :=
  mkpayload (u8 "【" ++ objective ++ u8 "】: 数据获取失败 - " ++ e) [].

Definition utf8_pairs (l : list (string * string)) : list (pystr * pystr) :=
  map (fun '(k, v) => (u8 k, u8 v)) l.

(** The keys of [data_fetch_methods]. *)
Definition data_fetch_methods : list pystr :=
  map u8 ["fina_indicator"; "daily_basic"; "dividend"; "income"; "balance";
          "cashflow"; "forecast"; "express"; "mainbz"; "pro_bar"; "pro_bar_W";
          "pro_bar_M"; "stk_factor"; "limit_list"; "top10_holders";
          "top10_floatholders"; "stk_holdernumber"; "moneyflow_ths";
          "moneyflow_cnt_ths"; "moneyflow_ind_ths"; "moneyflow_mkt_dc";
          "moneyflow_ind_dc"; "top_list"; "top_inst"; "moneyflow_hsgt";
          "cyq_perf"]%string.

Definition data_objectives : list (pystr * pystr) :=
  utf8_pairs
    [("fina_indicator", "盈利能力与财务指标"); ("daily_basic", "每日估值水平");
     ("dividend", "股东分红回报"); ("income", "营业收入与利润构成");
     ("balance", "资产与负债结构"); ("cashflow", "现金流量质量");
     ("forecast", "未来业绩预期"); ("mainbz", "主营业务构成")]%string.

Definition fund_data_objectives : list (pystr * pystr) :=
  utf8_pairs
    [("top10_holders", "前十大股东持股情况");
     ("top10_floatholders", "前十大流通股东持股情况");
     ("stk_holdernumber", "股东人数"); ("moneyflow_ths", "个股主力动向");
     ("moneyflow_cnt_ths", "板块主力动向"); ("moneyflow_ind_ths", "行业主力动向");
     ("moneyflow_mkt_dc", "大盘资金流向"); ("moneyflow_ind_dc", "板块资金流向");
     ("top_list", "龙虎榜每日统计"); ("top_inst", "龙虎榜机构明细");
     ("moneyflow_hsgt", "北向资金"); ("cyq_perf", "每日筹码分布")]%string.

Definition tech_data_objectives : list (pystr * pystr) :=
  utf8_pairs
    [("pro_bar_D", "短期（日线K线与均线走势）"); ("pro_bar_W", "中期（周线K线与均线走势）");
     ("pro_bar_M", "长期（月线K线与均线走势）");
     ("stk_factor", "技术指标（MACD/RSI/KDJ等）"); ("daily_basic", "估值与成交特征");
     ("limit_list", "涨跌停与市场情绪")]%string.

Definition news_data_objectives : list (pystr * pystr) :=
  utf8_pairs
    [("news", "快讯新闻分析"); ("major_news", "重要新闻分析");
     ("cctv_news", "央视新闻分析")]%string.

Definition mem (k : pystr) (l : list pystr) : bool := existsb (str_eqb k) l.

Section WithWorld.

Context (W : World).

(** [df is not None and not df.empty] *)
Definition has_rows (r : option table) : option table :=
  match r with
  | Some df => if table_empty df then None else Some df
  | None => None
  end.

(** [_process_data_type(provider, processor, dtype, objective, stock_code,
    end_date)] *)
Definition _process_data_type (dtype objective stock_code : pystr)
    (end_date : option pystr) : payload :=
  if mem dtype data_fetch_methods then
    match fetch W Fundamental dtype stock_code end_date with
    | Raised e => fetch_failed objective e
    | Returned r =>
        match has_rows r with
        | Some df =>
            mkpayload (DataProcessor.process_and_summarize W df objective)
                      (to_records df)
        | None =>
            let described (date_range : pystr) :=
              let base :=
                u8 "【" ++ objective ++ u8 "】: 在" ++ date_range ++ u8 "之间"
                  ++ objective ++ u8 "数据为空" in
              if str_eqb dtype (u8 "moneyflow_cnt_ths") then
                mkpayload (base ++ u8 "。板块主力动向数据通常有1-2天延迟，建议查询前一个交易日的数据。") []
              else if str_eqb dtype (u8 "moneyflow_hsgt") then
                mkpayload (base ++ u8 "。北向资金数据通常有1天延迟，建议查询前一个交易日的数据。") []
              else mkpayload base [] in
            match window_of end_date (365 * 2) with
            | WComputed start_date e => described (start_date ++ u8 "到" ++ e)
            | WUnparsed => described (u8 "指定日期范围内")
            | WAbsent => described (u8 "近两年")
            | WOverflow => fetch_failed objective OVERFLOW_MSG
            end
        end
    end
  else
    mkpayload (u8 "【" ++ objective ++ u8 "】: 不支持的数据类型 '" ++ dtype ++ u8 "'") [].

(** The empty-table message shared, word for word, by the fund, technical
    and news workers. *)
Definition empty_message (objective : pystr) (end_date : option pystr)
    (days : Z) (absent : pystr) : payload :=
  let described (prefix : pystr) :=
    mkpayload (u8 "【" ++ objective ++ u8 "】: " ++ prefix ++ objective
                 ++ u8 "数据为空") [] in
  match window_of end_date days with
  | WComputed start_date e => described (start_date ++ u8 "到" ++ e ++ u8 "之间")
  | WUnparsed => described (u8 "指定日期范围内")
  | WAbsent => described absent
  | WOverflow => fetch_failed objective OVERFLOW_MSG
  end.

Definition undefined_type (what dtype : pystr) : payload :=
  mkpayload (what ++ dtype) [].

(** [_process_fund_data_with_llm(processor, provider, stock_code, end_date,
    data_type, objective)] *)
Definition _process_fund_data_with_llm (stock_code : pystr)
    (end_date : option pystr) (data_type objective : pystr) : payload :=
  if mem data_type (map fst fund_data_objectives) then
    match fetch W Fund data_type stock_code end_date with
    | Raised e => fetch_failed objective e
    | Returned r =>
        match has_rows r with
        | Some df =>
            mkpayload (u8 "【" ++ objective ++ u8 "】" ++ [10%N]
                         ++ DataProcessor._analyze_fund_table W df objective)
                      (to_records df)
        | None => empty_message objective end_date (365 * 2) (u8 "近两年内")
        end
    end
  else undefined_type (u8 "未定义的数据类型: ") data_type.

(** [_process_tech_data_with_llm(...)] *)
Definition _process_tech_data_with_llm (stock_code : pystr)
    (end_date : option pystr) (data_type objective : pystr) : payload :=
  if mem data_type (map fst tech_data_objectives) then
    match fetch W Tech data_type stock_code end_date with
    | Raised e => fetch_failed objective e
    | Returned r =>
        match has_rows r with
        | Some df =>
            mkpayload (u8 "【" ++ objective ++ u8 "】" ++ [10%N]
                         ++ DataProcessor._analyze_tech_table W df objective)
                      (to_records df)
        | None => empty_message objective end_date (365 * 2) (u8 "近两年内")
        end
    end
  else undefined_type (u8 "未定义的数据类型: ") data_type.

(** [_process_news_data_with_llm(...)] *)
Definition _process_news_data_with_llm (stock_code : pystr)
    (end_date : option pystr) (data_type objective : pystr) : payload :=
  if mem data_type (map fst news_data_objectives) then
    match fetch W News data_type stock_code end_date with
    | Raised e => fetch_failed objective e
    | Returned r =>
        match has_rows r with
        | Some df =>
            let input_ratio :=
              if str_eqb data_type (u8 "news") then PyFloat.lit 55 100
              else PyFloat.lit 65 100 in
            match DataProcessor.analyze_news_batched W df objective None 600 65000
                    input_ratio with
            | Returned text =>
                mkpayload (u8 "【" ++ objective ++ u8 "】" ++ [10%N] ++ text)
                          (to_records df)
            | Raised e => fetch_failed objective e
            end
        | None => empty_message objective end_date 3 (u8 "近3天内")
        end
    end
  else undefined_type (u8 "未定义的新闻数据类型: ") data_type.

(** The collection loop of a tool: one entry per interface, keyed by its
    name.  (The source fills the dict in completion order; the entries do
    not depend on it.)  Every worker returns a payload from each of its
    paths, its own [except Exception] included, so [future.result()] does
    not raise and [if payload] holds: the handler of the loop, which would
    record "处理失败" with the status "error", is never entered. *)
Definition collect (worker : pystr -> pystr -> payload)
    (objectives : list (pystr * pystr)) : list (pystr * interface_result) :=
  map (fun '(dtype, obj) => (dtype, entry_of obj (worker dtype obj))) objectives.

Definition count_status (s : pystr) (ifaces : list (pystr * interface_result)) : Z :=
  Z.of_nat (length (filter (fun e => status e.2 = s) ifaces)).

(** The [final_result] dict of a tool. *)
Definition final_result (analysis_type : pystr) (extra : dict)
    (ifaces : list (pystr * interface_result)) : json :=
  JDict ([(u8 "analysis_type", JStr analysis_type)] ++ extra ++
         [(u8 "interfaces", JDict (map (fun e => (e.1, iface_json e.2)) ifaces));
          (u8 "summary", JDict [
             (u8 "total_interfaces", JInt (Z.of_nat (length ifaces)));
             (u8 "successful_interfaces", JInt (count_status SUCCESS ifaces));
             (u8 "error_interfaces", JInt (count_status ERROR ifaces))])]).

Definition SEP : pystr := [10%N] ++ u8 "---" ++ [10%N].

(** [_format_result_as_text(result_data)] for a [final_result] with the given
    overview and interfaces. *)
Definition _format_result_as_text (result_data : json)
    (company_overview : list pystr) (analysis_type : pystr)
    (ifaces : list (pystr * interface_result)) : pystr :=
  let overview_part :=
    match company_overview with
    | [] => []
    | _ => [u8 "公司概况：" ++ [10%N] ++ join SEP company_overview]
    end in
  let interface_part :=
    match ifaces with
    | [] => []
    | _ =>
        let interface_texts :=
          map (fun e : pystr * interface_result =>
                 let status_prefix :=
                   if str_eqb (status e.2) SUCCESS then u8 "✅"
                   else if str_eqb (status e.2) ERROR then u8 "❌"
                   else u8 "⚠️" in
                 status_prefix ++ u8 "【" ++ objective e.2 ++ u8 "】" ++ [10%N]
                   ++ result e.2) ifaces in
        [analysis_type ++ u8 "：" ++ [10%N] ++ join SEP interface_texts]
    end in
  match overview_part ++ interface_part with
  | [] => py_str W result_data
  | text_parts => join SEP text_parts
  end.

Import ResultManager.

(** [get_fundamental_data(stock_code, end_date)]: the store after the tool
    has saved its result, the text it returns, and the interfaces it
    assembled. *)
Definition get_fundamental_data (st : store) (stock_code : pystr)
    (end_date : option pystr)
    : store * pystr * list (pystr * interface_result) :=
  let save r := (save_tool_result W st stock_code (u8 "fundamental_data") r end_date).1 in
  match cm W with
  | CmInitRaises e =>
      let error_result := u8 "cache_manager初始化失败: " ++ e in
      (save (JStr error_result), error_result, [])
  | CmNoProvider =>
      let error_result := u8 "数据提供者未初始化" in
      (save (JStr error_result), error_result, [])
  | CmReady =>
      let interface_results :=
        collect (fun dtype obj => _process_data_type dtype obj stock_code end_date)
          data_objectives in
      let company_summaries :=
        match company_summary W stock_code with
        | Some (c :: s) => [c :: s]
        | _ => []
        end in
      let analysis_type := u8 "基本面数据分析" in
      let final :=
        final_result analysis_type
          [(u8 "company_overview", JList (map JStr company_summaries))]
          interface_results in
      (save final,
       _format_result_as_text final company_summaries analysis_type interface_results,
       interface_results)
  end.

(** [_get_mock_fund_data(stock_code)] *)
Definition _get_mock_fund_data (stock_code : pystr) : json :=
  JDict [
    (u8 "analysis_type", JStr (u8 "资金流向数据分析"));
    (u8 "interfaces", JDict []);
    (u8 "summary", JDict [(u8 "total_interfaces", JInt 0);
                          (u8 "successful_interfaces", JInt 0);
                          (u8 "error_interfaces", JInt 0)]);
    (u8 "note", JDict [
       (u8 "type", JStr (u8 "mock"));
       (u8 "message", JList [
          JStr (u8 "【资金流向】" ++ stock_code ++ u8 " 主力资金持续流入，机构资金大幅增持，散户小幅流入");
          JStr (u8 "【资金结构】" ++ stock_code ++ u8 " 主力资金占比70%，机构25%，散户5%");
          JStr (u8 "【资金趋势】" ++ stock_code ++ u8 " 资金流入趋势持续上升，市场热度提升")])])].

(** [get_fund_data(stock_code, end_date)] *)
Definition get_fund_data (st : store) (stock_code : pystr)
    (end_date : option pystr)
    : store * pystr * list (pystr * interface_result) :=
  let save r := (save_tool_result W st stock_code (u8 "fund_data") r end_date).1 in
  match cm W with
  | CmInitRaises e =>
      let error_result :=
        JDict [(u8 "analysis_type", JStr (u8 "资金流向数据分析"));
               (u8 "error", JStr (u8 "cache_manager初始化失败: " ++ e))] in
      (save error_result, json_dumps W error_result, [])
  | CmNoProvider =>
      let mock := _get_mock_fund_data stock_code in
      (save mock, json_dumps W mock, [])
  | CmReady =>
      let interface_results :=
        collect (fun dtype obj => _process_fund_data_with_llm stock_code end_date dtype obj)
          fund_data_objectives in
      let analysis_type := u8 "资金流向数据分析" in
      let final := final_result analysis_type [] interface_results in
      (save final,
       _format_result_as_text final [] analysis_type interface_results,
       interface_results)
  end.

(** [_get_mock_tech_data(stock_code)] *)
Definition _get_mock_tech_data (stock_code : pystr) : pystr :=
  join [10%N] [
    u8 "【技术指标】" ++ stock_code ++ u8 " MACD金叉，RSI超卖，KDJ低位金叉";
    u8 "【K线形态】" ++ stock_code ++ u8 " 形成头肩底形态，突破颈线位，上涨趋势明显";
    u8 "【成交量】" ++ stock_code ++ u8 " 成交量放大，市场关注度提升"].

(** [get_tech_data(stock_code, end_date)]; a provider without
    [fetch_pro_bar_data] is treated as no provider. *)
Definition get_tech_data (st : store) (stock_code : pystr)
    (end_date : option pystr)
    : store * pystr * list (pystr * interface_result) :=
  let save r := (save_tool_result W st stock_code (u8 "tech_data") r end_date).1 in
  match cm W with
  | CmInitRaises _ | CmNoProvider =>
      let mock := _get_mock_tech_data stock_code in
      (save (JStr mock), mock, [])
  | CmReady =>
      let interface_results :=
        collect (fun dtype obj => _process_tech_data_with_llm stock_code end_date dtype obj)
          tech_data_objectives in
      let analysis_type := u8 "技术数据分析" in
      let final := final_result analysis_type [] interface_results in
      (save final,
       _format_result_as_text final [] analysis_type interface_results,
       interface_results)
  end.

(** [_get_mock_news_data(stock_code)] *)
Definition _get_mock_news_data (stock_code : pystr) : pystr :=
  join [10%N] [
    u8 "【新闻摘要】" ++ stock_code ++ u8 " 相关新闻显示公司业绩稳健增长，市场关注度提升";
    u8 "【情绪分析】" ++ stock_code ++ u8 " 新闻情绪偏向正面，投资者信心增强";
    u8 "【重要事件】" ++ stock_code ++ u8 " 近期发布重要公告，对股价产生积极影响"].

(** [interface_results.get(k, {}).get('result')] when it is truthy. *)
Definition result_of (k : pystr) (ifaces : list (pystr * interface_result))
    : list pystr :=
  match filter (fun e : pystr * interface_result => e.1 = k) ifaces with
  | e :: _ => match result e.2 with [] => [] | r => [r] end
  | [] => []
  end.

(** The [combined_summary] of [get_news]. *)
Definition combined_summary (ifaces : list (pystr * interface_result)) : pystr :=
  match result_of (u8 "news") ifaces ++ result_of (u8 "major_news") ifaces
          ++ result_of (u8 "cctv_news") ifaces with
  | [] => u8 "暂无新闻摘要"
  | combined_summaries =>
      join ([10; 10]%N ++ u8 "====" ++ [10; 10]%N) combined_summaries
  end.

(** [get_news(stock_code, end_date)] *)
Definition get_news (st : store) (stock_code : pystr) (end_date : option pystr)
    : store * pystr * list (pystr * interface_result) :=
  let save r := (save_tool_result W st stock_code (u8 "news_data") r end_date).1 in
  match cm W with
  | CmInitRaises e =>
      let error_result := u8 "cache_manager初始化失败: " ++ e in
      (save (JStr error_result), error_result, [])
  | _ =>
      if news_provider_ready W then
        let interface_results :=
          collect (fun dtype obj => _process_news_data_with_llm stock_code end_date dtype obj)
            news_data_objectives in
        let overall_summary_text := combined_summary interface_results in
        let final :=
          final_result (u8 "新闻数据分析")
            [(u8 "combined_summary", JStr overall_summary_text)] interface_results in
        (save final, overall_summary_text, interface_results)
      else
        let mock := _get_mock_news_data stock_code in
        (save (JStr mock), mock, [])
  end.

(** The four tools side by side: the worker each runs per interface, its
    table of objectives, the length of the window its empty-table message
    describes, what that message says when no end date was given, and the
    interfaces it assembles. *)
Definition worker (tool : tool_kind) (stock_code : pystr)
    (end_date : option pystr) (dtype objective : pystr) : payload :=
  match tool with
  | Fundamental => _process_data_type dtype objective stock_code end_date
  | Fund => _process_fund_data_with_llm stock_code end_date dtype objective
  | Tech => _process_tech_data_with_llm stock_code end_date dtype objective
  | News => _process_news_data_with_llm stock_code end_date dtype objective
  end.

Definition tool_interfaces (tool : tool_kind) (st : store) (stock_code : pystr)
    (end_date : option pystr) : list (pystr * interface_result) :=
  match tool with
  | Fundamental => (get_fundamental_data st stock_code end_date).2
  | Fund => (get_fund_data st stock_code end_date).2
  | Tech => (get_tech_data st stock_code end_date).2
  | News => (get_news st stock_code end_date).2
  end.

End WithWorld.

Definition objectives (tool : tool_kind) : list (pystr * pystr) :=
  match tool with
  | Fundamental => data_objectives
  | Fund => fund_data_objectives
  | Tech => tech_data_objectives
  | News => news_data_objectives
  end.

Definition window_days (tool : tool_kind) : Z :=
  match tool with
  | News => 3
  | _ => 365 * 2
  end.

Definition absent_text (tool : tool_kind) : pystr :=
  match tool with
  | Fundamental => u8 "近两年"
  | News => u8 "近3天内"
  | _ => u8 "近两年内"
  end.

(** The window text of an empty-table summary. *)
Definition window_text (tool : tool_kind) (w : window) : pystr :=
  match w with
  | WComputed start_date end_date => start_date ++ u8 "到" ++ end_date
  | WUnparsed => u8 "指定日期范围内"
  | WAbsent => absent_text tool
  | WOverflow => OVERFLOW_MSG
  end.

End StockTools.

(** ** tools/parsers.py: the report parsers *)

Module Parsers.

Definition FENCE_JSON : pystr := u8 "```json".
Definition FENCE : pystr := u8 "```".

(** The text handed to [json.loads]: the content between a [```json] fence
    and the last [```], or the whole stripped content. *)
Definition json_str (content : pystr) : pystr :=
  let cleaned_content := strip content in
  if py_in FENCE_JSON cleaned_content then
    let start_idx := find FENCE_JSON cleaned_content + 7 in
    let end_idx := rfind FENCE cleaned_content in
    if start_idx <? end_idx
    then strip (slice cleaned_content start_idx end_idx)
    else strip (drop (Z.to_nat start_idx) cleaned_content)
  else cleaned_content.

Definition required_fields : list pystr :=
  map u8 ["analyst_name"; "viewpoint"; "reason"; "scores"; "detailed_analysis"]%string.

(** [for field in required_fields: if field not in report_data:
    report_data[field] = "" if field != 'scores' else {}] on a dict. *)
Definition fill_defaults (d : dict) : dict :=
  fold_left
    (fun d field =>
       match dict_get field d with
       | Some _ => d
       | None =>
           dict_set field
             (if str_eqb field (u8 "scores") then JDict [] else JStr []) d
       end)
    required_fields d.

(** The report of the [json.JSONDecodeError] handler. *)
Definition parse_failed (content : pystr) : json :=
  JDict [
    (u8 "analyst_name", JStr (u8 "分析失败"));
    (u8 "viewpoint", JStr (u8 "中性"));
    (u8 "reason", JStr (u8 "数据解析失败"));
    (u8 "scores", JDict []);
    (u8 "detailed_analysis", JStr (u8 "解析失败: " ++ take 200 content ++ u8 "..."))].

(** The report of the [Exception] handler. *)
Definition system_error (e : pystr) : json :=
  JDict [
    (u8 "analyst_name", JStr (u8 "分析失败"));
    (u8 "viewpoint", JStr (u8 "中性"));
    (u8 "reason", JStr (u8 "系统错误"));
    (u8 "scores", JDict []);
    (u8 "detailed_analysis", JStr (u8 "系统错误: " ++ e))].

Section WithWorld.

Context (W : World).

(** [parse_analyst_report(content)].  A decoded value that is not a dict
    passes the field loop only when every field name already occurs in it
    (as an element of a list, as a substring of a string); otherwise the
    loop raises [TypeError]. *)
Definition parse_analyst_report (content : pystr) : json :=
  match json_loads W (json_str content) with
  | None => parse_failed content
  | Some report_data =>
      match report_data with
      | JDict d => JDict (fill_defaults d)
      | JList l =>
          if forallb (fun f => existsb (is_str f) l) required_fields
          then report_data else system_error (type_error W report_data)
      | JStr s =>
          if forallb (fun f => py_in f s) required_fields
          then report_data else system_error (type_error W report_data)
      | _ => system_error (type_error W report_data)
      end
  end.

(** [parse_supervisor_report(content)] *)
Definition parse_supervisor_report (content : pystr) : json :=
  match json_loads W (json_str content) with
  | Some report_data => report_data
  | None =>
      JDict [(u8 "error", JStr (u8 "Failed to parse supervisor report JSON"));
             (u8 "raw_content", JStr (take 200 content))]
  end.

End WithWorld.

End Parsers.

(** ** graph/nodes/analysis_nodes.py: the analyst nodes *)

Module Nodes.

Import ResultManager StockTools Parsers.

(** The outcome of running a node on the store: the store it leaves and the
    state update it returns, or the exception that escaped it. *)
Inductive node_result :=
| NodeOk (st : store) (update : dict)
| NodeRaised (st : store) (msg : pystr).

(** [state['stock_code']] and [state.get('end_date')] *)
Definition state_stock_code (state : dict) : pystr :=
  match dict_get (u8 "stock_code") state with
  | Some (JStr s) => s
  | _ => []
  end.

Definition state_end_date (state : dict) : option pystr :=
  match dict_get (u8 "end_date") state with
  | Some (JStr s) => Some s
  | _ => None
  end.

(** [state.get(k, {})] *)
Definition state_report (k : string) (state : dict) : json :=
  default (JDict []) (dict_get (u8 k) state).

(** [len(v)] is defined. *)
Definition sized (v : json) : bool :=
  match v with
  | JStr _ | JList _ | JDict _ => true
  | _ => false
  end.

Definition json_of_end_date (end_date : option pystr) : json :=
  match end_date with Some s => JStr s | None => JNull end.

Section WithWorld.

Context (W : World).

(** [_get_analysis_period(end_date)] of the nodes module, the same
    computation as the result manager's. *)
Definition _get_analysis_period (end_date : option pystr) : pystr :=
  match end_date with
  | Some (c :: s) =>
      match ResultManager._parse_date (c :: s) with
      | Some end_dt =>
          match Dates.replace_year end_dt (Dates.year end_dt - 2) with
          | Some start_dt =>
              Dates.strftime_Y_m_d start_dt ++ u8 " 至 " ++ Dates.strftime_Y_m_d end_dt
          | None => RECENT_TWO_YEARS
          end
      | None => RECENT_TWO_YEARS
      end
  | _ => RECENT_TWO_YEARS
  end.

(** The inputs every analyst prompt shares. *)
Definition analyst_inputs (stock_code : pystr) (end_date : option pystr)
    (data_key : string) (data : json) (role : string) : dict :=
  [(u8 "stock_code", JStr stock_code);
   (u8 data_key, data);
   (u8 "role_description", JStr (agent_role W (u8 role)));
   (u8 "analysis_period", JStr (_get_analysis_period end_date))].

(** The tail every analyst node shares: call the chain, parse the response,
    save the report, return it under [report_key]. *)
Definition analyse (st : store) (stock_code : pystr) (end_date : option pystr)
    (prompt : string) (inputs : dict) (report_type report_key : string)
    : node_result :=
  match llm W (Chain (u8 prompt) inputs) with
  | Raised e => NodeRaised st e
  | Returned content =>
      let analyst_report := parse_analyst_report W content in
      let st' := (save_report W st stock_code (u8 report_type) analyst_report
                    (Some (u8 report_key)) end_date).1 in
      NodeOk st' [(u8 report_key, analyst_report)]
  end.

(** [run_fundamental_analysis(state)] *)
Definition run_fundamental_analysis (st : store) (state : dict) : node_result :=
  let stock_code := state_stock_code state in
  let end_date := state_end_date state in
  let '(st1, fundamental_data, _) := get_fundamental_data W st stock_code end_date in
  analyse st1 stock_code end_date "FUNDAMENTAL_PROMPT"
    (analyst_inputs stock_code end_date "fundamental_data" (JStr fundamental_data)
       "fundamental_analyst")
    "fundamental" "fundamental_report".

(** [run_technical_analysis(state)] *)
Definition run_technical_analysis (st : store) (state : dict) : node_result :=
  let stock_code := state_stock_code state in
  let end_date := state_end_date state in
  let '(st1, tech_data, _) := get_tech_data W st stock_code end_date in
  analyse st1 stock_code end_date "TECHNICAL_PROMPT"
    (analyst_inputs stock_code end_date "tech_data" (JStr tech_data)
       "technical_analyst")
    "technical" "technical_report".

(** Step 1 of [run_sentiment_analysis]: the [combined_summary] of the stored
    news tool result; a value [len()] rejects ends in the handler, which
    resets it to the empty string. *)
Definition news_combined_summary_of (news_data : option json) : json :=
  let found :=
    match news_data with
    | Some (JDict d) =>
        match default (JDict []) (dict_get (u8 "data") d) with
        | JDict data_section =>
            default (JStr []) (dict_get (u8 "combined_summary") data_section)
        | _ => default (JStr []) (dict_get (u8 "combined_summary") d)
        end
    | Some (JStr s) => JStr s
    | _ => JStr []
    end in
  if sized found then found else JStr [].

(** The loop over [interfaces.items()]; [None] when it raises (a truthy
    result without [strip]). *)
Fixpoint interface_texts (interfaces : dict) : option (list pystr) :=
  match interfaces with
  | [] => Some []
  | (interface_name, interface_data) :: rest =>
      let here : option (list pystr) :=
        match interface_data with
        | JDict idata =>
            match dict_get (u8 "result") idata with
            | Some result =>
                if truthy result then
                  match result with
                  | JStr r =>
                      match strip r with
                      | [] => Some []
                      | _ =>
                          let objective :=
                            match dict_get (u8 "objective") idata with
                            | Some (JStr o) => o
                            | Some v => py_str W v
                            | None => interface_name
                            end in
                          Some [u8 "【" ++ objective ++ u8 "】" ++ [10%N] ++ r]
                      end
                  | _ => None
                  end
                else Some []
            | None => Some []
            end
        | _ => Some []
        end in
      match here, interface_texts rest with
      | Some a, Some b => Some (a ++ b)
      | _, _ => None
      end
  end.

(** Step 2 of [run_sentiment_analysis]: the per-interface results of the
    stored fundamental tool result. *)
Definition fundamental_result_of (fundamental_data : option json) : json :=
  let found : option json :=
    match fundamental_data with
    | Some (JDict d) =>
        match default (JDict []) (dict_get (u8 "data") d) with
        | JDict data_section =>
            let interfaces :=
              default (JDict []) (dict_get (u8 "interfaces") data_section) in
            if truthy interfaces then
              match interfaces with
              | JDict ifs =>
                  match interface_texts ifs with
                  | Some [] => Some (JStr [])
                  | Some results => Some (JStr (join [10; 10]%N results))
                  | None => None
                  end
              | _ => None
              end
            else Some (default (JStr []) (dict_get (u8 "result") data_section))
        | _ => Some (default (JStr []) (dict_get (u8 "result") d))
        end
    | _ => Some (JStr [])
    end in
  match found with
  | Some v => if sized v then v else JStr []
  | None => JStr []
  end.

(** The fallback on the fundamental report of the state. *)
Definition with_report_backup (fundamental_result : json) (state : dict) : json :=
  if truthy fundamental_result then fundamental_result
  else
    match state_report "fundamental_report" state with
    | JDict (e :: backup) =>
        match dict_get (u8 "reason") (e :: backup) with
        | Some reason => reason
        | None =>
            match dict_get (u8 "detailed_analysis") (e :: backup) with
            | Some detailed => detailed
            | None => fundamental_result
            end
        end
    | _ => fundamental_result
    end.

(** The [sentiment_input] snapshot. *)
Definition sentiment_input (st : store) (state : dict) : json :=
  let stock_code := state_stock_code state in
  let end_date := state_end_date state in
  JDict [
    (u8 "stock_code", JStr stock_code);
    (u8 "end_date", json_of_end_date end_date);
    (u8 "news_combined_summary",
     news_combined_summary_of
       (load_tool_result W st stock_code (u8 "news_data") end_date));
    (u8 "fundamental_result",
     with_report_backup
       (fundamental_result_of
          (load_tool_result W st stock_code (u8 "fundamental_data") end_date))
       state)].

(** [run_sentiment_analysis(state)] *)
Definition run_sentiment_analysis (st : store) (state : dict) : node_result :=
  let stock_code := state_stock_code state in
  let end_date := state_end_date state in
  let input := sentiment_input st state in
  let st1 := (save_tool_result W st stock_code (u8 "sentiment_input") input end_date).1 in
  analyse st1 stock_code end_date "SENTIMENT_PROMPT"
    (analyst_inputs stock_code end_date "sentiment_data"
       (JStr (json_dumps W input)) "sentiment_analyst")
    "sentiment" "sentiment_report".

(** The news data [run_news_analysis] finds in the store, if any. *)
Definition cached_news (st : store) (stock_code : pystr)
    (end_date : option pystr) : option json :=
  match load_news_data W st stock_code end_date with
  | Some news_data_dict =>
      if truthy news_data_dict then
        match news_data_dict with
        | JDict d =>
            let data := default JNull (dict_get (u8 "data") d) in
            let news_data :=
              if truthy data then JStr (json_dumps W data)
              else default (JStr (py_str W news_data_dict)) (dict_get (u8 "result") d) in
            if truthy news_data then Some news_data else None
        | _ => None
        end
      else None
  | None => None
  end.

(** [run_news_analysis(state)] *)
Definition run_news_analysis (st : store) (state : dict) : node_result :=
  let stock_code := state_stock_code state in
  let end_date := state_end_date state in
  let '(st1, news_data) :=
    match cached_news st stock_code end_date with
    | Some news_data => (st, news_data)
    | None =>
        let '(st1, text, _) := get_news W st stock_code end_date in
        (st1, JStr text)
    end in
  analyse st1 stock_code end_date "NEWS_PROMPT"
    (analyst_inputs stock_code end_date "news_data" news_data "news_analyst")
    "news" "news_report".

(** The report [run_fund_analysis] saves when anything in it raised [e]. *)
Definition fund_default_report (e : pystr) : json :=
  JDict [
    (u8 "analyst_name", JStr (u8 "资金流向分析师"));
    (u8 "viewpoint", JStr (u8 "中性"));
    (u8 "reason", JStr (u8 "资金面数据获取失败: " ++ e));
    (u8 "scores", JDict [(u8 "main_capital", JInt 0);
                         (u8 "institution_capital", JInt 0);
                         (u8 "retail_capital", JInt 0)]);
    (u8 "detailed_analysis", JStr (u8 "资金面数据工具调用失败，错误信息: " ++ e))].

(** [run_fund_analysis(state)] *)
Definition run_fund_analysis (st : store) (state : dict) : node_result :=
  let stock_code := state_stock_code state in
  let end_date := state_end_date state in
  let '(st1, fund_data, _) := get_fund_data W st stock_code end_date in
  match analyse st1 stock_code end_date "FUND_PROMPT"
          (analyst_inputs stock_code end_date "fund_data" (JStr fund_data)
             "fund_analyst")
          "fund" "fund_report" with
  | NodeOk st2 update => NodeOk st2 update
  | NodeRaised st2 e =>
      let default_report := fund_default_report e in
      let st3 := (save_report W st2 stock_code (u8 "fund") default_report
                    (Some (u8 "fund_report")) end_date).1 in
      NodeOk st3 [(u8 "fund_report", default_report)]
  end.

(** The [news_summary] [run_supervisor] reads from the store. *)
Definition supervisor_news_summary (st : store) (stock_code : pystr)
    (end_date : option pystr) : json :=
  match load_news_data W st stock_code end_date with
  | Some (JDict news_data) =>
      let combined := default JNull (dict_get (u8 "combined_summary") news_data) in
      if truthy combined then combined
      else
        let result := default JNull (dict_get (u8 "result") news_data) in
        if truthy result then result else JStr []
  | Some (JStr s) => JStr s
  | _ => JStr []
  end.

(** The inputs [run_supervisor] passes to the LLM. *)
Definition supervisor_inputs (st : store) (state : dict) : dict :=
  let stock_code := state_stock_code state in
  let end_date := state_end_date state in
  [(u8 "stock_code", JStr stock_code);
   (u8 "fundamental_report", state_report "fundamental_report" state);
   (u8 "technical_report", state_report "technical_report" state);
   (u8 "sentiment_report", state_report "sentiment_report" state);
   (u8 "fund_report", state_report "fund_report" state);
   (u8 "news_summary", supervisor_news_summary st stock_code end_date);
   (u8 "role_description", JStr (agent_role W (u8 "supervisor")));
   (u8 "analysis_period", JStr (_get_analysis_period end_date))].

(** [run_supervisor(state)] *)
Definition run_supervisor (st : store) (state : dict) : node_result :=
  let stock_code := state_stock_code state in
  let end_date := state_end_date state in
  match llm W (Chain (u8 "SUPERVISOR_PROMPT") (supervisor_inputs st state)) with
  | Raised e => NodeRaised st e
  | Returned content =>
      let supervisor_report := parse_supervisor_report W content in
      let st' := (save_report W st stock_code (u8 "supervisor") supervisor_report
                    (Some (u8 "supervisor_report")) end_date).1 in
      NodeOk st' [(u8 "supervisor_report", supervisor_report)]
  end.

End WithWorld.

End Nodes.

(** ** graph/main_graph.py: the DAG *)

Module MainGraph.

Import ResultManager Nodes.

Inductive node :=
| start | fundamental_analysis | news_analysis | sentiment_analysis
| technical_analysis | fund_analysis | supervisor | final_result_save.

(** The edges of [build_graph]. *)
Definition edges : list (node * node) :=
  [(start, fundamental_analysis); (start, news_analysis);
   (fundamental_analysis, sentiment_analysis); (news_analysis, sentiment_analysis);
   (start, technical_analysis); (start, fund_analysis);
   (sentiment_analysis, supervisor); (technical_analysis, supervisor);
   (fund_analysis, supervisor); (fundamental_analysis, supervisor);
   (supervisor, final_result_save)].

Section WithWorld.

Context (W : World).

(** [final_result_save(state)] *)
Definition run_final_result_save (st : store) (state : dict) : node_result :=
  let stock_code := state_stock_code state in
  let '(st1, saved_files) := save_all_reports W st stock_code state in
  let summary := get_result_summary st1 stock_code in
  let '(st2, summary_filepath) :=
    save_report W st1 stock_code (u8 "summary") (JStr summary)
      (Some (u8 "analysis_summary")) None in
  NodeOk st2 [
    (u8 "saved_files", JDict saved_files);
    (u8 "summary_filepath", JStr summary_filepath);
    (u8 "final_report",
     JStr (u8 "分析完成！所有结果已保存到 result/" ++ stock_code ++ u8 "/ 目录"))].

Definition run_node (n : node) (st : store) (state : dict) : node_result :=
  match n with
  | start => NodeOk st []
  | fundamental_analysis => run_fundamental_analysis W st state
  | news_analysis => run_news_analysis W st state
  | sentiment_analysis => run_sentiment_analysis W st state
  | technical_analysis => run_technical_analysis W st state
  | fund_analysis => run_fund_analysis W st state
  | supervisor => run_supervisor W st state
  | final_result_save => run_final_result_save st state
  end.

(** The state after a node's update is merged in. *)
Definition merge (state update : dict) : dict :=
  fold_left (fun s '(k, v) => dict_set k v s) update state.

(** The nodes run one after another in the order the scheduler picked; a
    node that raises ends the run. *)
Fixpoint run_schedule (sched : list node) (st : store) (state : dict)
    : store * dict * option pystr :=
  match sched with
  | [] => (st, state, None)
  | n :: rest =>
      match run_node n st state with
      | NodeOk st' update => run_schedule rest st' (merge state update)
      | NodeRaised st' e => (st', state, Some e)
      end
  end.

(** The input state of a request. *)
Definition initial_state (stock_code : pystr) (end_date : option pystr) : dict :=
  [(u8 "stock_code", JStr stock_code); (u8 "end_date", json_of_end_date end_date)].

End WithWorld.

(** An order of the nodes that follows the edges. *)
Definition topological_order : list node :=
  [start; fundamental_analysis; news_analysis; technical_analysis; fund_analysis;
   sentiment_analysis; supervisor; final_result_save].

End MainGraph.

(** ** api/streaming_protocol.py, api/impl_stock.py: the event stream *)

Module Streaming.

(** One frame of the stream: a [StreamEvent] ([exclude_none] drops the
    absent fields), or one of the two dicts the generator builds itself. *)
Record frame := mkframe {
  event_type : pystr;
  thread_id : pystr;
  agent : pystr;
  id : pystr;
  role : option pystr;
  content : option pystr;
  finish_reason : option pystr;
  progress_symbol : option bool;
  tool_calls : option json;
  tool_call_chunks : option json;
  node_status : option pystr;
  result_data : option json;
}.

(** An LLM stream chunk, as far as [format_event] looks at it. *)
Record chunk := mkchunk {
  chunk_tool_call_chunks : list json;
  chunk_content : json;
  chunk_finish_reason : json;      (* [response_metadata.get("finish_reason")] *)
  chunk_tool_calls : list json;
}.

(** A raw LangGraph event. *)
Record lg_event := mkevent {
  ev_event : pystr;        (* [data.get("event")] *)
  ev_run_id : json;        (* [data.get("run_id")] *)
  ev_name : json;          (* [data.get("name")] *)
  ev_output : option json; (* [data.get("data", {}).get("output")] *)
  ev_tool : option json;   (* [data.get("data", {}).get("input", {}).get("tool")] *)
  ev_chunk : option chunk; (* [data.get("data", {}).get("chunk")] *)
}.

(** What [app.astream_events(...)] does when iterated: yield an event and go
    on, finish, or raise. *)
Inductive upstream :=
| UEnd
| URaise (e : pystr)
| UYield (ev : lg_event) (rest : upstream).

Fixpoint events (up : upstream) : list lg_event :=
  match up with
  | UYield ev rest => ev :: events rest
  | _ => []
  end.

Definition MESSAGE_CHUNK : pystr := u8 "message_chunk".
Definition STOP : pystr := u8 "stop".
Definition SYSTEM : pystr := u8 "system".
Definition SYSTEM_ERROR : pystr := u8 "system_error".
Definition ASSISTANT : pystr := u8 "assistant".

Definition analyst_nodes : list pystr :=
  map u8 ["fundamental_analysis"; "technical_analysis"; "sentiment_analysis";
          "news_analysis"; "fund_analysis"; "bull_debate"; "bear_debate";
          "debate_analyst"; "supervisor"; "final_result_save"]%string.

Definition report_type_map : list (pystr * pystr) :=
  map (fun '(k, v) => (u8 k, u8 v))
    [("fundamental_analysis", "基本面分析报告"); ("technical_analysis", "技术分析报告");
     ("sentiment_analysis", "情绪分析报告"); ("news_analysis", "新闻分析报告");
     ("fund_analysis", "资金分析报告"); ("bull_debate", "多头辩论报告");
     ("bear_debate", "空头辩论报告"); ("debate_analyst", "辩论分析报告");
     ("supervisor", "总决策报告"); ("final_result_save", "最终结果保存")]%string.

Fixpoint lookup_str (k : pystr) (l : list (pystr * pystr)) : option pystr :=
  match l with
  | [] => None
  | (k', v) :: l' => if str_eqb k k' then Some v else lookup_str k l'
  end.

Section WithWorld.

Context (W : World).

(** [str(e)] of the exception [format_event] raises on an event it cannot
    turn into a [StreamEvent] (a field of the wrong type). *)
Variable error_text : lg_event -> pystr.

(** [c.dict()] of the tool-call chunks and tool calls; [None] when a chunk
    has no such method. *)
Variable dicts_of : list json -> option json.

(** [f"{v}"] *)
Definition fmt (v : json) : pystr :=
  match v with
  | JStr s => s
  | _ => py_str W v
  end.

(** A [StreamEvent(...)] with the fields every event sets; [agent] and [id]
    must be strings. *)
Definition stream_event (ev : lg_event)
    (k : pystr -> pystr -> frame) : outcome (list frame) :=
  match ev_name ev, ev_run_id ev with
  | JStr node_name, JStr run_id => Returned [k node_name run_id]
  | _, _ => Raised (error_text ev)
  end.

Definition base (event_type thread node_name run_id : pystr) : frame :=
  mkframe event_type thread node_name run_id (Some ASSISTANT) (Some [])
    None None None None None None.

(** [len(v)]; [None] when it raises. *)
Definition py_len (v : json) : option Z :=
  match v with
  | JStr s => Some (len s)
  | JList l => Some (Z.of_nat (length l))
  | JDict d => Some (Z.of_nat (length d))
  | _ => None
  end.

(** The report text of an [on_chain_end] event; [None] when building it
    raises ([len] of the saved files). *)
Definition report_content (node_name : pystr) (output : dict) : option pystr :=
  let report_title :=
    default (node_name ++ u8 "报告") (lookup_str node_name report_type_map) in
  let head := u8 "=== " ++ report_title ++ u8 " ===" ++ [10%N] in
  if str_eqb node_name (u8 "final_result_save") then
    let rest :=
      match dict_get (u8 "summary_filepath") output with
      | Some v => u8 "摘要文件路径: " ++ fmt v ++ [10%N]
      | None => []
      end
      ++ match dict_get (u8 "final_report") output with
         | Some v => fmt v ++ [10%N]
         | None => []
         end in
    match dict_get (u8 "saved_files") output with
    | Some v =>
        match py_len v with
        | Some n => Some (head ++ u8 "已保存文件数量: " ++ str_of_nonneg n ++ [10%N] ++ rest)
        | None => None
        end
    | None => Some (head ++ rest)
    end
  else
    Some (head
    ++ concat
         (map (fun '(key, value) =>
                 if endswith (u8 "_report") key || endswith (u8 "_result") key then
                   match value with
                   | JStr s => s ++ [10; 10]%N
                   | _ => key ++ u8 ": " ++ py_str W value ++ [10; 10]%N
                   end
                 else [])
              output)).

(** [format_event(data, thread_id)]: the frames of the string it returns
    (none for [None]), or the exception it raises. *)
Definition format_event (ev : lg_event) (thread : pystr) : outcome (list frame) :=
  let name_in_nodes :=
    match ev_name ev with
    | JStr n => existsb (str_eqb n) analyst_nodes
    | _ => false
    end in
  if str_eqb (ev_event ev) (u8 "on_graph_end") then Returned []
  else if str_eqb (ev_event ev) (u8 "on_chain_end") && name_in_nodes then
    match ev_name ev, ev_run_id ev with
    | JStr node_name, JStr run_id =>
        let complete_event :=
          mkframe (u8 "node_complete") thread node_name run_id (Some ASSISTANT)
            (Some (u8 "节点 '" ++ node_name ++ u8 "' 执行完成"))
            (Some STOP) None None None (Some (u8 "completed")) None in
        let output := default (JDict []) (ev_output ev) in
        if truthy output then
          match output with
          | JDict d =>
              match report_content node_name d with
              | Some text =>
                  let result_event :=
                    mkframe (u8 "analysis_result") thread node_name run_id
                      (Some ASSISTANT) (Some text)
                      (Some STOP) None None None None (Some output) in
                  Returned [complete_event; result_event]
              | None => Raised (error_text ev)
              end
          | _ => Raised (error_text ev)
          end
        else Returned [complete_event]
    | _, _ => Raised (error_text ev)
    end
  else if str_eqb (ev_event ev) (u8 "on_chain_start") then
    stream_event ev (fun node_name run_id =>
      mkframe (u8 "progress") thread node_name run_id (Some ASSISTANT)
        (Some (u8 "节点 '" ++ node_name ++ u8 "' 开始执行..."))
        None (Some true) None None (Some (u8 "started")) None)
  else if str_eqb (ev_event ev) (u8 "on_tool_start") then
    let tool_name := default (JStr (u8 "未知工具")) (ev_tool ev) in
    stream_event ev (fun node_name run_id =>
      mkframe (u8 "progress") thread node_name run_id (Some ASSISTANT)
        (Some (u8 "工具 '" ++ fmt tool_name ++ u8 "' 正在执行..."))
        None (Some true) None None None None)
  else if str_eqb (ev_event ev) (u8 "on_tool_end") then
    let tool_name := default (JStr (u8 "未知工具")) (ev_tool ev) in
    let tool_output :=
      match default (JStr []) (ev_output ev) with
      | JStr s => if 200 <? len s then take 200 s ++ u8 "..." else s
      | v => py_str W v
      end in
    stream_event ev (fun node_name run_id =>
      mkframe (u8 "progress") thread node_name run_id (Some ASSISTANT)
        (Some (u8 "工具 '" ++ fmt tool_name ++ u8 "' 执行完成: " ++ tool_output))
        None (Some false) None None None None)
  else if str_eqb (ev_event ev) (u8 "on_chat_model_stream") then
    match ev_chunk ev with
    | None => Returned []
    | Some chunk =>
        match chunk_tool_call_chunks chunk with
        | _ :: _ =>
            match dicts_of (chunk_tool_call_chunks chunk) with
            | Some l =>
                stream_event ev
                  (fun node_name run_id =>
                     mkframe (u8 "tool_call_chunks") thread node_name run_id
                       (Some ASSISTANT) (Some []) None None None (Some l) None None)
            | None => Raised (error_text ev)
            end
        | [] =>
            if truthy (chunk_content chunk) then
              match chunk_content chunk, chunk_finish_reason chunk with
              | JStr text, JStr reason =>
                  stream_event ev (fun node_name run_id =>
                    mkframe MESSAGE_CHUNK thread node_name run_id (Some ASSISTANT)
                      (Some text) (Some reason) None None None None None)
              | JStr text, JNull =>
                  stream_event ev (fun node_name run_id =>
                    mkframe MESSAGE_CHUNK thread node_name run_id (Some ASSISTANT)
                      (Some text) None None None None None None)
              | _, _ => Raised (error_text ev)
              end
            else
              match chunk_tool_calls chunk with
              | _ :: _ =>
                  match dicts_of (chunk_tool_calls chunk) with
                  | Some l =>
                      stream_event ev
                        (fun node_name run_id =>
                           mkframe (u8 "tool_calls") thread node_name run_id
                             (Some ASSISTANT) (Some []) (Some (u8 "tool_calls"))
                             None (Some l) None None None)
                  | None => Raised (error_text ev)
                  end
              | [] => Returned []
              end
        end
    end
  else Returned [].

(** The frame of the [except] handler. *)
Definition error_event (thread e : pystr) : frame :=
  mkframe MESSAGE_CHUNK thread SYSTEM_ERROR (u8 "error-run") None
    (Some (u8 "分析过程中出现严重错误: " ++ e)) (Some STOP)
    None None None None None.

(** The frame of the [finally] block. *)
Definition final_event (thread : pystr) : frame :=
  mkframe MESSAGE_CHUNK thread SYSTEM (u8 "final-run") None
    (Some (u8 "分析流程已结束。")) (Some STOP) None None None None None.

(** [stream_analysis_generator]: the frames it yields, in order, for what
    the graph's event stream does. *)
Fixpoint stream_analysis_generator (thread : pystr) (up : upstream) : list frame :=
  match up with
  | UEnd => [final_event thread]
  | URaise e => [error_event thread e; final_event thread]
  | UYield ev rest =>
      match format_event ev thread with
      | Returned frames => frames ++ stream_analysis_generator thread rest
      | Raised e => [error_event thread e; final_event thread]
      end
  end.

End WithWorld.

(** A frame that closes a stream: a [message_chunk] with [finish_reason]
    [stop] sent by the given agent. *)
Definition is_stop_of (who : pystr) (f : frame) : bool :=
  str_eqb (event_type f) MESSAGE_CHUNK
  && match finish_reason f with Some r => str_eqb r STOP | None => false end
  && str_eqb (agent f) who.

End Streaming.

(** ** A test double for the collaborators

    The end-to-end scenarios of the specification run the pipeline against
    mocked providers and a mocked LLM.  [MiniJson] stands in for the JSON
    library on the subset the scenarios use (objects, arrays, strings with
    the simple escapes, integers and the three literals); [Mock.world] is
    such a setting. *)

Module MiniJson.

Definition is_ws (c : N) : bool :=
  ((c =? 32) || (c =? 9) || (c =? 10) || (c =? 13))%N.

Fixpoint skip_ws (s : pystr) : pystr :=
  match s with
  | c :: s' => if is_ws c then skip_ws s' else s
  | [] => []
  end.

(** The body of a string, after its opening quote. *)
Fixpoint scan_string (s acc : pystr) : option (pystr * pystr) :=
  match s with
  | [] => None
  | 34%N :: rest => Some (rev acc, rest)
  | 92%N :: e :: rest =>
      if (e =? 34)%N || (e =? 92)%N || (e =? 47)%N then scan_string rest (e :: acc)
      else if (e =? 110)%N then scan_string rest (10%N :: acc)
      else if (e =? 116)%N then scan_string rest (9%N :: acc)
      else if (e =? 114)%N then scan_string rest (13%N :: acc)
      else None
  | c :: rest => if (c <? 32)%N then None else scan_string rest (c :: acc)
  end.

Fixpoint scan_digits (s acc : pystr) : pystr * pystr :=
  match s with
  | c :: rest => if is_digit c then scan_digits rest (c :: acc) else (rev acc, s)
  | [] => (rev acc, [])
  end.

Definition number (negative : bool) (s : pystr) : option (json * pystr) :=
  match scan_digits s [] with
  | ([], _) => None
  | (48%N :: _ :: _, _) => None
  | (ds, rest) =>
      match rest with
      | 46%N :: _ | 101%N :: _ | 69%N :: _ => None
      | _ =>
          let v := Dates.int_of ds in
          Some (JInt (if negative then - v else v), rest)
      end
  end.

Fixpoint value (fuel : nat) (s : pystr) : option (json * pystr) :=
  match fuel with
  | O => None
  | S f =>
      match skip_ws s with
      | 123%N :: rest =>
          match skip_ws rest with
          | 125%N :: rest' => Some (JDict [], rest')
          | rest' => members f rest' []
          end
      | 91%N :: rest =>
          match skip_ws rest with
          | 93%N :: rest' => Some (JList [], rest')
          | rest' => elements f rest' []
          end
      | 34%N :: rest =>
          match scan_string rest [] with
          | Some (str, rest') => Some (JStr str, rest')
          | None => None
          end
      | 45%N :: rest => number true rest
      | c :: rest =>
          if is_digit c then number false (c :: rest)
          else if startswith (u8 "true") (c :: rest) then Some (JBool true, drop 4 (c :: rest))
          else if startswith (u8 "false") (c :: rest) then Some (JBool false, drop 5 (c :: rest))
          else if startswith (u8 "null") (c :: rest) then Some (JNull, drop 4 (c :: rest))
          else None
      | [] => None
      end
  end
with elements (fuel : nat) (s : pystr) (acc : list json) : option (json * pystr) :=
  match fuel with
  | O => None
  | S f =>
      match value f s with
      | Some (v, rest) =>
          match skip_ws rest with
          | 44%N :: rest' => elements f rest' (v :: acc)
          | 93%N :: rest' => Some (JList (rev (v :: acc)), rest')
          | _ => None
          end
      | None => None
      end
  end
with members (fuel : nat) (s : pystr) (acc : dict) : option (json * pystr) :=
  match fuel with
  | O => None
  | S f =>
      match skip_ws s with
      | 34%N :: rest =>
          match scan_string rest [] with
          | Some (key, rest1) =>
              match skip_ws rest1 with
              | 58%N :: rest2 =>
                  match value f rest2 with
                  | Some (v, rest3) =>
                      match skip_ws rest3 with
                      | 44%N :: rest4 => members f rest4 (dict_set key v acc)
                      | 125%N :: rest4 => Some (JDict (dict_set key v acc), rest4)
                      | _ => None
                      end
                  | None => None
                  end
              | _ => None
              end
          | None => None
          end
      | _ => None
      end
  end.

(** The decoder: a whole document, nothing after it. *)
Definition loads (s : pystr) : option json :=
  match value (2 * length s + 2) s with
  | Some (v, rest) => match skip_ws rest with [] => Some v | _ => None end
  | None => None
  end.

End MiniJson.

Module Mock.

Definition quoted (s : string) : pystr := [34%N] ++ u8 s ++ [34%N].

(** A well-formed analyst response: a JSON report inside a fenced block. *)
Definition report_text : pystr :=
  u8 "```json" ++ [10%N] ++ u8 "{"
    ++ quoted "analyst_name" ++ u8 ": " ++ quoted "分析师" ++ u8 ", "
    ++ quoted "viewpoint" ++ u8 ": " ++ quoted "看多" ++ u8 ", "
    ++ quoted "reason" ++ u8 ": " ++ quoted "业绩稳健" ++ u8 ", "
    ++ quoted "scores" ++ u8 ": {" ++ quoted "growth_potential" ++ u8 ": 4}, "
    ++ quoted "detailed_analysis" ++ u8 ": " ++ quoted "详见摘要"
    ++ u8 "}" ++ [10%N] ++ u8 "```".

(** A response in prose, as in scenario S5. *)
Definition prose : pystr := u8 "该股近期走势偏强，建议关注。".

(** Every table comes back empty, the LLM answers every prompt with
    [answer]; it is 20 September 2025, half past ten. *)
Definition world_answering (answer : pystr) : World := {|
  json_loads := MiniJson.loads;
  now := Dates.mkdt 2025 9 20 10 30 0;
  py_str := fun _ => u8 "<value>";
  json_dumps := fun _ => u8 "<json>";
  type_error := fun _ => u8 "TypeError";
  agent_role := fun role => role;
  cm := CmReady;
  news_provider_ready := true;
  fetch := fun _ _ _ _ => Returned (Some (mktable [] []));
  select_columns := fun t _ => columns t;
  project := fun t _ => t;
  news_parts := fun _ _ => [];
  llm := fun call =>
    match call with
    | Chain _ _ => Returned answer
    | _ => Returned (u8 "摘要")
    end;
  company_summary := fun _ => None;
|}.

Definition world : World := world_answering report_text.

Definition SYMBOL : pystr := u8 "000001.SZ".

End Mock.

(** ** tools/parsers.py: the debate parsers *)

Module DebateParsers.

Import Parsers.

(** The loop [for field in required_fields: if field not in report_data:
    report_data[field] = default] on a dict. *)
Definition fill_missing (required_fields : list pystr) (default : pystr -> json)
    (d : dict) : dict :=
  fold_left
    (fun d field =>
       match dict_get field d with
       | Some _ => d
       | None => dict_set field (default field) d
       end)
    required_fields d.

Definition debater_fields : list pystr :=
  map u8 ["analyst_name"; "viewpoint"; "core_arguments"; "rebuttals";
          "final_statement"]%string.

(** [[] if field == 'core_arguments' or field == 'rebuttals' else ""] *)
Definition debater_default (field : pystr) : json :=
  if str_eqb field (u8 "core_arguments") || str_eqb field (u8 "rebuttals")
  then JList [] else JStr [].

Definition debate_fields : list pystr :=
  map u8 ["analyst_name"; "bull_summary"; "bear_summary"; "score_comparison";
          "final_viewpoint"; "final_reason"]%string.

Definition debate_default (field : pystr) : json :=
  if str_eqb field (u8 "bull_summary") || str_eqb field (u8 "bear_summary")
  then JList []
  else if str_eqb field (u8 "score_comparison") then JDict []
  else JStr [].

(** The reports of the two handlers of [parse_debater_report]; [what] is
    "解析失败" or "系统错误" and [detail] the end of the last field. *)
Definition debater_fallback (default_name what detail : pystr) : json :=
  JDict [
    (u8 "analyst_name", JStr default_name);
    (u8 "viewpoint", JStr (u8 "中性"));
    (u8 "core_arguments", JList [JStr what]);
    (u8 "rebuttals", JList [JStr what]);
    (u8 "final_statement", JStr (what ++ u8 ": " ++ detail))].

Definition debate_fallback (what detail : pystr) : json :=
  JDict [
    (u8 "analyst_name", JStr (u8 "辩论分析师"));
    (u8 "bull_summary", JList [JStr what]);
    (u8 "bear_summary", JList [JStr what]);
    (u8 "score_comparison", JDict []);
    (u8 "final_viewpoint", JStr (u8 "中性"));
    (u8 "final_reason", JStr (what ++ u8 ": " ++ detail))].

Section WithWorld.

Context (W : World).

(** The [try] block shared by the two parsers: decode, then the field loop.
    A decoded value that is not a dict passes the loop only when every field
    name already occurs in it; otherwise the loop raises [TypeError]. *)
Definition checked (required_fields : list pystr) (default : pystr -> json)
    (content : pystr) (failed system_error : pystr -> json) : json :=
  match json_loads W (json_str content) with
  | None => failed (take 200 content ++ u8 "...")
  | Some report_data =>
      match report_data with
      | JDict d => JDict (fill_missing required_fields default d)
      | JList l =>
          if forallb (fun f => existsb (is_str f) l) required_fields
          then report_data else system_error (type_error W report_data)
      | JStr s =>
          if forallb (fun f => py_in f s) required_fields
          then report_data else system_error (type_error W report_data)
      | _ => system_error (type_error W report_data)
      end
  end.

(** [parse_debater_report(content, default_name)] *)
Definition parse_debater_report (content default_name : pystr) : json :=
  checked debater_fields debater_default content
    (debater_fallback default_name (u8 "解析失败"))
    (debater_fallback default_name (u8 "系统错误")).

(** [parse_debate_report(content)] *)
Definition parse_debate_report (content : pystr) : json :=
  checked debate_fields debate_default content
    (debate_fallback (u8 "解析失败")) (debate_fallback (u8 "系统错误")).

End WithWorld.

End DebateParsers.

(** ** api/streaming_protocol.py: the event types of [StreamEvent] *)

Module StreamProtocol.

(** [Literal["message_chunk", "tool_calls", "tool_call_chunks", "progress",
    "node_complete", "analysis_result"]] *)
Definition EVENT_TYPES : list pystr :=
  map u8 ["message_chunk"; "tool_calls"; "tool_call_chunks"; "progress";
          "node_complete"; "analysis_result"]%string.

End StreamProtocol.

(** ** api/impl_stock.py: the background tasks *)

Module Background.

Import ResultManager Nodes MainGraph.

(** [tasks]: the records of the background tasks, by task id. *)
Abbreviation tasks := (gmap pystr dict).

Definition PENDING : pystr := u8 "pending".
Definition RUNNING : pystr := u8 "running".
Definition COMPLETED : pystr := u8 "completed".
Definition FAILED : pystr := u8 "failed".

(** The result of a run whose final state has no [final_report]. *)
Definition NO_FINAL_REPORT : pystr := u8 "分析完成，但未找到最终报告。".

(** [analyze_stock(request, background_tasks)], for the id [uuid4()] gave:
    the task is registered; the analysis is run after the response. *)
Definition analyze_stock (ts : tasks) (task_id : pystr) : tasks :=
  <[task_id := [(u8 "status", JStr PENDING); (u8 "result", JNull)]]> ts.

(** [tasks[task_id][k] = v]; [None] is the [KeyError] of an id that is not
    in [tasks]. *)
Definition set_field (ts : tasks) (task_id k : pystr) (v : json) : option tasks :=
  match ts !! task_id with
  | Some t => Some (<[task_id := dict_set k v t]> ts)
  | None => None
  end.

(** [get_task_status(task_id)]; [None] is the 404 response. *)
Definition get_task_status (ts : tasks) (task_id : pystr) : option dict :=
  match ts !! task_id with
  | Some t => if truthy (JDict t) then Some t else None
  | None => None
  end.

Section WithWorld.

Context (W : World).

(** The order in which the compiled graph runs its nodes. *)
Variable sched : list node.

(** [run_analysis_background(task_id, stock_code, end_date)]: the tasks and
    the store it leaves; [None] is the [KeyError] that escapes it. *)
Definition run_analysis_background (ts : tasks) (st : store)
    (task_id stock_code : pystr) (end_date : option pystr)
    : option (tasks * store) :=
  match set_field ts task_id (u8 "status") (JStr RUNNING) with
  | None => None
  | Some ts1 =>
      let end_date :=
        match end_date with
        | None => Dates.strftime_Ymd (now W)
        | Some d => d
        end in
      let '(st', final_state, raised) :=
        run_schedule W sched st (initial_state stock_code (Some end_date)) in
      let '(status, result) :=
        match raised with
        | None =>
            (COMPLETED,
             default (JStr NO_FINAL_REPORT) (dict_get (u8 "final_report") final_state))
        | Some e => (FAILED, JDict [(u8 "error", JStr e)])
        end in
      match set_field ts1 task_id (u8 "status") (JStr status) with
      | None => None
      | Some ts2 =>
          match set_field ts2 task_id (u8 "result") result with
          | None => None
          | Some ts3 => Some (ts3, st')
          end
      end
  end.

End WithWorld.

End Background.

(** ** core/data_processor.py, tools/crawler.py: industry keywords *)

Module IndustryTerms.

(** The separators of [re.split(r"[，,\n]+", text)]. *)
Definition is_sep (c : N) : bool := ((c =? 65292) || (c =? 44) || (c =? 10))%N.

(** [re.split(r"[，,\n]+", text)]: the pieces between the runs of separators,
    the empty piece before a leading run and after a trailing one included.
    [cur] is the piece being read, reversed. *)
Fixpoint split_runs (s cur : pystr) (after_sep : bool) : list pystr :=
  match s with
  | [] => [rev cur]
  | c :: rest =>
      if is_sep c then
        if after_sep then split_runs rest [] true
        else rev cur :: split_runs rest [] true
      else split_runs rest (c :: cur) false
  end.

Definition re_split (text : pystr) : list pystr := split_runs text [] false.

(** The characters of [.strip('。；;')]. *)
Definition is_stop (c : N) : bool := ((c =? 12290) || (c =? 65307) || (c =? 59))%N.

(** [s.lstrip(chars)] and [s.strip(chars)] *)
Fixpoint lstrip_of (chars : N -> bool) (s : pystr) : pystr :=
  match s with
  | c :: s' => if chars c then lstrip_of chars s' else s
  | [] => []
  end.

Definition strip_of (chars : N -> bool) (s : pystr) : pystr :=
  rev (lstrip_of chars (rev (lstrip_of chars s))).

(** [bool(s)] *)
Definition nonempty (s : pystr) : bool :=
  match s with [] => false | _ => true end.

(** The loop that keeps first occurrences and stops at five; [seen] holds
    what [out] holds. *)
Fixpoint first_five (cand out : list pystr) : list pystr :=
  match cand with
  | [] => out
  | c :: rest =>
      let out := if existsb (str_eqb c) out then out else out ++ [c] in
      if 5 <=? Z.of_nat (length out) then out else first_five rest out
  end.

(** The terms read from the stripped text of a response. *)
Definition terms_of (term text : pystr) : list pystr :=
  let parts := re_split text in
  let cand :=
    map (fun p => strip_of is_stop (strip p))
      (List.filter (fun p => nonempty p && nonempty (strip p)) parts) in
  let cand := List.filter (fun c => negb (str_eqb c term) && (len c <=? 12)) cand in
  first_five cand [].

Definition DEFAULT_TEMPLATE : pystr :=
  u8 "请给出‘{term}’所属的上位行业词，不超过5个，用中文输出，使用逗号分隔，且只输出词本身。".

(** The entries of the news configuration that [expand_industry_keywords]
    reads: a mapping from a term to its upper terms, the switch of the LLM
    fallback and its prompt template. *)
Record industry_cfg := {
  industry_upper_map : list (pystr * list pystr);
  industry_upper_llm_enabled : bool;
  industry_upper_llm_prompt : option pystr;
}.

(** [upper_map.get(k)] *)
Fixpoint lookup_terms (k : pystr) (m : list (pystr * list pystr))
    : option (list pystr) :=
  match m with
  | [] => None
  | (k', v) :: m' => if str_eqb k k' then Some v else lookup_terms k m'
  end.

(** [_emit(term)] on the list [out]; [seen] holds what [out] holds. *)
Definition _emit (out : list pystr) (term : pystr) : list pystr :=
  if nonempty term && negb (existsb (str_eqb term) out) then out ++ [term] else out.

(** [list(dict.fromkeys(l))] *)
Definition dict_fromkeys (l : list pystr) : list pystr :=
  fold_left (fun out k => if existsb (str_eqb k) out then out else out ++ [k]) l [].

Section WithLLM.

(** [tpl.format(term=term)], which raises on a template with other
    fields. *)
Variable format_term : pystr -> pystr -> outcome pystr.

(** [self.llm.invoke(prompt)]: the text
    [getattr(resp, 'content', None) or str(resp) or ""] of the response, or
    the exception. *)
Variable invoke : pystr -> outcome pystr.

(** [get_data_processor()]: the constructor builds the LLM client. *)
Variable new_processor : outcome unit.

(** [propose_upper_industry_terms(term, prompt_template)] *)
Definition propose_upper_industry_terms (term : pystr)
    (prompt_template : option pystr) : outcome (list pystr) :=
  match term with
  | [] => Returned []
  | _ =>
      let tpl :=
        match prompt_template with
        | Some (c :: t) => c :: t
        | _ => DEFAULT_TEMPLATE
        end in
      match format_term tpl term with
      | Raised e => Raised e
      | Returned prompt =>
          match invoke prompt with
          | Returned text => Returned (terms_of term (strip text))
          | Raised _ => Returned []
          end
      end
  end.

(** [_llm_expand_industry_terms(term, cfg)] *)
Definition _llm_expand_industry_terms (term : pystr) (cfg : industry_cfg)
    : outcome (list pystr) :=
  match new_processor with
  | Raised e => Raised e
  | Returned _ => propose_upper_industry_terms term (industry_upper_llm_prompt cfg)
  end.

(** The upper terms of one keyword: the configured ones, else the LLM's
    when the fallback is enabled. *)
Definition uppers_of (cfg : industry_cfg) (k : pystr) : outcome (list pystr) :=
  match default [] (lookup_terms k (industry_upper_map cfg)) with
  | [] =>
      if industry_upper_llm_enabled cfg then _llm_expand_industry_terms k cfg
      else Returned []
  | uppers => Returned uppers
  end.

(** The loop of [expand_industry_keywords]. *)
Fixpoint expand_loop (cfg : industry_cfg) (raw out : list pystr)
    : outcome (list pystr) :=
  match raw with
  | [] => Returned out
  | k :: rest =>
      if nonempty k then
        match uppers_of cfg k with
        | Raised e => Raised e
        | Returned uppers => expand_loop cfg rest (fold_left _emit uppers (_emit out k))
        end
      else expand_loop cfg rest out
  end.

(** [expand_industry_keywords(raw)] under the configuration [cfg] *)
Definition expand_industry_keywords (cfg : industry_cfg) (raw : list pystr)
    : outcome (list pystr) :=
  expand_loop cfg raw [].

End WithLLM.

End IndustryTerms.

(** ** tools/crawler.py: the news configuration and its hot reload *)

Module NewsConfig.

(** A dict is an object: two names for one dict see each other's
    assignments.  A value of the configuration is a leaf (a number, a
    string, a list: what is not a dict) or the address of a dict on the
    heap. *)
Inductive value (leaf : Type) :=
| Leaf (a : leaf)
| Ref (l : nat).
Arguments Leaf {leaf} a.
Arguments Ref {leaf} l.

Abbreviation object leaf := (list (pystr * value leaf)).
Abbreviation heap leaf := (gmap nat (object leaf)).

(** [d.get(k)] and [d[k] = v] on a dict with string keys, in insertion
    order. *)
Fixpoint obj_get {leaf : Type} (k : pystr) (d : object leaf) : option (value leaf) :=
  match d with
  | [] => None
  | (k', v) :: d' => if str_eqb k k' then Some v else obj_get k d'
  end.

Fixpoint obj_set {leaf : Type} (k : pystr) (v : value leaf) (d : object leaf)
    : object leaf :=
  match d with
  | [] => [(k, v)]
  | (k', v') :: d' =>
      if str_eqb k k' then (k', v) :: d' else (k', v') :: obj_set k v d'
  end.

(** One turn of the loop of [_deep_update] on the dict at [dst]: descend
    when the item and the entry of [dst] under its key are both dicts, assign
    otherwise. *)
Definition update_item {leaf : Type}
    (descend : heap leaf -> nat -> nat -> option (heap leaf)) (dst : nat)
    (acc : option (heap leaf)) (item : pystr * value leaf) : option (heap leaf) :=
  match acc with
  | None => None
  | Some h =>
      match h !! dst with
      | None => None
      | Some d =>
          match item.2, obj_get item.1 d with
          | Ref ls, Some (Ref ld) => descend h ld ls
          | v, _ => Some (<[dst := obj_set item.1 v d]> h)
          end
      end
  end.

(** [_deep_update(dst, src)] on the dicts at the addresses [dst] and [src]:
    the heap when it returns.  [fuel] bounds the depth of the recursion;
    [None] is a recursion deeper than that, or an address without a dict.
    The items of [src] are those it has when the loop starts. *)
Fixpoint _deep_update {leaf : Type} (fuel : nat) (h : heap leaf) (dst src : nat)
    : option (heap leaf) :=
  match fuel with
  | O => None
  | S fuel =>
      match h !! src with
      | None => None
      | Some items => fold_left (update_item (_deep_update fuel) dst) items (Some h)
      end
  end.

(** [_CFG_CACHE]: the modification time of the last load and the
    configuration it gave.  (The compiled pattern of the priority keywords
    is left out.) *)
Record cfg_cache (mtime : Type) := mkcache {
  cache_mtime : option mtime;
  cache_cfg : nat;
}.
Arguments mkcache {mtime} cache_mtime cache_cfg.
Arguments cache_mtime {mtime} c.
Arguments cache_cfg {mtime} c.

(** [get_news_config()]: the heap and the cache it leaves and the
    configuration it returns.  [DEFAULT_NEWS_CFG] is the address of the
    module's default configuration, [mtime_now] what [os.path.getmtime(path)]
    gives ([None] when it raises) and [yaml] the address of the dict
    [_load_yaml(path)] returned, a dict of [h] that nothing else refers to.
    [DEFAULT_NEWS_CFG.copy()] is a new dict with the entries of the default
    one: the dicts among them are shared, not copied. *)
Definition get_news_config {leaf mtime : Type} `{EqDecision mtime} (fuel : nat)
    (DEFAULT_NEWS_CFG : nat) (h : heap leaf) (cache : cfg_cache mtime)
    (mtime_now : option mtime) (yaml : nat)
    : option (heap leaf * cfg_cache mtime * nat) :=
  if decide (cache_mtime cache = mtime_now) then Some (h, cache, cache_cfg cache)
  else
    match h !! DEFAULT_NEWS_CFG with
    | None => None
    | Some defaults =>
        let cfg := fresh (dom h) in
        match _deep_update fuel (<[cfg := defaults]> h) cfg yaml with
        | None => None
        | Some h' => Some (h', mkcache mtime_now cfg, cfg)
        end
    end.

(** [cfg[k][k']]: an entry of a nested dict of the configuration at
    [cfg]. *)
Definition nested_get {leaf : Type} (h : heap leaf) (cfg : nat) (k k' : pystr)
    : option (value leaf) :=
  match h !! cfg ≫= obj_get k with
  | Some (Ref l) => h !! l ≫= obj_get k'
  | _ => None
  end.

End NewsConfig.

(** * Properties *)

(** ** Strings *)

Section PyStrFacts.

Lemma len_app (a b : pystr) : len (a ++ b) = len a + len b.
Proof. unfold len. rewrite length_app. lia. Qed.

Lemma join_snoc (sep : pystr) (buf : list pystr) (p : pystr) :
  buf <> [] -> join sep (buf ++ [p]) = join sep buf ++ sep ++ p.
Proof.
  induction buf as [|a buf IH]; [congruence|]. intros _.
  destruct buf as [|b buf]; [reflexivity|].
  change (join sep ((a :: b :: buf) ++ [p]))
    with (a ++ sep ++ join sep ((b :: buf) ++ [p])).
  rewrite IH by congruence.
  change (join sep (a :: b :: buf)) with (a ++ sep ++ join sep (b :: buf)).
  now rewrite <- !app_assoc.
Qed.

Lemma startswith_spec (p s : pystr) :
  startswith p s = true <-> exists t, s = p ++ t.
Proof.
  revert s. induction p as [|a p IH]; intros s; simpl.
  - split; [intros _; now exists s | reflexivity].
  - destruct s as [|b s].
    + split; [discriminate | intros [t Ht]; discriminate].
    + rewrite andb_true_iff, IH. unfold chr_eqb. rewrite N.eqb_eq. split.
      * intros [-> [t ->]]. now exists t.
      * intros [t Ht]. injection Ht as -> ->. split; [reflexivity | now exists t].
Qed.

Lemma py_in_spec (p s : pystr) :
  py_in p s = true <-> exists a b, s = a ++ p ++ b.
Proof.
  induction s as [|c s IH].
  - simpl. rewrite orb_false_r, startswith_spec. split.
    + intros [t Ht]. now exists [], t.
    + intros [a [b H]]. symmetry in H. apply app_eq_nil in H as [-> H].
      apply app_eq_nil in H as [-> ->]. now exists [].
  - cbn [py_in]. rewrite orb_true_iff, startswith_spec, IH. split.
    + intros [[t Ht]|[a [b H]]].
      * now exists [], t.
      * exists (c :: a), b. now rewrite H.
    + intros [[|c' a] [b H]].
      * left. now exists b.
      * right. injection H as -> ->. now exists a, b.
Qed.

(** A needle holding a character the haystack lacks does not occur in it. *)
Lemma py_in_missing_char (c : N) (p s : pystr) :
  In c p -> ~ In c s -> py_in p s = false.
Proof.
  intros Hp Hs. destruct (py_in p s) eqn:E; [|reflexivity].
  apply py_in_spec in E as [a [b ->]]. exfalso. apply Hs.
  rewrite !in_app_iff. auto.
Qed.

Lemma py_in_app_l (p a b : pystr) : py_in p a = true -> py_in p (a ++ b) = true.
Proof.
  rewrite !py_in_spec. intros [x [y ->]]. exists x, (y ++ b).
  now rewrite <- !app_assoc.
Qed.

Lemma py_in_app_r (p a b : pystr) : py_in p b = true -> py_in p (a ++ b) = true.
Proof.
  rewrite !py_in_spec. intros [x [y ->]]. exists (a ++ x), y.
  now rewrite <- !app_assoc.
Qed.

Lemma py_in_prefix (p rest : pystr) : py_in p (p ++ rest) = true.
Proof. apply py_in_spec. now exists [], rest. Qed.

Lemma py_in_prefix3 (x y z rest : pystr) :
  py_in (x ++ y ++ z) (x ++ y ++ z ++ rest) = true.
Proof. apply py_in_spec. exists [], rest. simpl. now rewrite <- !app_assoc. Qed.

End PyStrFacts.

(** ** The news batcher *)

Section Batcher.

Import DataProcessor.

Variable max_chars : Z.
Variable items : list pystr.

(** What the packing loop guarantees of a batch: it respects the cap, or it
    is one item on its own. *)
Definition batch_ok (b : pystr) : Prop := len b <= max_chars \/ In b items.

Lemma batch_loop_ok (parts batches buf : list pystr) (cur : Z) :
  incl parts items ->
  Forall batch_ok batches ->
  buf = [] \/ (cur = len (join nlnl buf) /\ batch_ok (join nlnl buf)) ->
  Forall batch_ok (batch_loop parts max_chars batches buf cur).
Proof.
  revert batches buf cur.
  induction parts as [|p rest IH]; intros batches buf cur Hin Hb Hbuf; simpl.
  - destruct buf as [|b0 buf]; [exact Hb|].
    destruct Hbuf as [?|[_ Hq]]; [discriminate|].
    apply Forall_app. split; [exact Hb | now constructor].
  - assert (Hp : In p items) by (apply Hin; now left).
    assert (Hrest : incl rest items) by (intros x Hx; apply Hin; now right).
    destruct buf as [|b0 buf].
    + apply IH; [exact Hrest | exact Hb |].
      right. split; [reflexivity | now right].
    + destruct Hbuf as [?|[Hcur Hq]]; [discriminate|].
      destruct (cur + 2 + len p <=? max_chars) eqn:E.
      * apply Z.leb_le in E. apply IH; [exact Hrest | exact Hb |].
        right. unfold batch_ok. rewrite join_snoc by discriminate.
        rewrite !len_app. change (len nlnl) with 2.
        split; [lia | left; lia].
      * apply IH; [exact Hrest | | right; split; [reflexivity | now right]].
        apply Forall_app. split; [exact Hb | now constructor].
Qed.

End Batcher.

(** Every batch of [_batch_strings_by_chars] is within [max_chars] or is a
    single item of the corpus. *)
Lemma batch_strings_by_chars_ok (parts : list pystr) (max_chars min_pack : Z) :
  Forall (batch_ok max_chars parts)
    (DataProcessor._batch_strings_by_chars parts max_chars min_pack).
Proof.
  unfold DataProcessor._batch_strings_by_chars.
  apply batch_loop_ok; [apply incl_refl | constructor | now left].
Qed.

(** The computed cap always lies between the floor 4000 and the ceiling
    38000, whatever the window and the ratio. *)
Lemma calc_batch_char_cap_bounds (sample : list pystr) (m : Z)
    (r : PyFloat.float) (p o cap : Z) :
  DataProcessor._calc_batch_char_cap sample m r p o = Some cap ->
  4000 <= cap <= 38000.
Proof.
  unfold DataProcessor._calc_batch_char_cap.
  destruct (PyFloat.to_int _); [|discriminate].
  destruct (PyFloat.to_int _); [|discriminate].
  intros [= <-]. lia.
Qed.

(** A corpus of one item is one batch: the item itself, whatever its
    length. *)
Lemma single_item_batch (p : pystr) (max_chars min_pack : Z) :
  DataProcessor._batch_strings_by_chars [p] max_chars min_pack = [p].
Proof. reflexivity. Qed.

Lemma cjk_ratio_no_cjk (c : N) (n : nat) :
  DataProcessor.is_cjk c = false ->
  DataProcessor._cjk_ratio (replicate (S n) c)
  = PyFloat.div (PyFloat.of_Z 0) (PyFloat.of_Z (Z.max (Z.of_nat (S n)) 1)).
Proof.
  intros Hc. unfold DataProcessor._cjk_ratio.
  change (replicate (S n) c) with (c :: replicate n c) at 1.
  cbv iota.
  assert (E : filter (fun ch => DataProcessor.is_cjk ch = true) (replicate (S n) c) = []).
  { generalize (S n). intros k. induction k as [|k IH]; [reflexivity|].
    cbn [replicate]. rewrite filter_cons_False; [exact IH|]. rewrite Hc. discriminate. }
  rewrite E. unfold len. rewrite length_replicate. reflexivity.
Qed.

(** C4. The budgeter's batch for a corpus of one 40000-character item, at the
    window and ratio the news tool uses (65000 tokens, 0.55): the cap is
    38000, and the one batch produced is the whole item, 40000 characters. *)
Theorem oversized_item_exceeds_cap :
  let big := replicate (Z.to_nat 40000) 97%N in
  DataProcessor._calc_batch_char_cap [big] 65000 (PyFloat.lit 55 100) 1200 1500
    = Some 38000 /\
  DataProcessor.news_batches [big] 600 65000 (PyFloat.lit 55 100) = Some [big] /\
  len big = 40000.
Proof.
  intros big.
  assert (Hcap : DataProcessor._calc_batch_char_cap [big] 65000
                   (PyFloat.lit 55 100) 1200 1500 = Some 38000).
  { unfold DataProcessor._calc_batch_char_cap.
    change (join [10%N] (take 20 [big])) with big.
    unfold big. replace (Z.to_nat 40000) with (S (Z.to_nat 39999)) by lia.
    rewrite cjk_ratio_no_cjk by reflexivity.
    vm_compute. reflexivity. }
  split; [exact Hcap|]. split.
  - unfold DataProcessor.news_batches. rewrite Hcap. reflexivity.
  - unfold len, big. rewrite length_replicate. lia.
Qed.

(** ** Sentiment labelling *)

Section Sentiment.

Import Crawler.

Lemma any_in_hits (words : list pystr) (t : pystr) :
  any_in words t = true <-> 0 < word_hits words t.
Proof.
  unfold any_in, word_hits. induction words as [|w ws IH]; simpl.
  - split; [discriminate | lia].
  - destruct (py_in w t) eqn:E.
    + rewrite filter_cons_True by exact E. simpl. split; [lia | reflexivity].
    + rewrite filter_cons_False by (rewrite E; discriminate). exact IH.
Qed.

Lemma any_in_no_hits (words : list pystr) (t : pystr) :
  any_in words t = false <-> word_hits words t = 0.
Proof.
  pose proof (any_in_hits words t) as H.
  assert (0 <= word_hits words t) by (unfold word_hits; lia).
  destruct (any_in words t); split; intros; try reflexivity; try discriminate.
  - assert (0 < word_hits words t) by now apply H. lia.
  - destruct (Z.eq_dec (word_hits words t) 0) as [E|E]; [exact E|].
    assert (0 < word_hits words t) as H2 by lia. apply H in H2. discriminate.
Qed.

Lemma labels_distinct :
  POSITIVE <> NEGATIVE /\ POSITIVE <> NEUTRAL /\ NEGATIVE <> NEUTRAL.
Proof. repeat split; vm_compute; discriminate. Qed.

(** C9, as the code has it.  The label depends on which kinds of words occur,
    not on how many: positive when some positive and no negative word
    occurs, negative when some negative and no positive word occurs, neutral
    otherwise. *)
Theorem simple_cn_sentiment_by_presence (cfg : news_cfg) (title snippet : pystr) :
  let t := title ++ [10%N] ++ snippet in
  let p := word_hits (pos_words cfg) t in
  let n := word_hits (neg_words cfg) t in
  (item_sentiment cfg title snippet = POSITIVE <-> 0 < p /\ n = 0) /\
  (item_sentiment cfg title snippet = NEGATIVE <-> 0 < n /\ p = 0) /\
  (item_sentiment cfg title snippet = NEUTRAL <-> (p = 0 <-> n = 0)).
Proof.
  intros t p n. unfold item_sentiment, _simple_cn_sentiment. fold t.
  destruct labels_distinct as (D1 & D2 & D3).
  pose proof (any_in_hits (pos_words cfg) t) as Hp.
  pose proof (any_in_no_hits (pos_words cfg) t) as Hp0.
  pose proof (any_in_hits (neg_words cfg) t) as Hn.
  pose proof (any_in_no_hits (neg_words cfg) t) as Hn0.
  fold p in Hp, Hp0. fold n in Hn, Hn0.
  assert (0 <= p) by (unfold p, word_hits; lia).
  assert (0 <= n) by (unfold n, word_hits; lia).
  destruct (any_in (pos_words cfg) t), (any_in (neg_words cfg) t); simpl;
    repeat split; intros; try congruence; try tauto;
    try (exfalso; intuition (try congruence; try lia)); intuition (try lia).
Qed.

(** C9 as stated fails: a text with two positive words and one negative word
    has positive hits minus negative hits equal to +1, and is labelled
    neutral. *)
Lemma sentiment_not_sign_of_count :
  let title := u8 "公司增持并回购" in
  let snippet := u8 "大股东减持" in
  let t := title ++ [10%N] ++ snippet in
  word_hits (pos_words DEFAULT_NEWS_CFG) t = 2 /\
  word_hits (neg_words DEFAULT_NEWS_CFG) t = 1 /\
  sentiment_by_sign DEFAULT_NEWS_CFG t = POSITIVE /\
  item_sentiment DEFAULT_NEWS_CFG title snippet = NEUTRAL /\
  item_sentiment DEFAULT_NEWS_CFG title snippet <> sentiment_by_sign DEFAULT_NEWS_CFG t.
Proof. vm_compute. repeat split; try reflexivity. discriminate. Qed.

End Sentiment.

(** ** Dates and the analysis window *)

Section Window.

Import Dates.

Example strptime_compact : strptime F_Ymd (u8 "20250914") = Some (mkdt 2025 9 14 0 0 0).
Proof. vm_compute. reflexivity. Qed.

(** The month and day patterns backtrack as [re] does: a six-character text
    is year, one-digit month, one-digit day. *)
Example strptime_backtracks : strptime F_Ymd (u8 "202511") = Some (mkdt 2025 1 1 0 0 0).
Proof. vm_compute. reflexivity. Qed.

Example strptime_other_format : strptime F_Ymd (u8 "2025-09-14") = None.
Proof. vm_compute. reflexivity. Qed.

Example strptime_no_such_day : strptime F_Ymd (u8 "20230229") = None.
Proof. vm_compute. reflexivity. Qed.

Example strptime_chinese :
  strptime F_Y_cn (u8 "2025年08月19日") = Some (mkdt 2025 8 19 0 0 0).
Proof. vm_compute. reflexivity. Qed.

Example ordinal_round_trip :
  ord2ymd (ymd2ord 2024 2 29) = (2024, 2, 29) /\ ymd2ord 2025 9 14 = 739508 /\
  ord2ymd 1 = (1, 1, 1) /\ ord2ymd MAXORDINAL = (9999, 12, 31).
Proof. vm_compute. repeat split; reflexivity. Qed.

Lemma strptime_valid (fmt : list fmt_item) (s : pystr) (dt : datetime) :
  strptime fmt s = Some dt -> valid dt = true.
Proof.
  unfold strptime. destruct (Re.re_match _ _) as [[c [|? ?]]|]; try discriminate.
  destruct (valid _) eqn:E; [|discriminate]. now intros [= <-].
Qed.

Lemma first_format_valid (fmts : list (list fmt_item)) (s : pystr) (dt : datetime) :
  first_format fmts s = Some dt -> valid dt = true.
Proof.
  induction fmts as [|f fmts IH]; simpl; [discriminate|].
  destruct (strptime f s) eqn:E; [|exact IH].
  intros [= <-]. eapply strptime_valid; eassumption.
Qed.

(** Outside February the length of a month does not depend on the year. *)
Lemma days_in_month_year (y y' m : Z) : m <> 2 -> days_in_month y m = days_in_month y' m.
Proof. intros H. unfold days_in_month. destruct (m =? 2) eqn:E; [lia | reflexivity]. Qed.

Lemma days_in_february (y : Z) : 28 <= days_in_month y 2.
Proof. unfold days_in_month. simpl. destruct (is_leap y); lia. Qed.

(** [replace(year=year-2)] keeps month and day, and succeeds for every date
    from year 3 on that is not a 29 February. *)
Lemma replace_two_years_back (dt : datetime) :
  valid dt = true -> 3 <= year dt -> ~ (month dt = 2 /\ day dt = 29) ->
  replace_year dt (year dt - 2)
  = Some (mkdt (year dt - 2) (month dt) (day dt) (hour dt) (minute dt) (second dt)).
Proof.
  intros Hv Hy Hleap. unfold replace_year.
  assert (E : valid (mkdt (year dt - 2) (month dt) (day dt) (hour dt) (minute dt)
                          (second dt)) = true); [|now rewrite E].
  unfold valid in *. cbn [year month day hour minute second] in *.
  repeat (apply andb_prop in Hv as [Hv ?]).
  repeat (apply andb_true_intro; split); try assumption; try lia.
  apply Z.leb_le.
  destruct (Z.eq_dec (month dt) 2) as [E2|E2].
  - rewrite E2 in *. pose proof (days_in_february (year dt - 2)).
    assert (day dt <= days_in_month (year dt) 2) by lia.
    assert (days_in_month (year dt) 2 <= 29)
      by (unfold days_in_month; simpl; destruct (is_leap (year dt)); lia).
    lia.
  - rewrite (days_in_month_year _ (year dt) _ E2). lia.
Qed.

End Window.

Section AnalysisPeriod.

Import Dates ResultManager.
Context (W : World).

(** The analysis period written into the artifacts starts on the same month
    and day two calendar years before the end date, for every end date the
    result manager parses, save 29 February and the years 1 and 2. *)
Lemma analysis_period_calendar (end_date : pystr) (dt : datetime) :
  _parse_date end_date = Some dt -> 3 <= year dt ->
  ~ (month dt = 2 /\ day dt = 29) ->
  _get_analysis_period (Some end_date)
  = strftime_Y_m_d (mkdt (year dt - 2) (month dt) (day dt) 0 0 0)
      ++ u8 " 至 " ++ strftime_Y_m_d dt.
Proof.
  intros Hp Hy Hleap. unfold _get_analysis_period.
  destruct end_date as [|c s]; [discriminate|]. rewrite Hp.
  assert (Hv : valid dt = true).
  { unfold _parse_date in Hp. eapply first_format_valid; eassumption. }
  rewrite replace_two_years_back by assumption. reflexivity.
Qed.

(** The provider's window starts 730 days before the end date. *)
Lemma date_range_730_days (end_date : pystr) (dt start : datetime) :
  first_format [F_Ymd; F_Y_m_d; F_Y_slash] end_date = Some dt ->
  sub_days dt 730 = Some start ->
  TushareProvider._get_date_range W (Some end_date) 2
  = Some (strftime_Ymd start, strftime_Ymd dt).
Proof.
  intros Hp Hs. unfold TushareProvider._get_date_range. rewrite Hp.
  change (365 * 2) with 730. now rewrite Hs.
Qed.

(** C1. For the end date 20250914 the provider fetches from 20230915, 730
    days back, while the analysis period written into the artifacts starts
    on 2023-09-14, two calendar years back; and for an end date of 29
    February the analysis period has no start date at all. *)
Theorem fetch_window_is_730_days :
  TushareProvider._get_date_range W (Some (u8 "20250914")) 2
    = Some (u8 "20230915", u8 "20250914") /\
  _get_analysis_period (Some (u8 "20250914")) = u8 "2023-09-14 至 2025-09-14" /\
  _get_analysis_period (Some (u8 "20240229")) = u8 "近两年数据".
Proof. vm_compute. repeat split; reflexivity. Qed.

End AnalysisPeriod.

(** ** The matcher consumes only what its classes accept *)

Section MatcherFacts.

Import Re.

Variable ok : N -> bool.

(** A matcher is sound for [ok] when every success hands its continuation a
    suffix of the input, the consumed prefix being made of accepted
    characters. *)
Definition sound {R} (ma : matcher R) : Prop :=
  forall prev s c (k : cont R) x,
    ma prev s c k = Some x ->
    exists s1 s2 p' c',
      s = s1 ++ s2 /\ Forall (fun ch => ok ch = true) s1 /\ k p' s2 c' = Some x.

Lemma rep_sound {R} (ma : matcher R) :
  sound ma -> forall fuel lo hi, sound (rep ma fuel lo hi).
Proof.
  intros Hma fuel. induction fuel as [|f IH]; intros lo hi prev s c k x; simpl.
  - discriminate.
  - destruct lo as [|lo'].
    + assert (Hstay : k prev s c = Some x ->
                      exists s1 s2 p' c', s = s1 ++ s2 /\
                        Forall (fun ch => ok ch = true) s1 /\ k p' s2 c' = Some x).
      { intros Hk. exists [], s, prev, c. repeat split; [constructor | exact Hk]. }
      assert (Hgo : forall h,
                 match ma prev s c
                         (fun p' s' c' =>
                            if (length s' <? length s)%nat
                            then rep ma f 0 h p' s' c' k else None) with
                 | Some x0 => Some x0
                 | None => k prev s c
                 end = Some x ->
                 exists s1 s2 p' c', s = s1 ++ s2 /\
                   Forall (fun ch => ok ch = true) s1 /\ k p' s2 c' = Some x).
      { intros h H.
        destruct (ma prev s c _) eqn:E; [|now apply Hstay].
        injection H as ->.
        apply Hma in E as (s1 & s2 & p' & c' & -> & F1 & Hk).
        destruct (_ <? _)%nat; [|discriminate].
        apply IH in Hk as (t1 & t2 & p'' & c'' & -> & F2 & Hk).
        exists (s1 ++ t1), t2, p'', c''. rewrite <- app_assoc.
        repeat split; [now apply Forall_app | exact Hk]. }
      destruct hi as [[|h]|]; [exact Hstay | apply Hgo | apply Hgo].
    + intros H. apply Hma in H as (s1 & s2 & p' & c' & -> & F1 & Hk).
      apply IH in Hk as (t1 & t2 & p'' & c'' & -> & F2 & Hk).
      exists (s1 ++ t1), t2, p'', c''. rewrite <- app_assoc.
      repeat split; [now apply Forall_app | exact Hk].
Qed.

Lemma run_sound {R} (r : regex) : classes_within ok r -> sound (@run R r).
Proof.
  induction r as [|cls|a IHa b IHb|a IHa b IHb|lo hi a IHa|i a IHa|];
    intros Hr prev s c k x; cbn [run]; cbn [classes_within] in Hr.
  - intros H. exists [], s, prev, c. repeat split; [constructor | exact H].
  - destruct s as [|ch s']; [discriminate|].
    destruct (cls ch) eqn:E; [|discriminate]. intros H.
    exists [ch], s', (Some ch), c. repeat split; [|exact H].
    constructor; [now apply Hr | constructor].
  - destruct Hr as [Ha Hb]. intros H.
    apply (IHa Ha) in H as (s1 & s2 & p' & c' & -> & F1 & Hk).
    apply (IHb Hb) in Hk as (t1 & t2 & p'' & c'' & -> & F2 & Hk).
    exists (s1 ++ t1), t2, p'', c''. rewrite <- app_assoc.
    repeat split; [now apply Forall_app | exact Hk].
  - destruct Hr as [Ha Hb].
    destruct (run a prev s c k) eqn:E.
    + intros [= ->]. now apply (IHa Ha) in E.
    + intros H. now apply (IHb Hb) in H.
  - intros H. eapply rep_sound; [|exact H]. now apply IHa.
  - intros H. apply (IHa Hr) in H as (s1 & s2 & p' & c' & -> & F1 & Hk).
    eexists s1, s2, p', _. repeat split; [exact F1 | exact Hk].
  - destruct (xorb _ _); [|discriminate]. intros H.
    exists [], s, prev, c. repeat split; [constructor | exact H].
Qed.

(** A text a pattern matches to its end is made of accepted characters. *)
Lemma re_match_all (r : regex) (s : pystr) (c : caps) :
  classes_within ok r -> re_match r s = Some (c, []) ->
  Forall (fun ch => ok ch = true) s.
Proof.
  intros Hr H. unfold re_match in H.
  apply (run_sound r Hr) in H as (s1 & s2 & p' & c' & -> & F1 & Hk).
  injection Hk as _ ->. now rewrite app_nil_r.
Qed.

End MatcherFacts.

Section DateText.

Import Dates.

(** The characters of a date in the compact format: digits, and the blank
    [%d] accepts before a one-digit day. *)
Definition date_char (c : N) : bool := is_digit c || (c =? 32)%N.

Lemma compact_format_classes : Re.classes_within date_char (regex_of_format F_Ymd).
Proof.
  cbn. unfold date_char, is_digit.
  repeat split; intros ch H;
    repeat match goal with
           | H : (_ && _)%bool = true |- _ => apply andb_prop in H as [? ?]
           | H : (_ <=? _)%N = true |- _ => apply N.leb_le in H
           | H : (_ =? _)%N = true |- _ => apply N.eqb_eq in H
           end;
    try (apply orb_true_iff; left; apply andb_true_intro; split; apply N.leb_le; lia);
    try (apply orb_true_iff; right; apply N.eqb_eq; lia).
Qed.

Lemma strptime_compact_chars (s : pystr) (dt : datetime) :
  strptime F_Ymd s = Some dt -> Forall (fun ch => date_char ch = true) s.
Proof.
  unfold strptime.
  destruct (Re.re_match _ s) as [[c [|? ?]]|] eqn:E; try discriminate.
  intros _. eapply re_match_all; [apply compact_format_classes | exact E].
Qed.

End DateText.

(** ** Interface status *)

Section ToolStatus.

Import StockTools.

(** A summary that carries none of the four diagnostics. *)
Definition diagnostic_free (s : pystr) : Prop :=
  Forall (fun d => py_in d s = false) diagnostics.

Lemma any_in_false (needles : list pystr) (s : pystr) :
  any_in needles s = false <-> Forall (fun d => py_in d s = false) needles.
Proof.
  unfold any_in. induction needles as [|d ds IH]; simpl.
  - split; [constructor | reflexivity].
  - rewrite orb_false_iff, IH. split.
    + intros [? ?]. now constructor.
    + intros H. inversion H. now split.
Qed.

Lemma success_is_not_error : SUCCESS <> ERROR.
Proof. vm_compute. discriminate. Qed.

Lemma status_of_success (s : pystr) : status_of s = SUCCESS <-> diagnostic_free s.
Proof.
  unfold status_of, diagnostic_free. rewrite <- any_in_false.
  pose proof success_is_not_error as D.
  destruct (any_in diagnostics s); cbn [negb]; split; intros H; congruence.
Qed.

Lemma status_of_error (s : pystr) : status_of s = ERROR <-> ~ diagnostic_free s.
Proof.
  rewrite <- status_of_success. unfold status_of.
  pose proof success_is_not_error as D.
  destruct (any_in diagnostics s); cbn [negb]; split; intros H; congruence.
Qed.

(** The status of an entry is read off its result text. *)
Definition status_matches_result (e : pystr * interface_result) : Prop :=
  (status e.2 = SUCCESS <-> diagnostic_free (result e.2)) /\
  (status e.2 = ERROR <-> ~ diagnostic_free (result e.2)).

Lemma collect_status (w : pystr -> pystr -> payload) (objs : list (pystr * pystr)) :
  Forall status_matches_result (collect w objs).
Proof.
  unfold collect. induction objs as [|[dtype obj] objs IH]; simpl; constructor.
  - split; [apply status_of_success | apply status_of_error].
  - exact IH.
Qed.

(** C10. In the result every tool assembles, the status of each interface
    is "success" exactly when its summary text holds none of the four
    diagnostics, and "error" exactly when it holds one. *)
Theorem status_follows_summary (W : World) (tool : tool_kind)
    (st : ResultManager.store) (stock_code : pystr) (end_date : option pystr) :
  Forall status_matches_result (tool_interfaces W tool st stock_code end_date).
Proof.
  destruct tool; unfold tool_interfaces, get_fundamental_data, get_fund_data,
    get_tech_data, get_news;
    destruct (cm W); try destruct (news_provider_ready W); cbn [snd];
    try apply collect_status; constructor.
Qed.

End ToolStatus.

(** ** Empty tables *)

Section EmptyTables.

Import StockTools.

(** Each diagnostic holds one of three characters that the empty-table
    messages never use. *)
Definition marker_chars : pystr := u8 "错获E".

Definition plain (c : N) : bool := negb (existsb (N.eqb c) marker_chars).

Definition all_plain (s : pystr) : Prop := Forall (fun c => plain c = true) s.

Lemma forallb_Forall_true {A} (f : A -> bool) (l : list A) :
  forallb f l = true -> Forall (fun x => f x = true) l.
Proof.
  induction l as [|x l IH]; simpl; [constructor|].
  intros H. apply andb_prop in H as [? ?]. constructor; auto.
Qed.

Lemma existsb_In (c : N) (s : pystr) : existsb (N.eqb c) s = true -> In c s.
Proof.
  intros H. apply existsb_exists in H as [x [Hx E]].
  apply N.eqb_eq in E. now subst.
Qed.

Lemma plain_not_in (c : N) (s : pystr) :
  existsb (N.eqb c) marker_chars = true -> all_plain s -> ~ In c s.
Proof.
  intros Hc Hs Hin. unfold all_plain in Hs. rewrite List.Forall_forall in Hs.
  apply Hs in Hin. unfold plain in Hin. rewrite Hc in Hin. discriminate.
Qed.

Lemma plain_diagnostic_free (s : pystr) : all_plain s -> diagnostic_free s.
Proof.
  intros Hs. unfold diagnostic_free, diagnostics.
  repeat constructor.
  - apply py_in_missing_char with (c := 38169%N);
      [vm_compute; tauto | now apply plain_not_in].
  - apply py_in_missing_char with (c := 38169%N);
      [vm_compute; tauto | now apply plain_not_in].
  - apply py_in_missing_char with (c := 33719%N);
      [vm_compute; tauto | now apply plain_not_in].
  - apply py_in_missing_char with (c := 69%N);
      [vm_compute; tauto | now apply plain_not_in].
Qed.

Lemma date_char_plain (c : N) : date_char c = true -> plain c = true.
Proof.
  unfold date_char, is_digit, plain. intros H.
  apply orb_true_iff in H as [H|H].
  - apply andb_prop in H as [H1 H2]. apply N.leb_le in H1, H2.
    change marker_chars with [38169; 33719; 69]%N. simpl.
    repeat match goal with
           | |- context [(c =? ?k)%N] =>
               let E := fresh in destruct (c =? k)%N eqn:E;
               [apply N.eqb_eq in E; lia|]
           end.
    reflexivity.
  - apply N.eqb_eq in H. subst c. reflexivity.
Qed.

Lemma digits_fuel_digits (fuel : nat) (n : Z) (acc : pystr) :
  Forall (fun c => is_digit c = true) acc ->
  Forall (fun c => is_digit c = true) (digits_fuel fuel n acc).
Proof.
  revert n acc. induction fuel as [|f IH]; intros n acc Hacc; simpl; [exact Hacc|].
  assert (Hd : is_digit (48 + Z.to_N (n mod 10)) = true).
  { unfold is_digit. pose proof (Z.mod_pos_bound n 10 ltac:(lia)).
    apply andb_true_intro. split; apply N.leb_le; lia. }
  destruct (n / 10 =? 0); [now constructor|].
  apply IH. now constructor.
Qed.

Lemma zpad_digits (w : nat) (n : Z) : Forall (fun c => is_digit c = true) (zpad w n).
Proof.
  unfold zpad, str_of_nonneg. apply Forall_app. split.
  - now apply Forall_replicate.
  - apply digits_fuel_digits. constructor.
Qed.

Lemma digits_plain (s : pystr) :
  Forall (fun c => is_digit c = true) s -> all_plain s.
Proof.
  intros H. eapply Forall_impl; [exact H|]. intros c Hc.
  apply date_char_plain. unfold date_char. now rewrite Hc.
Qed.

Lemma strftime_Ymd_plain (dt : Dates.datetime) : all_plain (Dates.strftime_Ymd dt).
Proof.
  apply digits_plain. unfold Dates.strftime_Ymd.
  apply Forall_app; split; [apply zpad_digits|].
  apply Forall_app; split; apply zpad_digits.
Qed.

(** A computed window is made of date characters only. *)
Lemma window_computed_plain (end_date : option pystr) (days : Z) (a b : pystr) :
  window_of end_date days = WComputed a b -> all_plain a /\ all_plain b.
Proof.
  unfold window_of. destruct end_date as [[|c s]|]; try discriminate.
  destruct (Dates.strptime Dates.F_Ymd (c :: s)) as [dt|] eqn:Hp; [|discriminate].
  destruct (Dates.sub_days dt days) as [start|]; [|discriminate].
  intros [= <- <-]. split; [apply strftime_Ymd_plain|].
  apply strptime_compact_chars in Hp.
  eapply Forall_impl; [exact Hp|]. intros ch. apply date_char_plain.
Qed.

Lemma literal_plain (s : pystr) : forallb plain s = true -> all_plain s.
Proof. apply forallb_Forall_true. Qed.

(** What the tools promise of an interface whose table came back empty. *)
Definition empty_summary_ok (tool : tool_kind) (end_date : option pystr)
    (p : payload) : Prop :=
  raw p = [] /\
  match window_of end_date (window_days tool) with
  | WOverflow => True
  | w =>
      status_of (summary p) = SUCCESS /\
      py_in (window_text tool w) (summary p) = true
  end.

Definition keys (tool : tool_kind) : list pystr :=
  match tool with
  | Fundamental => data_fetch_methods
  | _ => map fst (objectives tool)
  end.

Definition interface_check (tool : tool_kind) (e : pystr * pystr) : bool :=
  mem e.1 (keys tool) && forallb plain e.2.

(** Every interface a tool asks for is one its worker knows, and no
    objective text holds a marker character. *)
Lemma objectives_checked (tool : tool_kind) :
  forallb (interface_check tool) (objectives tool) = true.
Proof. destruct tool; vm_compute; reflexivity. Qed.

Lemma fetch_failure_is_error (s : pystr) :
  py_in (u8 "数据获取失败") s = true -> status_of s = ERROR.
Proof.
  intros H. unfold status_of, any_in, diagnostics. cbn [map existsb].
  rewrite H. now rewrite !orb_true_r.
Qed.

#[local] Opaque u8.

Ltac plain_parts :=
  repeat (apply Forall_app; split);
  try assumption;
  try (apply literal_plain; vm_compute; reflexivity).

Ltac locate :=
  first [ apply py_in_prefix | apply py_in_prefix3 | (apply py_in_app_r; locate) ].

Context (W : World).

Lemma worker_empty (tool : tool_kind) (stock_code : pystr)
    (end_date : option pystr) (dtype obj : pystr) (r : option table) :
  mem dtype (keys tool) = true -> all_plain obj ->
  fetch W tool dtype stock_code end_date = Returned r -> has_rows r = None ->
  empty_summary_ok tool end_date (worker W tool stock_code end_date dtype obj).
Proof.
  intros Hmem Hobj Hfetch Hrows. unfold empty_summary_ok.
  destruct tool; unfold worker, _process_data_type, _process_fund_data_with_llm,
    _process_tech_data_with_llm, _process_news_data_with_llm, empty_message;
    unfold keys, objectives in Hmem; rewrite Hmem, Hfetch, Hrows;
    unfold window_days;
    destruct (window_of end_date _) as [a b| | |] eqn:Hw;
    try (apply window_computed_plain in Hw as [Ha Hb]);
    repeat match goal with
           | |- context [if str_eqb ?x ?y then _ else _] => destruct (str_eqb x y)
           end;
    cbn [raw summary fetch_failed window_text absent_text];
    (split; [reflexivity|]); try exact I;
    (split; [apply status_of_success, plain_diagnostic_free; plain_parts
            | rewrite <- ?app_assoc; locate]).
Qed.

Lemma worker_raised (tool : tool_kind) (stock_code : pystr)
    (end_date : option pystr) (dtype obj e : pystr) :
  mem dtype (keys tool) = true ->
  fetch W tool dtype stock_code end_date = Raised e ->
  status_of (summary (worker W tool stock_code end_date dtype obj)) = ERROR /\
  raw (worker W tool stock_code end_date dtype obj) = [].
Proof.
  intros Hmem Hfetch.
  destruct tool; unfold worker, _process_data_type, _process_fund_data_with_llm,
    _process_tech_data_with_llm, _process_news_data_with_llm;
    unfold keys, objectives in Hmem; rewrite Hmem, Hfetch;
    cbn [raw summary fetch_failed]; (split; [|reflexivity]);
    apply fetch_failure_is_error;
    do 2 apply py_in_app_r; apply py_in_app_l; vm_compute; reflexivity.
Qed.

(** C5, as the code has it.  For every interface of every tool: when the
    fetch returned an empty table (or nothing) without raising, the payload
    has no raw rows and, unless the start of the window falls before year 1,
    its status is "success" and its summary holds the window text: the start
    and end dates when the end date is given as YYYYMMDD, a fixed phrase
    when it is given otherwise or not at all.  When the fetch raised, the
    status is "error". *)
Theorem empty_table_is_success (tool : tool_kind) (stock_code : pystr)
    (end_date : option pystr) :
  Forall
    (fun e : pystr * pystr =>
       let p := worker W tool stock_code end_date e.1 e.2 in
       match fetch W tool e.1 stock_code end_date with
       | Returned r => has_rows r = None -> empty_summary_ok tool end_date p
       | Raised _ => status_of (summary p) = ERROR /\ raw p = []
       end)
    (objectives tool).
Proof.
  apply List.Forall_forall. intros [dtype obj] Hin. cbn [fst snd].
  pose proof (objectives_checked tool) as Hc.
  rewrite forallb_forall in Hc. specialize (Hc _ Hin).
  unfold interface_check in Hc. cbn [fst snd] in Hc.
  apply andb_prop in Hc as [Hmem Hobj]. apply literal_plain in Hobj.
  destruct (fetch W tool dtype stock_code end_date) as [r|e] eqn:Hf.
  - intros Hrows. eapply worker_empty; eassumption.
  - eapply worker_raised; eassumption.
Qed.

End EmptyTables.

(** C5 as stated fails for an end date written with dashes, which the
    provider accepts: the provider's window is 20230915 to 20250914, and the
    summary of the empty interface names neither date. *)
Lemma dashed_end_date_summary_has_no_window :
  let end_date := Some (u8 "2025-09-14") in
  let p := StockTools.worker Mock.world Fundamental Mock.SYMBOL end_date
             (u8 "income") (u8 "营业收入与利润构成") in
  TushareProvider._get_date_range Mock.world end_date 2
    = Some (u8 "20230915", u8 "20250914") /\
  StockTools.summary p
    = u8 "【营业收入与利润构成】: 在指定日期范围内之间营业收入与利润构成数据为空" /\
  py_in (u8 "20230915") (StockTools.summary p) = false /\
  py_in (u8 "20250914") (StockTools.summary p) = false /\
  py_in (u8 "2025-09-14") (StockTools.summary p) = false /\
  StockTools.raw p = [] /\
  StockTools.status_of (StockTools.summary p) = StockTools.SUCCESS.
Proof. vm_compute. repeat split; reflexivity. Qed.


(** ** Report parsing *)

Section ParserFacts.

Import ResultManager Parsers Nodes.

Context (W : World).

Lemma str_eqb_eq (a b : pystr) : str_eqb a b = true <-> a = b.
Proof. unfold str_eqb. apply bool_decide_eq_true. Qed.

Lemma str_eqb_refl (a : pystr) : str_eqb a a = true.
Proof. now apply str_eqb_eq. Qed.

Lemma str_eqb_neq (a b : pystr) : a <> b -> str_eqb a b = false.
Proof. intros H. unfold str_eqb. now apply bool_decide_eq_false. Qed.

Lemma report_payload_data (rt ts ap data : json) :
  Some (JDict [(u8 "report_type", rt); (u8 "timestamp", ts);
               (u8 "analysis_period", ap); (u8 "data", data)])
    ≫= get (u8 "data") = Some data.
Proof. vm_compute. reflexivity. Qed.

(** What the shared tail of the analyst nodes leaves behind when the LLM
    answers: the parsed report in the state update, and the same report as
    the [data] of the report file. *)
Lemma analyse_persists (st : store) (stock_code : pystr) (end_date : option pystr)
    (prompt : string) (inputs : dict) (report_type report_key : string)
    (content : pystr) :
  llm W (Chain (u8 prompt) inputs) = Returned content ->
  exists st',
    analyse W st stock_code end_date prompt inputs report_type report_key
      = NodeOk st' [(u8 report_key, parse_analyst_report W content)] /\
    (st' !! (stock_code, _get_date_dir W end_date, u8 report_key ++ u8 ".json"))
      ≫= get (u8 "data")
      = Some (parse_analyst_report W content).
Proof.
  intros Hllm. unfold analyse. rewrite Hllm. eexists. split; [reflexivity|].
  unfold save_report. cbn [fst]. rewrite lookup_insert_eq.
  apply report_payload_data.
Qed.

(** C7. A response that is not valid JSON, once the optional fence is
    stripped, parses to the sentinel report: analyst "分析失败", viewpoint
    "中性", no scores, and a detailed analysis made of "解析失败: ", the first
    200 characters of the raw response and "..."; and that report is what an
    analyst node returns and writes to its report file. *)
Theorem unparsable_response_gives_sentinel (content : pystr) :
  json_loads W (json_str content) = None ->
  let report := parse_analyst_report W content in
  let detail := u8 "解析失败: " ++ take 200 content ++ u8 "..." in
  get (u8 "analyst_name") report = Some (JStr (u8 "分析失败")) /\
  get (u8 "viewpoint") report = Some (JStr (u8 "中性")) /\
  get (u8 "scores") report = Some (JDict []) /\
  get (u8 "detailed_analysis") report = Some (JStr detail) /\
  startswith (u8 "解析失败:") detail = true /\
  forall st stock_code end_date prompt inputs report_type report_key,
    llm W (Chain (u8 prompt) inputs) = Returned content ->
    exists st',
      analyse W st stock_code end_date prompt inputs report_type report_key
        = NodeOk st' [(u8 report_key, report)] /\
      (st' !! (stock_code, _get_date_dir W end_date, u8 report_key ++ u8 ".json"))
        ≫= get (u8 "data")
        = Some report.
Proof.
  intros Hbad report detail.
  assert (E : report = parse_failed content).
  { unfold report, parse_analyst_report. now rewrite Hbad. }
  split; [rewrite E; vm_compute; reflexivity|].
  split; [rewrite E; vm_compute; reflexivity|].
  split; [rewrite E; vm_compute; reflexivity|].
  split; [rewrite E; unfold detail; vm_compute; reflexivity|].
  split; [unfold detail; vm_compute; reflexivity|].
  intros. now apply analyse_persists.
Qed.

End ParserFacts.

Lemma unparsable_response_witness :
  json_loads (Mock.world_answering Mock.prose) (Parsers.json_str Mock.prose) = None /\
  Py.get (u8 "viewpoint") (Parsers.parse_analyst_report (Mock.world_answering Mock.prose) Mock.prose)
    = Some (JStr (u8 "中性")).
Proof.
  split; [vm_compute; reflexivity|].
  apply (unparsable_response_gives_sentinel (Mock.world_answering Mock.prose) Mock.prose).
  vm_compute. reflexivity.
Defined.

(** ** The files of a run *)

Section DictFacts.

Lemma dict_get_set (k k' : pystr) (v : json) (d : dict) :
  dict_get k (dict_set k' v d) = if str_eqb k k' then Some v else dict_get k d.
Proof.
  induction d as [|[k0 v0] d IH]; cbn [dict_set dict_get]; [done|].
  destruct (str_eqb k' k0) eqn:E.
  - apply str_eqb_eq in E as ->. cbn [dict_get]. by destruct (str_eqb k k0).
  - cbn [dict_get]. destruct (str_eqb k k0) eqn:E2.
    + apply str_eqb_eq in E2 as ->. rewrite str_eqb_neq; [done|].
      intros ->. by rewrite str_eqb_refl in E.
    + by rewrite IH.
Qed.

Lemma merge_one (state : dict) (k : pystr) (v : json) :
  MainGraph.merge state [(k, v)] = dict_set k v state.
Proof. reflexivity. Qed.

End DictFacts.

(** Membership in a list or a set written out, by position. *)
Ltac pick :=
  solve [repeat match goal with
    | |- ?x ∈ ?y :: _ =>
        first [constr_eq x y; apply list_elem_of_here | apply list_elem_of_further]
    | |- ?x ∈ {[ ?y ]} => constr_eq x y; apply elem_of_singleton_2; reflexivity
    | |- ?x ∈ {[ ?y ]} ∪ _ =>
        first [constr_eq x y; apply elem_of_union_l, elem_of_singleton_2; reflexivity
              | apply elem_of_union_r]
    end].

Ltac side := vm_compute; reflexivity.

Section RunFiles.

Import ResultManager StockTools Parsers Nodes MainGraph.

#[local] Opaque u8.

Context (W : World).

Lemma elem_of_names_in (st : store) (s d n : pystr) :
  n ∈ names_in st s d <-> (s, d, n) ∈ dom st.
Proof.
  unfold names_in. rewrite elem_of_map. split.
  - intros [[[s' d'] n'] [-> H]]. apply elem_of_filter in H as [[H1 H2] H].
    simpl in *. by subst.
  - intros H. exists (s, d, n). split; [done|]. apply elem_of_filter. by split.
Qed.

(** Every write is an insertion under the directory of the end date. *)
Lemma save_report_dom (st : store) (s rt : pystr) (data : json) (name : pystr)
    (e : option pystr) :
  dom (save_report W st s rt data (Some name) e).1
    = {[(s, _get_date_dir W e, name ++ u8 ".json")]} ∪ dom st.
Proof. unfold save_report. cbn [fst]. apply dom_insert_L. Qed.

Lemma save_tool_result_dom (st : store) (s tool : pystr) (r : json)
    (e : option pystr) :
  dom (save_tool_result W st s tool r e).1
    = {[(s, _get_date_dir W e, tool ++ u8 "_tool_result.json")]} ∪ dom st.
Proof. unfold save_tool_result. cbn [fst]. apply dom_insert_L. Qed.

Lemma get_fundamental_data_dom (st : store) (s : pystr) (e : option pystr) :
  dom (get_fundamental_data W st s e).1.1
    = {[(s, _get_date_dir W e, u8 "fundamental_data" ++ u8 "_tool_result.json")]} ∪ dom st.
Proof.
  unfold get_fundamental_data. destruct (cm W); cbn [fst]; apply save_tool_result_dom.
Qed.

Lemma get_tech_data_dom (st : store) (s : pystr) (e : option pystr) :
  dom (get_tech_data W st s e).1.1
    = {[(s, _get_date_dir W e, u8 "tech_data" ++ u8 "_tool_result.json")]} ∪ dom st.
Proof.
  unfold get_tech_data. destruct (cm W); cbn [fst]; apply save_tool_result_dom.
Qed.

Lemma get_fund_data_dom (st : store) (s : pystr) (e : option pystr) :
  dom (get_fund_data W st s e).1.1
    = {[(s, _get_date_dir W e, u8 "fund_data" ++ u8 "_tool_result.json")]} ∪ dom st.
Proof.
  unfold get_fund_data. destruct (cm W); cbn [fst]; apply save_tool_result_dom.
Qed.

Lemma get_news_dom (st : store) (s : pystr) (e : option pystr) :
  dom (get_news W st s e).1.1
    = {[(s, _get_date_dir W e, u8 "news_data" ++ u8 "_tool_result.json")]} ∪ dom st.
Proof.
  unfold get_news.
  destruct (cm W), (news_provider_ready W); cbn [fst]; apply save_tool_result_dom.
Qed.

Lemma analyse_dom (st : store) (s : pystr) (e : option pystr)
    (prompt : string) (inputs : dict) (rt rk : string) (st' : store) (upd : dict) :
  analyse W st s e prompt inputs rt rk = NodeOk st' upd ->
  dom st' = {[(s, _get_date_dir W e, u8 rk ++ u8 ".json")]} ∪ dom st /\
  exists r, upd = [(u8 rk, r)].
Proof.
  unfold analyse. destruct (llm W _); [|discriminate].
  intros [= <- <-]. split; [apply save_report_dom | eauto].
Qed.


Lemma analyse_returns (st : store) (s : pystr) (e : option pystr)
    (prompt : string) (inputs : dict) (rt rk : string) :
  (forall c, exists r, llm W c = Returned r) ->
  exists st' upd, analyse W st s e prompt inputs rt rk = NodeOk st' upd.
Proof.
  intros H. unfold analyse. destruct (H (Chain (u8 prompt) inputs)) as [r ->]. eauto.
Qed.

Lemma analyse_raised (st : store) (s : pystr) (e : option pystr)
    (prompt : string) (inputs : dict) (rt rk : string) (st' : store) (msg : pystr) :
  analyse W st s e prompt inputs rt rk = NodeRaised st' msg -> st' = st.
Proof. unfold analyse. destruct (llm W _); [discriminate|]. by intros [= <- _]. Qed.

Lemma two_writes (a b : path) (X : gset path) : {[b]} ∪ ({[a]} ∪ X) = {[a; b]} ∪ X.
Proof. set_solver. Qed.

Lemma union_swap (X Y Z : gset path) : X ∪ (Y ∪ Z) = (Y ∪ X) ∪ Z.
Proof. set_solver. Qed.

Lemma save_report_dom_default (st : store) (s rt : pystr) (data : json)
    (e : option pystr) :
  dom (save_report W st s rt data None e).1
    = {[(s, _get_date_dir W e, (rt ++ u8 "_report") ++ u8 ".json")]} ∪ dom st.
Proof. unfold save_report. cbn [fst]. apply dom_insert_L. Qed.

Variables (s : pystr) (e : option pystr) (st0 : store).

Hypothesis fresh : names_in st0 s (_get_date_dir W e) = ∅.

(** The files each node writes: under the directory of the end date, except
    the summary of the final node, which goes under today's. *)
Definition outputs (n : node) : gset path :=
  let d := _get_date_dir W e in
  match n with
  | start => ∅
  | fundamental_analysis =>
      {[(s, d, u8 "fundamental_data" ++ u8 "_tool_result.json");
        (s, d, u8 "fundamental_report" ++ u8 ".json")]}
  | news_analysis =>
      {[(s, d, u8 "news_data" ++ u8 "_tool_result.json");
        (s, d, u8 "news_report" ++ u8 ".json")]}
  | sentiment_analysis =>
      {[(s, d, u8 "sentiment_input" ++ u8 "_tool_result.json");
        (s, d, u8 "sentiment_report" ++ u8 ".json")]}
  | technical_analysis =>
      {[(s, d, u8 "tech_data" ++ u8 "_tool_result.json");
        (s, d, u8 "technical_report" ++ u8 ".json")]}
  | fund_analysis =>
      {[(s, d, u8 "fund_data" ++ u8 "_tool_result.json");
        (s, d, u8 "fund_report" ++ u8 ".json")]}
  | supervisor => {[(s, d, u8 "supervisor_report" ++ u8 ".json")]}
  | final_result_save =>
      {[(s, _get_date_dir W None, u8 "analysis_summary" ++ u8 ".json")]}
  end.

Definition all_nodes : list node :=
  [start; fundamental_analysis; news_analysis; sentiment_analysis;
   technical_analysis; fund_analysis; supervisor; final_result_save].

Definition all_outputs : gset path := ⋃ (outputs <$> all_nodes).

Lemma outputs_allowed (n : node) : outputs n ⊆ all_outputs.
Proof.
  intros p Hp. apply elem_of_union_list. exists (outputs n). split; [|done].
  apply list_elem_of_fmap. exists n. split; [done|].
  unfold all_nodes. destruct n; pick.
Qed.

(** The names the nodes write. *)
Definition tool_result_names : list pystr :=
  map (fun t => u8 t ++ u8 "_tool_result.json")
    ["fundamental_data"; "tech_data"; "fund_data"; "news_data"; "sentiment_input"]%string.

Definition report_names : list pystr :=
  map (fun t => u8 t ++ u8 ".json")
    ["fundamental_report"; "technical_report"; "fund_report"; "news_report";
     "sentiment_report"; "supervisor_report"]%string.

Definition SUMMARY_NAME : pystr := u8 "analysis_summary" ++ u8 ".json".

Lemma path_inj (a b c a' b' c' : pystr) :
  (a, b, c) = (a', b', c') -> b = b' /\ c = c'.
Proof. by intros [= _ -> ->]. Qed.

Lemma all_outputs_names (d' n : pystr) :
  (s, d', n) ∈ all_outputs ->
  n ∈ tool_result_names ++ report_names \/
  (n = SUMMARY_NAME /\ d' = _get_date_dir W None).
Proof.
  intros H. apply elem_of_union_list in H as (X & HX & Hn).
  apply list_elem_of_fmap in HX as (m & -> & _).
  unfold tool_result_names, report_names, SUMMARY_NAME. cbn [map app].
  destruct m; unfold outputs in Hn;
    repeat match goal with
    | H : _ ∈ ∅ |- _ => by apply not_elem_of_empty in H
    | H : _ ∈ _ ∪ _ |- _ => apply elem_of_union in H as [H|H]
    | H : _ ∈ {[ _ ]} |- _ => apply elem_of_singleton_1, path_inj in H as [-> ->]
    end;
    first [left; pick | right; split; reflexivity].
Qed.

Lemma names_all_outputs (n : pystr) :
  n ∈ tool_result_names ++ report_names -> (s, _get_date_dir W e, n) ∈ all_outputs.
Proof.
  unfold tool_result_names, report_names. cbn [map app]. intros H.
  repeat (apply elem_of_cons in H as [->|H]); [..|by apply elem_of_nil in H].
  - apply (outputs_allowed fundamental_analysis). unfold outputs. pick.
  - apply (outputs_allowed technical_analysis). unfold outputs. pick.
  - apply (outputs_allowed fund_analysis). unfold outputs. pick.
  - apply (outputs_allowed news_analysis). unfold outputs. pick.
  - apply (outputs_allowed sentiment_analysis). unfold outputs. pick.
  - apply (outputs_allowed fundamental_analysis). unfold outputs. pick.
  - apply (outputs_allowed technical_analysis). unfold outputs. pick.
  - apply (outputs_allowed fund_analysis). unfold outputs. pick.
  - apply (outputs_allowed news_analysis). unfold outputs. pick.
  - apply (outputs_allowed sentiment_analysis). unfold outputs. pick.
  - apply (outputs_allowed supervisor). unfold outputs. pick.
Qed.

Lemma fresh_dom (n : pystr) : (s, _get_date_dir W e, n) ∉ dom st0.
Proof. rewrite <- elem_of_names_in, fresh. apply not_elem_of_empty. Qed.

(** The keys of the report mapping are the report names, and none of them is
    a key the final node or the request sets. *)
Definition report_key_ok (kt : pystr * pystr) : bool :=
  str_eqb kt.1 (kt.2 ++ u8 "_report")
  && forallb (fun m => negb (str_eqb kt.1 (u8 m)))
       ["stock_code"; "end_date"; "saved_files"; "summary_filepath"; "final_report"]%string.

Lemma report_keys (k t : pystr) :
  (k, t) ∈ report_mapping ->
  k = t ++ u8 "_report" /\
  str_eqb k (u8 "stock_code") = false /\ str_eqb k (u8 "end_date") = false /\
  str_eqb k (u8 "saved_files") = false /\ str_eqb k (u8 "summary_filepath") = false /\
  str_eqb k (u8 "final_report") = false.
Proof.
  intros H. apply list_elem_of_In in H.
  assert (A : forallb report_key_ok report_mapping = true) by (vm_compute; reflexivity).
  rewrite forallb_forall in A. apply A in H. unfold report_key_ok in H.
  cbn [fst snd forallb] in H.
  rewrite !andb_true_iff, !negb_true_iff in H.
  destruct H as (H1 & H2 & H3 & H4 & H5 & H6 & _).
  apply str_eqb_eq in H1. tauto.
Qed.

(** What holds between the nodes of a run: the state still names the request,
    every report in the state has its file, and nothing but the outputs of
    the nodes was written. *)
Record inv (st : store) (state : dict) : Prop := {
  inv_code : state_stock_code state = s;
  inv_date : state_end_date state = e;
  inv_keys : forall k t, (k, t) ∈ report_mapping -> is_Some (dict_get k state) ->
             (s, _get_date_dir W e, k ++ u8 ".json") ∈ dom st;
  inv_dom : dom st ⊆ dom st0 ∪ all_outputs;
}.

Lemma state_stock_code_set (state : dict) (k : pystr) (v : json) :
  str_eqb (u8 "stock_code") k = false ->
  state_stock_code (dict_set k v state) = state_stock_code state.
Proof. intros H. unfold state_stock_code. by rewrite dict_get_set, H. Qed.

Lemma state_end_date_set (state : dict) (k : pystr) (v : json) :
  str_eqb (u8 "end_date") k = false ->
  state_end_date (dict_set k v state) = state_end_date state.
Proof. intros H. unfold state_end_date. by rewrite dict_get_set, H. Qed.

Lemma inv_initial : inv st0 (initial_state s e).
Proof.
  split.
  - unfold state_stock_code, initial_state. cbn [dict_get]. by rewrite str_eqb_refl.
  - unfold state_end_date, initial_state. cbn [dict_get].
    replace (str_eqb (u8 "end_date") (u8 "stock_code")) with false
      by (vm_compute; reflexivity).
    rewrite str_eqb_refl. by destruct e.
  - intros k t Hk Hs. apply report_keys in Hk as (_ & H1 & H2 & _).
    unfold initial_state in Hs. cbn [dict_get] in Hs. rewrite H1, H2 in Hs.
    by destruct Hs.
  - apply union_subseteq_l.
Qed.

(** A node that writes [outputs n] and returns one report keeps the
    invariant. *)
Lemma inv_report (n : node) (st st' : store) (state : dict) (rk : string) (r : json) :
  inv st state ->
  dom st' = outputs n ∪ dom st ->
  (s, _get_date_dir W e, u8 rk ++ u8 ".json") ∈ outputs n ->
  str_eqb (u8 "stock_code") (u8 rk) = false ->
  str_eqb (u8 "end_date") (u8 rk) = false ->
  inv st' (merge state [(u8 rk, r)]).
Proof.
  intros I D Hp H1 H2. rewrite merge_one. split.
  - rewrite state_stock_code_set by done. apply I.
  - rewrite state_end_date_set by done. apply I.
  - intros k t Hk Hs. rewrite D. rewrite dict_get_set in Hs.
    destruct (str_eqb k (u8 rk)) eqn:E.
    + apply str_eqb_eq in E as ->. by apply elem_of_union_l.
    + apply elem_of_union_r. by apply (inv_keys _ _ I k t).
  - rewrite D. pose proof (outputs_allowed n). pose proof (inv_dom _ _ I).
    apply union_least; [|done]. etrans; [done|]. apply union_subseteq_r.
Qed.

Lemma fundamental_step (st st' : store) (state upd : dict) :
  inv st state ->
  run_fundamental_analysis W st state = NodeOk st' upd ->
  inv st' (merge state upd) /\ dom st' = outputs fundamental_analysis ∪ dom st.
Proof.
  intros I H. unfold run_fundamental_analysis in H.
  rewrite (inv_code _ _ I), (inv_date _ _ I) in H.
  pose proof (get_fundamental_data_dom st s e) as D.
  destruct (get_fundamental_data W st s e) as [[st1 txt] ifs]. cbn [fst] in D.
  apply analyse_dom in H as [D' [r ->]].
  assert (E : dom st' = outputs fundamental_analysis ∪ dom st).
  { rewrite D', D. apply two_writes. }
  split; [|done].
  eapply inv_report; [done|done|unfold outputs; pick|side|side].
Qed.

Lemma technical_step (st st' : store) (state upd : dict) :
  inv st state ->
  run_technical_analysis W st state = NodeOk st' upd ->
  inv st' (merge state upd) /\ dom st' = outputs technical_analysis ∪ dom st.
Proof.
  intros I H. unfold run_technical_analysis in H.
  rewrite (inv_code _ _ I), (inv_date _ _ I) in H.
  pose proof (get_tech_data_dom st s e) as D.
  destruct (get_tech_data W st s e) as [[st1 txt] ifs]. cbn [fst] in D.
  apply analyse_dom in H as [D' [r ->]].
  assert (E : dom st' = outputs technical_analysis ∪ dom st).
  { rewrite D', D. apply two_writes. }
  split; [|done].
  eapply inv_report; [done|done|unfold outputs; pick|side|side].
Qed.

Lemma fund_step (st st' : store) (state upd : dict) :
  inv st state ->
  run_fund_analysis W st state = NodeOk st' upd ->
  inv st' (merge state upd) /\ dom st' = outputs fund_analysis ∪ dom st.
Proof.
  intros I H. unfold run_fund_analysis in H.
  rewrite (inv_code _ _ I), (inv_date _ _ I) in H.
  pose proof (get_fund_data_dom st s e) as D.
  destruct (get_fund_data W st s e) as [[st1 txt] ifs]. cbn [fst] in D.
  destruct (analyse W st1 s e _ _ _ _) as [st2 u|st2 msg] eqn:A.
  - injection H as <- <-. apply analyse_dom in A as [D' [r ->]].
    assert (E : dom st2 = outputs fund_analysis ∪ dom st).
    { rewrite D', D. apply two_writes. }
    split; [|done].
    eapply inv_report; [done|done|unfold outputs; pick|side|side].
  - injection H as <- <-. apply analyse_raised in A as ->.
    assert (E : dom (save_report W st1 s (u8 "fund") (fund_default_report msg)
                       (Some (u8 "fund_report")) e).1
                = outputs fund_analysis ∪ dom st).
    { rewrite save_report_dom, D. apply two_writes. }
    split; [|done].
    eapply inv_report; [done|done|unfold outputs; pick|side|side].
Qed.

(** Nothing a run writes is a file [load_news_data] looks for. *)
Lemma not_written (st : store) (state : dict) (n : pystr) :
  inv st state ->
  n ∉ SUMMARY_NAME :: tool_result_names ++ report_names ->
  st !! (s, _get_date_dir W e, n) = None.
Proof.
  intros I Hn. apply not_elem_of_dom. intros H. apply (inv_dom _ _ I) in H.
  apply elem_of_union in H as [H|H]; [by apply fresh_dom in H|].
  apply all_outputs_names in H as [H|[-> _]]; apply Hn;
    [by apply list_elem_of_further | apply list_elem_of_here].
Qed.

Lemma no_cached_news (st : store) (state : dict) :
  inv st state -> cached_news W st s e = None.
Proof.
  intros I. unfold cached_news, load_news_data, load_tool_result.
  rewrite (not_written st state (u8 "news_sentiment_structured" ++ u8 "_tool_result.json"))
    by (done || (apply (bool_decide_unpack _); vm_compute; constructor)).
  rewrite (not_written st state (u8 "news_sentiment" ++ u8 "_tool_result.json"))
    by (done || (apply (bool_decide_unpack _); vm_compute; constructor)).
  reflexivity.
Qed.

Lemma news_step (st st' : store) (state upd : dict) :
  inv st state ->
  run_news_analysis W st state = NodeOk st' upd ->
  inv st' (merge state upd) /\ dom st' = outputs news_analysis ∪ dom st.
Proof.
  intros I H. unfold run_news_analysis in H.
  rewrite (inv_code _ _ I), (inv_date _ _ I) in H.
  rewrite (no_cached_news st state I) in H.
  pose proof (get_news_dom st s e) as D.
  destruct (get_news W st s e) as [[st1 txt] ifs]. cbn [fst] in D.
  apply analyse_dom in H as [D' [r ->]].
  assert (E : dom st' = outputs news_analysis ∪ dom st).
  { rewrite D', D. apply two_writes. }
  split; [|done].
  eapply inv_report; [done|done|unfold outputs; pick|side|side].
Qed.

Lemma sentiment_step (st st' : store) (state upd : dict) :
  inv st state ->
  run_sentiment_analysis W st state = NodeOk st' upd ->
  inv st' (merge state upd) /\ dom st' = outputs sentiment_analysis ∪ dom st.
Proof.
  intros I H. unfold run_sentiment_analysis in H.
  rewrite (inv_code _ _ I), (inv_date _ _ I) in H.
  apply analyse_dom in H as [D' [r ->]].
  assert (E : dom st' = outputs sentiment_analysis ∪ dom st).
  { rewrite D', save_tool_result_dom. apply two_writes. }
  split; [|done].
  eapply inv_report; [done|done|unfold outputs; pick|side|side].
Qed.

Lemma supervisor_step (st st' : store) (state upd : dict) :
  inv st state ->
  run_supervisor W st state = NodeOk st' upd ->
  inv st' (merge state upd) /\ dom st' = outputs supervisor ∪ dom st.
Proof.
  intros I H. unfold run_supervisor in H.
  rewrite (inv_code _ _ I), (inv_date _ _ I) in H.
  destruct (llm W _) as [content|]; [|discriminate].
  injection H as <- <-.
  assert (E : dom (save_report W st s (u8 "supervisor")
                     (parse_supervisor_report W content)
                     (Some (u8 "supervisor_report")) e).1
              = outputs supervisor ∪ dom st).
  { apply save_report_dom. }
  split; [|done].
  eapply inv_report; [done|done|unfold outputs; pick|side|side].
Qed.

(** [save_all_reports] rewrites report files that are already there. *)
Lemma save_all_reports_dom (st : store) (state : dict) :
  inv st state -> dom (save_all_reports W st s state).1 = dom st.
Proof.
  intros I. unfold save_all_reports. fold (state_end_date state).
  rewrite (inv_date _ _ I).
  match goal with |- dom (fold_left ?f _ _).1 = _ => set (F := f) end.
  assert (G : forall l acc,
             (forall k t, (k, t) ∈ l -> (k, t) ∈ report_mapping) ->
             dom acc.1 = dom st -> dom (fold_left F l acc).1 = dom st).
  { induction l as [|[k t] l IH]; intros [st1 saved] Hl Hd; [done|].
    cbn [fold_left]. apply IH.
    { intros k' t' Hk. apply Hl. by apply list_elem_of_further. }
    subst F. cbn beta iota.
    destruct (dict_get k state) as [v|] eqn:Ek; [|done].
    destruct (truthy v); [|done].
    pose proof (save_report_dom_default st1 s t v e) as D.
    destruct (save_report W st1 s t v None e) as [st2 fp]. cbn [fst] in D, Hd.
    assert (E : dom st2 = dom st).
    { rewrite D, Hd. apply subseteq_union_1_L, singleton_subseteq_l.
      assert (Hk : (k, t) ∈ report_mapping) by (apply Hl, list_elem_of_here).
      destruct (report_keys k t Hk) as [<- _].
      apply (inv_keys _ _ I k t Hk). by rewrite Ek. }
    by destruct fp. }
  by apply G.
Qed.

Lemma final_step (st st' : store) (state upd : dict) :
  inv st state ->
  run_final_result_save W st state = NodeOk st' upd ->
  inv st' (merge state upd) /\ dom st' = outputs final_result_save ∪ dom st.
Proof.
  intros I H. unfold run_final_result_save in H. rewrite (inv_code _ _ I) in H.
  pose proof (save_all_reports_dom st state I) as D.
  destruct (save_all_reports W st s state) as [st1 saved]. cbn [fst] in D.
  pose proof (save_report_dom st1 s (u8 "summary") (JStr (get_result_summary st1 s))
                (u8 "analysis_summary") None) as D2.
  destruct (save_report W st1 s (u8 "summary") _ (Some (u8 "analysis_summary")) None)
    as [st2 fp].
  cbn [fst] in D2. injection H as <- <-.
  assert (E : dom st2 = outputs final_result_save ∪ dom st) by (by rewrite D2, D).
  split; [|done]. unfold merge. cbn [fold_left]. split.
  - rewrite !state_stock_code_set by side. apply I.
  - rewrite !state_end_date_set by side. apply I.
  - intros k t Hk Hs. pose proof (report_keys k t Hk) as (_ & _ & _ & K1 & K2 & K3).
    rewrite !dict_get_set, K3, K2, K1 in Hs. rewrite E.
    apply elem_of_union_r. by apply (inv_keys _ _ I k t).
  - rewrite E. pose proof (outputs_allowed final_result_save).
    pose proof (inv_dom _ _ I).
    apply union_least; [|done]. etrans; [done|]. apply union_subseteq_r.
Qed.

Lemma node_step (n : node) (st st' : store) (state upd : dict) :
  inv st state ->
  run_node W n st state = NodeOk st' upd ->
  inv st' (merge state upd) /\ dom st' = outputs n ∪ dom st.
Proof.
  intros I H. destruct n; cbn [run_node] in H.
  - injection H as <- <-. split; [done|]. unfold outputs. by rewrite (left_id_L ∅ (∪)).
  - by apply fundamental_step.
  - by apply news_step.
  - by apply sentiment_step.
  - by apply technical_step.
  - by apply fund_step.
  - by apply supervisor_step.
  - by apply final_step.
Qed.

(** A run that ends without an exception has written the outputs of the
    nodes it ran, and nothing else. *)
Lemma run_schedule_dom (sched : list node) :
  forall (st : store) (state : dict) (st' : store) (state' : dict),
    inv st state ->
    run_schedule W sched st state = (st', state', None) ->
    inv st' state' /\ dom st' = ⋃ (outputs <$> sched) ∪ dom st.
Proof.
  induction sched as [|n sched IH]; intros st state st' state' I H;
    cbn [run_schedule] in H.
  - injection H as <- <-. split; [done|].
    cbn [fmap list_fmap union_list foldr]. by rewrite (left_id_L ∅ (∪)).
  - destruct (run_node W n st state) as [st1 upd|st1 msg] eqn:N; [|discriminate].
    apply node_step in N as [I1 D1]; [|done].
    apply IH in H as [I2 D2]; [|done]. split; [done|].
    rewrite D2, D1, fmap_cons, union_list_cons. apply union_swap.
Qed.

Lemma all_nodes_outputs (sched : list node) :
  (forall n : node, n ∈ sched) -> ⋃ (outputs <$> sched) = all_outputs.
Proof.
  intros Hall. apply set_eq. intros p. unfold all_outputs.
  rewrite !elem_of_union_list. split.
  - intros (X & HX & Hp). apply list_elem_of_fmap in HX as (n & -> & _).
    exists (outputs n). split; [|done]. apply list_elem_of_fmap. exists n.
    split; [done|]. unfold all_nodes. destruct n; pick.
  - intros (X & HX & Hp). apply list_elem_of_fmap in HX as (n & -> & _).
    exists (outputs n). split; [|done]. apply list_elem_of_fmap. by exists n.
Qed.

(** With an LLM that answers every call, no node raises. *)
Lemma run_node_returns (n : node) (st : store) (state : dict) :
  (forall c, exists r, llm W c = Returned r) ->
  exists st' upd, run_node W n st state = NodeOk st' upd.
Proof.
  intros L. destruct n; cbn [run_node].
  - eauto.
  - unfold run_fundamental_analysis.
    destruct (get_fundamental_data W st _ _) as [[st1 txt] ifs]. by apply analyse_returns.
  - unfold run_news_analysis. destruct (cached_news W st _ _).
    + by apply analyse_returns.
    + destruct (get_news W st _ _) as [[st1 txt] ifs]. by apply analyse_returns.
  - unfold run_sentiment_analysis. by apply analyse_returns.
  - unfold run_technical_analysis.
    destruct (get_tech_data W st _ _) as [[st1 txt] ifs]. by apply analyse_returns.
  - unfold run_fund_analysis.
    destruct (get_fund_data W st _ _) as [[st1 txt] ifs].
    destruct (analyse W st1 _ _ _ _ _ _); eauto.
  - unfold run_supervisor.
    destruct (L (Chain (u8 "SUPERVISOR_PROMPT") (supervisor_inputs W st state)))
      as [r ->]. eauto.
  - unfold run_final_result_save.
    destruct (save_all_reports W st _ state) as [st1 saved].
    destruct (save_report W st1 _ _ _ _ _) as [st2 fp]. eauto.
Qed.

Lemma run_schedule_returns (sched : list node) :
  (forall c, exists r, llm W c = Returned r) ->
  forall (st : store) (state : dict), (run_schedule W sched st state).2 = None.
Proof.
  intros L. induction sched as [|n sched IH]; intros st state; [done|].
  cbn [run_schedule].
  destruct (run_node_returns n st state L) as (st' & upd & ->). apply IH.
Qed.

Definition run_names : gset pystr := list_to_set (tool_result_names ++ report_names).

(** C2, as the code has it.  A run over a fixed symbol and end date, in a
    directory that was empty, by any schedule that runs every node: when the
    LLM answers every call the run ends without an exception, and a run that
    ends without one leaves under <symbol>/<YYYYMMDD>/, the summary apart,
    exactly the five tool results
    {fundamental_data,tech_data,fund_data,news_data,sentiment_input}_tool_result.json
    and the six reports
    {fundamental,technical,fund,news,sentiment,supervisor}_report.json.
    analysis_summary.json is written under the directory of the day of the
    run. *)
Theorem run_writes_tool_results_and_reports (sched : list node) :
  (forall n : node, n ∈ sched) ->
  let run := run_schedule W sched st0 (initial_state s e) in
  ((forall c, exists r, llm W c = Returned r) -> run.2 = None) /\
  (run.2 = None ->
   names_in run.1.1 s (_get_date_dir W e) ∖ {[SUMMARY_NAME]} = run_names /\
   SUMMARY_NAME ∈ names_in run.1.1 s (_get_date_dir W None)).
Proof.
  intros Hall run. split; [intros L; by apply run_schedule_returns|].
  subst run. destruct (run_schedule W sched st0 (initial_state s e))
    as [[st' state'] err] eqn:R.
  cbn [fst snd]. intros ->.
  destruct (run_schedule_dom sched _ _ _ _ inv_initial R) as [_ D].
  rewrite (all_nodes_outputs sched Hall) in D. split.
  - apply set_eq. intros n.
    rewrite elem_of_difference, elem_of_names_in, D, elem_of_union, elem_of_singleton.
    unfold run_names. rewrite elem_of_list_to_set. split.
    + intros [[H|H] Hne]; [|by apply fresh_dom in H].
      by apply all_outputs_names in H as [H|[-> _]].
    + intros H. split; [left; by apply names_all_outputs|].
      intros ->. revert H. apply (bool_decide_unpack _). vm_compute. constructor.
  - apply elem_of_names_in. rewrite D. apply elem_of_union_l.
    apply (outputs_allowed final_result_save). unfold outputs, SUMMARY_NAME. pick.
Qed.

End RunFiles.

Section MockRun.

Import ResultManager MainGraph.

Definition mock_run : store :=
  (run_schedule Mock.world topological_order ∅
     (initial_state Mock.SYMBOL (Some (u8 "20250914")))).1.1.

Lemma names_in_empty (s d : pystr) : names_in ∅ s d = ∅.
Proof.
  apply set_eq. intros n. rewrite elem_of_names_in, dom_empty_L.
  split; intros H; by apply not_elem_of_empty in H.
Qed.

Lemma run_files_witness :
  names_in mock_run Mock.SYMBOL (_get_date_dir Mock.world (Some (u8 "20250914")))
    ∖ {[SUMMARY_NAME]} = run_names.
Proof.
  apply (run_writes_tool_results_and_reports Mock.world Mock.SYMBOL
           (Some (u8 "20250914")) ∅ (names_in_empty _ _) topological_order).
  - intros n. unfold topological_order. destruct n; pick.
  - vm_compute. reflexivity.
Defined.

(** The file names of the claim as the specification lists them. *)
Definition claimed_names : gset pystr :=
  list_to_set (map u8
    ["fundamental_data.json"; "tech_data.json"; "fund_data.json"; "news_data.json";
     "fundamental_report.json"; "technical_report.json"; "fund_report.json";
     "news_report.json"; "sentiment_report.json"; "supervisor_report.json";
     "sentiment_input.json"; "analysis_summary.json"]%string).

(** The run of 20 September 2025 for the end date 20250914, every LLM call
    answered: the directory 20250914 holds fundamental_data_tool_result.json,
    no fundamental_data.json and no analysis_summary.json, which is under
    20250920. *)
Lemma run_files_differ_from_claimed :
  names_in mock_run Mock.SYMBOL (u8 "20250914") <> claimed_names /\
  (u8 "fundamental_data_tool_result.json" ∈ names_in mock_run Mock.SYMBOL (u8 "20250914")) /\
  (u8 "analysis_summary.json" ∉ names_in mock_run Mock.SYMBOL (u8 "20250914")) /\
  (u8 "analysis_summary.json" ∈ names_in mock_run Mock.SYMBOL (u8 "20250920")).
Proof.
  assert (A : u8 "analysis_summary.json" ∉ names_in mock_run Mock.SYMBOL (u8 "20250914")).
  { rewrite elem_of_names_in, elem_of_dom. intros H. vm_compute in H.
    by destruct H. }
  split; [|split; [|split; [done|]]].
  - intros H. apply A. rewrite H. unfold claimed_names.
    apply elem_of_list_to_set. cbn [map]. pick.
  - rewrite elem_of_names_in, elem_of_dom. vm_compute. eauto.
  - rewrite elem_of_names_in, elem_of_dom. vm_compute. eauto.
Qed.

End MockRun.

(** ** What the supervisor reads *)

Ltac differ :=
  cbn [snd default from_option id]; apply (bool_decide_unpack _); vm_compute; constructor.

Lemma str_eqb_neq' (a b : pystr) : str_eqb a b = false -> a <> b.
Proof. intros H ->. by rewrite str_eqb_refl in H. Qed.

Section StoredNews.

Import ResultManager StockTools Parsers Nodes MainGraph.

#[local] Opaque u8.

Context (W : World).

Lemma join_nonempty (sep p : pystr) (rest : list pystr) :
  p <> [] -> join sep (p :: rest) <> [].
Proof.
  intros H. destruct rest; cbn [join]; [done|]. destruct p; [done|]. discriminate.
Qed.

Lemma result_of_nonempty (k : pystr) (ifaces : list (pystr * interface_result)) :
  Forall (fun r => r <> []) (result_of k ifaces).
Proof.
  unfold result_of. destruct (filter _ _) as [|x l]; [constructor|].
  destruct (result x.2) eqn:E; repeat constructor. discriminate.
Qed.

Lemma combined_summary_nonempty (ifaces : list (pystr * interface_result)) :
  combined_summary ifaces <> [].
Proof.
  unfold combined_summary.
  assert (F : Forall (fun r => r <> [])
                (result_of (u8 "news") ifaces ++ result_of (u8 "major_news") ifaces
                   ++ result_of (u8 "cctv_news") ifaces)).
  { repeat apply Forall_app_2; apply result_of_nonempty. }
  destruct (_ ++ _ ++ _) as [|p rest].
  - differ.
  - apply join_nonempty. by inversion F.
Qed.

Lemma tool_payload_data (a b c data : json) :
  dict_get (u8 "data")
    ([(u8 "tool", a); (u8 "timestamp", b); (u8 "analysis_period", c)]
       ++ [(u8 "data", data)]) = Some data.
Proof. vm_compute. reflexivity. Qed.

Lemma final_result_summary (t cs : json) (rest : dict) :
  dict_get (u8 "combined_summary")
    ([(u8 "analysis_type", t)] ++ [(u8 "combined_summary", cs)] ++ rest) = Some cs.
Proof. vm_compute. reflexivity. Qed.

(** With a provider, [get_news] stores its combined summary where the
    sentiment node reads it, and the summary is not empty. *)
Lemma get_news_stores (st : store) (s : pystr) (e : option pystr) :
  cm W = CmReady -> news_provider_ready W = true ->
  news_combined_summary_of
    (load_tool_result W (get_news W st s e).1.1 s (u8 "news_data") e)
    = JStr (get_news W st s e).1.2 /\
  (get_news W st s e).1.2 <> [].
Proof.
  intros C R. unfold get_news. rewrite C, R. cbn [fst snd].
  split; [|apply combined_summary_nonempty].
  unfold load_tool_result, save_tool_result, final_result. cbn [fst].
  rewrite lookup_insert_eq. unfold news_combined_summary_of.
  rewrite tool_payload_data. cbn [default from_option id]. rewrite final_result_summary.
  reflexivity.
Qed.

(** Writes under another name leave a file as it is. *)
Lemma other_name (a b c a' b' c' : pystr) : c <> c' -> (a, b, c) <> (a', b', c').
Proof. intros H [= _ _ E]. by apply H. Qed.

Lemma save_report_other (st : store) (s rt : pystr) (data : json)
    (name : option pystr) (e : option pystr) (p : path) :
  p.2 <> default (rt ++ u8 "_report") name ++ u8 ".json" ->
  (save_report W st s rt data name e).1 !! p = st !! p.
Proof.
  intros H. unfold save_report. cbn [fst]. apply lookup_insert_ne.
  destruct p as [[a b] c]. apply other_name. intros E. apply H. cbn [snd].
  rewrite <- E. by destruct name.
Qed.

Lemma save_tool_result_other (st : store) (s tool : pystr) (r : json)
    (e : option pystr) (p : path) :
  p.2 <> tool ++ u8 "_tool_result.json" ->
  (save_tool_result W st s tool r e).1 !! p = st !! p.
Proof.
  intros H. unfold save_tool_result. cbn [fst]. apply lookup_insert_ne.
  destruct p as [[a b] c]. apply other_name. intros E. by apply H.
Qed.

Lemma analyse_other (st : store) (s : pystr) (e : option pystr)
    (prompt : string) (inputs : dict) (rt rk : string) (st' : store) (upd : dict)
    (p : path) :
  analyse W st s e prompt inputs rt rk = NodeOk st' upd ->
  p.2 <> u8 rk ++ u8 ".json" ->
  st' !! p = st !! p.
Proof.
  unfold analyse. destruct (llm W _); [|discriminate].
  intros [= <- <-] H. apply lookup_insert_ne.
  destruct p as [[a' b'] c']. apply other_name. intros E. by apply H.
Qed.

Lemma get_fundamental_data_other (st : store) (s : pystr) (e : option pystr) (p : path) :
  p.2 <> u8 "fundamental_data" ++ u8 "_tool_result.json" ->
  (get_fundamental_data W st s e).1.1 !! p = st !! p.
Proof.
  intros H. unfold get_fundamental_data.
  destruct (cm W); cbn [fst]; by apply save_tool_result_other.
Qed.

Lemma get_tech_data_other (st : store) (s : pystr) (e : option pystr) (p : path) :
  p.2 <> u8 "tech_data" ++ u8 "_tool_result.json" ->
  (get_tech_data W st s e).1.1 !! p = st !! p.
Proof.
  intros H. unfold get_tech_data.
  destruct (cm W); cbn [fst]; by apply save_tool_result_other.
Qed.

Lemma get_fund_data_other (st : store) (s : pystr) (e : option pystr) (p : path) :
  p.2 <> u8 "fund_data" ++ u8 "_tool_result.json" ->
  (get_fund_data W st s e).1.1 !! p = st !! p.
Proof.
  intros H. unfold get_fund_data.
  destruct (cm W); cbn [fst]; by apply save_tool_result_other.
Qed.

Definition not_a_report (n : pystr) : bool :=
  forallb (fun kt : pystr * pystr => negb (str_eqb n ((kt.2 ++ u8 "_report") ++ u8 ".json")))
    report_mapping.

Lemma save_all_reports_other (st : store) (s : pystr) (state : dict) (p : path) :
  not_a_report p.2 = true ->
  (save_all_reports W st s state).1 !! p = st !! p.
Proof.
  intros N. unfold save_all_reports, not_a_report in *.
  rewrite forallb_forall in N.
  match goal with |- (fold_left ?f _ _).1 !! _ = _ => set (F := f) end.
  assert (G : forall l acc,
             (forall kt, In kt l -> In kt report_mapping) ->
             acc.1 !! p = st !! p -> (fold_left F l acc).1 !! p = st !! p).
  { induction l as [|[k t] l IH]; intros [st1 saved] Hl Hd; [done|].
    cbn [fold_left]. apply IH.
    { intros kt Hk. apply Hl. by right. }
    subst F. cbn beta iota.
    destruct (dict_get k state) as [v|]; [|done].
    destruct (truthy v); [|done].
    pose proof (save_report_other st1 s t v None
                  (match dict_get (u8 "end_date") state with
                   | Some (JStr s0) => Some s0
                   | _ => None
                   end) p) as D.
    destruct (save_report W st1 s t v None _) as [st2 fp]. cbn [fst] in D, Hd.
    assert (E : st2 !! p = st !! p).
    { rewrite D; [done|]. cbn [default from_option id].
      specialize (N (k, t) (Hl _ (or_introl eq_refl))). cbn [snd] in N.
      apply negb_true_iff, str_eqb_neq' in N. done. }
    by destruct fp. }
  by apply G.
Qed.

End StoredNews.

Lemma NodeOk_inj (st st' : ResultManager.store) (upd upd' : dict) :
  Nodes.NodeOk st upd = Nodes.NodeOk st' upd' -> st = st' /\ upd = upd'.
Proof. by intros [= -> ->]. Qed.

Section NewsKept.

Import ResultManager StockTools Parsers Nodes MainGraph.

#[local] Opaque u8.

Context (W : World) (s : pystr) (e : option pystr) (st0 : store).

Hypothesis fresh : names_in st0 s (_get_date_dir W e) = ∅.
Hypothesis ready : cm W = CmReady.
Hypothesis news_ready : news_provider_ready W = true.

(** The news tool result holds a combined summary that is not empty. *)
Definition news_stored (st : store) : Prop :=
  exists text, text <> [] /\
    news_combined_summary_of (load_tool_result W st s (u8 "news_data") e) = JStr text.

Local Abbreviation news_file :=
  (s, _get_date_dir W e, u8 "news_data" ++ u8 "_tool_result.json").

Lemma news_stored_same (st st' : store) :
  st' !! news_file = st !! news_file -> news_stored st -> news_stored st'.
Proof. unfold news_stored, load_tool_result. by intros ->. Qed.

Lemma node_keeps_news (n : node) (st st' : store) (state upd : dict) :
  inv W s e st0 st state ->
  run_node W n st state = NodeOk st' upd ->
  news_stored st \/ n = news_analysis ->
  news_stored st'.
Proof.
  intros I H Hn. destruct n; cbn [run_node] in H.
  - injection H as <- <-. by destruct Hn.
  - destruct Hn as [Hn|?]; [|discriminate]. revert Hn. apply news_stored_same.
    unfold run_fundamental_analysis in H.
    pose proof (get_fundamental_data_other W st (state_stock_code state)
                  (state_end_date state) news_file) as D.
    destruct (get_fundamental_data W st _ _) as [[st1 txt] ifs]. cbn [fst] in D.
    apply analyse_other with (p := news_file) in H; [|differ].
    rewrite H. apply D. differ.
  - clear Hn. unfold run_news_analysis in H.
    rewrite (inv_code _ _ _ _ _ _ I), (inv_date _ _ _ _ _ _ I) in H.
    rewrite (no_cached_news W s e st0 fresh st state I) in H.
    destruct (get_news_stores W st s e ready news_ready) as [G1 G2].
    destruct (get_news W st s e) as [[st1 txt] ifs]. cbn [fst snd] in G1, G2.
    apply analyse_other with (p := news_file) in H; [|differ].
    exists txt. split; [done|]. unfold load_tool_result in *. by rewrite H.
  - destruct Hn as [Hn|?]; [|discriminate]. revert Hn. apply news_stored_same.
    unfold run_sentiment_analysis in H.
    apply analyse_other with (p := news_file) in H; [|differ].
    rewrite H. apply save_tool_result_other. differ.
  - destruct Hn as [Hn|?]; [|discriminate]. revert Hn. apply news_stored_same.
    unfold run_technical_analysis in H.
    pose proof (get_tech_data_other W st (state_stock_code state)
                  (state_end_date state) news_file) as D.
    destruct (get_tech_data W st _ _) as [[st1 txt] ifs]. cbn [fst] in D.
    apply analyse_other with (p := news_file) in H; [|differ].
    rewrite H. apply D. differ.
  - destruct Hn as [Hn|?]; [|discriminate]. revert Hn. apply news_stored_same.
    unfold run_fund_analysis in H.
    pose proof (get_fund_data_other W st (state_stock_code state)
                  (state_end_date state) news_file) as D.
    destruct (get_fund_data W st _ _) as [[st1 txt] ifs]. cbn [fst] in D.
    destruct (analyse W st1 _ _ _ _ _ _) as [st2 u|st2 msg] eqn:A.
    + injection H as <- <-.
      apply analyse_other with (p := news_file) in A; [|differ].
      rewrite A. apply D. differ.
    + apply NodeOk_inj in H as [<- _]. apply analyse_raised in A as ->.
      rewrite save_report_other by differ. apply D. differ.
  - destruct Hn as [Hn|?]; [|discriminate]. revert Hn. apply news_stored_same.
    unfold run_supervisor in H. destruct (llm W _); [|discriminate].
    apply NodeOk_inj in H as [<- _]. apply save_report_other. differ.
  - destruct Hn as [Hn|?]; [|discriminate]. revert Hn. apply news_stored_same.
    unfold run_final_result_save in H.
    pose proof (save_all_reports_other W st (state_stock_code state) state news_file) as D.
    destruct (save_all_reports W st _ state) as [st1 saved]. cbn [fst] in D.
    pose proof (save_report_other W st1 (state_stock_code state) (u8 "summary")
                  (JStr (get_result_summary st1 (state_stock_code state)))
                  (Some (u8 "analysis_summary")) None news_file) as D2.
    destruct (save_report W st1 _ _ _ _ _) as [st2 fp]. cbn [fst] in D2.
    injection H as <- _. rewrite D2 by differ. apply D. cbn [snd]. vm_compute. reflexivity.
Qed.

Lemma run_keeps_news (sched : list node) :
  forall (st : store) (state : dict) (st' : store) (state' : dict),
    inv W s e st0 st state ->
    run_schedule W sched st state = (st', state', None) ->
    news_stored st \/ news_analysis ∈ sched ->
    news_stored st'.
Proof.
  induction sched as [|n sched IH]; intros st state st' state' I H Hn;
    cbn [run_schedule] in H.
  - injection H as <- <-. destruct Hn as [Hn|Hn]; [done|]. by apply elem_of_nil in Hn.
  - destruct (run_node W n st state) as [st1 upd|st1 msg] eqn:N; [|discriminate].
    destruct (node_step W s e st0 fresh n st st1 state upd I N) as [I1 _].
    apply (IH _ _ _ _ I1 H).
    destruct Hn as [Hn|Hn].
    + left. apply (node_keeps_news n st st1 state upd I N). by left.
    + apply elem_of_cons in Hn as [<-|Hn]; [|by right].
      left. apply (node_keeps_news news_analysis st st1 state upd I N). by right.
Qed.

End NewsKept.

Section SupervisorInputs.

Import ResultManager StockTools Parsers Nodes MainGraph.

#[local] Opaque u8.

Context (W : World) (s : pystr) (e : option pystr) (st0 : store).

Hypothesis fresh : names_in st0 s (_get_date_dir W e) = ∅.

Lemma supervisor_news_summary_empty (st : store) (state : dict) :
  inv W s e st0 st state -> supervisor_news_summary W st s e = JStr [].
Proof.
  intros I. unfold supervisor_news_summary, load_news_data, load_tool_result.
  rewrite (not_written W s e st0 fresh st state
             (u8 "news_sentiment_structured" ++ u8 "_tool_result.json"))
    by (done || differ).
  rewrite (not_written W s e st0 fresh st state
             (u8 "news_sentiment" ++ u8 "_tool_result.json"))
    by (done || differ).
  reflexivity.
Qed.

Lemma news_summary_input (a b c d f x g h : json) :
  dict_get (u8 "news_summary")
    [(u8 "stock_code", a); (u8 "fundamental_report", b); (u8 "technical_report", c);
     (u8 "sentiment_report", d); (u8 "fund_report", f); (u8 "news_summary", x);
     (u8 "role_description", g); (u8 "analysis_period", h)] = Some x.
Proof. vm_compute. reflexivity. Qed.

(** C3.  In a run from an empty directory, whatever the schedule, the
    supervisor is given the stock code, the fundamental, technical, sentiment
    and fund reports, a news summary, its role and the analysis period; the
    news report is not among them.  The news summary it is given is the empty
    string: it looks for the tool results news_sentiment_structured and
    news_sentiment, which no node writes.  Once the news node has run with
    its provider, the tool result news_data that it wrote does hold a
    combined summary that is not empty. *)
Theorem supervisor_is_given_no_news_summary (sched : list node)
    (st' : store) (state' : dict) :
  run_schedule W sched st0 (initial_state s e) = (st', state', None) ->
  map fst (supervisor_inputs W st' state')
    = map u8 ["stock_code"; "fundamental_report"; "technical_report";
              "sentiment_report"; "fund_report"; "news_summary";
              "role_description"; "analysis_period"]%string /\
  dict_get (u8 "news_summary") (supervisor_inputs W st' state') = Some (JStr []) /\
  (cm W = CmReady -> news_provider_ready W = true -> news_analysis ∈ sched ->
   exists text, text <> [] /\
     news_combined_summary_of (load_tool_result W st' s (u8 "news_data") e) = JStr text).
Proof.
  intros R.
  destruct (run_schedule_dom W s e st0 fresh sched _ _ _ _ (inv_initial W s e st0 fresh) R)
    as [I _].
  split; [reflexivity|]. split.
  - unfold supervisor_inputs. rewrite news_summary_input.
    rewrite (inv_code _ _ _ _ _ _ I), (inv_date _ _ _ _ _ _ I).
    by rewrite (supervisor_news_summary_empty st' state' I).
  - intros C N Hn.
    apply (run_keeps_news W s e st0 fresh C N sched _ _ _ _ (inv_initial W s e st0 fresh) R).
    by right.
Qed.

End SupervisorInputs.

Lemma supervisor_input_witness :
  let run := MainGraph.run_schedule Mock.world MainGraph.topological_order ∅
               (MainGraph.initial_state Mock.SYMBOL (Some (u8 "20250914"))) in
  dict_get (u8 "news_summary") (Nodes.supervisor_inputs Mock.world run.1.1 run.1.2)
    = Some (JStr []).
Proof.
  intros run.
  assert (E : run.2 = None) by (vm_compute; reflexivity).
  assert (R : run = (run.1.1, run.1.2, None)).
  { rewrite <- E. clear E. clearbody run. by destruct run as [[st' state'] err]. }
  apply (supervisor_is_given_no_news_summary Mock.world Mock.SYMBOL
           (Some (u8 "20250914")) ∅ (names_in_empty _ _)
           MainGraph.topological_order run.1.1 run.1.2 R).
Defined.

(** The mock run for the end date 20250914: when it is over the news tool
    result holds a combined summary that is not empty, and the summary the
    supervisor reads from the store is the empty string. *)
Lemma mock_supervisor_misses_stored_summary :
  Nodes.news_combined_summary_of
    (ResultManager.load_tool_result Mock.world mock_run Mock.SYMBOL (u8 "news_data")
       (Some (u8 "20250914"))) <> JStr [] /\
  Nodes.supervisor_news_summary Mock.world mock_run Mock.SYMBOL (Some (u8 "20250914"))
    = JStr [].
Proof. split; [vm_compute; discriminate | vm_compute; reflexivity]. Qed.

(** ** The event stream *)

Section StreamEnd.

Import Streaming.

#[local] Opaque u8.

Context (W : World) (error_text : lg_event -> pystr)
  (dicts_of : list json -> option json).

Local Abbreviation format_event := (Streaming.format_event W error_text dicts_of).
Local Abbreviation generator := (Streaming.stream_analysis_generator W error_text dicts_of).

(** The frames sent for the events of the graph, up to its end or to the
    first exception, and that exception. *)
Fixpoint relayed (thread : pystr) (up : upstream) : list frame :=
  match up with
  | UYield ev rest =>
      match format_event ev thread with
      | Returned frames => frames ++ relayed thread rest
      | Raised _ => []
      end
  | _ => []
  end.

Fixpoint failure (thread : pystr) (up : upstream) : option pystr :=
  match up with
  | UEnd => None
  | URaise e => Some e
  | UYield ev rest =>
      match format_event ev thread with
      | Returned _ => failure thread rest
      | Raised e => Some e
      end
  end.

Definition closing (thread : pystr) (up : upstream) : list frame :=
  match failure thread up with
  | Some e => [error_event thread e; final_event thread]
  | None => [final_event thread]
  end.

Lemma generator_split (thread : pystr) (up : upstream) :
  generator thread up = relayed thread up ++ closing thread up.
Proof.
  unfold closing. induction up as [| e | ev rest IH]; cbn [stream_analysis_generator relayed failure]; [done..|].
  destruct (format_event ev thread) as [frames|e]; [|done].
  by rewrite IH, app_assoc.
Qed.

(** Every frame [format_event] builds carries the name of its event as its
    agent. *)
Lemma format_event_agent (ev : lg_event) (thread : pystr) (frames : list frame) :
  format_event ev thread = Returned frames ->
  Forall (fun f => JStr (agent f) = ev_name ev) frames.
Proof.
  unfold Streaming.format_event, stream_event. intros H.
  repeat match type of H with
  | Returned _ = Returned _ => injection H as <-
  | Raised _ = Returned _ => discriminate H
  | context [match ?x with _ => _ end] => destruct x eqn:?
  | context [if ?x then _ else _] => destruct x eqn:?
  end; repeat constructor.
Qed.

Lemma relayed_agents (P : json -> Prop) (thread : pystr) (up : upstream) :
  Forall (fun ev => P (ev_name ev)) (events up) ->
  Forall (fun f => P (JStr (agent f))) (relayed thread up).
Proof.
  induction up as [| e | ev rest IH]; cbn [events relayed]; [constructor..|].
  intros H. apply Forall_cons in H as [Hev H].
  destruct (format_event ev thread) as [frames|e] eqn:E; [|constructor].
  apply Forall_app. split; [|by apply IH].
  eapply Forall_impl; [exact (format_event_agent ev thread frames E)|].
  intros f Hf. cbn beta in Hf. by rewrite Hf.
Qed.

(** A stop frame of the system, or of the error handler. *)
Definition is_closing (f : frame) : bool :=
  is_stop_of SYSTEM f || is_stop_of SYSTEM_ERROR f.

Lemma other_agent_not_closing (f : frame) :
  JStr (agent f) <> JStr SYSTEM /\ JStr (agent f) <> JStr SYSTEM_ERROR ->
  is_closing f = false.
Proof.
  intros [H1 H2]. unfold is_closing, is_stop_of.
  rewrite (str_eqb_neq (agent f) SYSTEM) by congruence.
  rewrite (str_eqb_neq (agent f) SYSTEM_ERROR) by congruence.
  by rewrite !andb_false_r.
Qed.

Lemma filter_none {A : Type} (p : A -> bool) (l : list A) :
  Forall (fun x => p x = false) l -> List.filter p l = [].
Proof. induction 1 as [|x l Hx _ IH]; cbn [List.filter]; [done|]. by rewrite Hx. Qed.

Lemma final_event_closes (thread : pystr) :
  is_stop_of SYSTEM (final_event thread) = true.
Proof. vm_compute. reflexivity. Qed.

Lemma error_event_closes (thread e : pystr) :
  is_stop_of SYSTEM_ERROR (error_event thread e) = true.
Proof. vm_compute. reflexivity. Qed.

Lemma error_event_not_terminal (thread e : pystr) :
  is_stop_of SYSTEM (error_event thread e) = false.
Proof. vm_compute. reflexivity. Qed.

(** C6.  The frames of a stream are those relayed for the events of the
    graph followed by the closing frames: the terminal frame alone, or, when
    the graph or the formatting of an event raised, the frame of the error
    handler and then the terminal frame.  The terminal frame is a
    message_chunk of agent system with finish_reason stop and it is the last
    frame of every stream; the error frame is a message_chunk of agent
    system_error with finish_reason stop.  When no event of the graph is named
    system or system_error, the closing frames are the only message_chunk
    frames of these two agents with finish_reason stop, and the terminal
    frame is the one such frame of agent system. *)
Theorem stream_ends_with_terminal_frame (thread : pystr) (up : upstream) :
  generator thread up = relayed thread up ++ closing thread up /\
  last (generator thread up) = Some (final_event thread) /\
  is_stop_of SYSTEM (final_event thread) = true /\
  (failure thread up = None -> closing thread up = [final_event thread]) /\
  (forall e, failure thread up = Some e ->
     closing thread up = [error_event thread e; final_event thread] /\
     is_stop_of SYSTEM_ERROR (error_event thread e) = true) /\
  (Forall (fun ev => ev_name ev <> JStr SYSTEM /\ ev_name ev <> JStr SYSTEM_ERROR)
     (events up) ->
   List.filter is_closing (generator thread up) = closing thread up /\
   List.filter (is_stop_of SYSTEM) (generator thread up) = [final_event thread]).
Proof.
  split; [apply generator_split|]. split; [|split; [apply final_event_closes|]].
  { rewrite generator_split. unfold closing. destruct (failure thread up) as [e|].
    - change [error_event thread e; final_event thread]
        with ([error_event thread e] ++ [final_event thread]).
      by rewrite !app_assoc, last_snoc.
    - by rewrite last_snoc. }
  split; [|split].
  - unfold closing. by intros ->.
  - unfold closing. intros e ->. split; [done|apply error_event_closes].
  - intros H.
    apply (relayed_agents (fun n => n <> JStr SYSTEM /\ n <> JStr SYSTEM_ERROR) thread up) in H.
    assert (Hc : Forall (fun f => is_closing f = false) (relayed thread up)).
    { eapply Forall_impl; [exact H|]. intros f Hf. by apply other_agent_not_closing. }
    rewrite generator_split, !List.filter_app. split.
    + rewrite (filter_none is_closing (relayed thread up) Hc).
      unfold closing, is_closing. destruct (failure thread up) as [e|];
        cbn [List.filter app];
        rewrite ?final_event_closes, ?error_event_closes, ?orb_true_r; reflexivity.
    + rewrite (filter_none (is_stop_of SYSTEM) (relayed thread up)).
      * unfold closing. destruct (failure thread up) as [e|];
          cbn [List.filter app];
          rewrite ?final_event_closes, ?error_event_not_terminal; reflexivity.
      * eapply Forall_impl; [exact Hc|]. intros f Hf. cbn beta in Hf.
        unfold is_closing in Hf. by apply orb_false_elim in Hf as [Hf _].
Qed.

End StreamEnd.

Section StreamExample.

Import Streaming.

Definition sample_error_text (ev : lg_event) : pystr := u8 "validation error".

Definition sample_dicts_of (l : list json) : option json := Some (JList l).

(** A graph that starts a node, streams one chunk of an answer that ends with
    [stop], and then raises. *)
Definition sample_upstream : upstream :=
  UYield (mkevent (u8 "on_chain_start") (JStr (u8 "run-1"))
            (JStr (u8 "fundamental_analysis")) None None None)
    (UYield (mkevent (u8 "on_chat_model_stream") (JStr (u8 "run-2"))
               (JStr (u8 "ChatOpenAI")) None None
               (Some (mkchunk [] (JStr (u8 "看多")) (JStr (u8 "stop")) [])))
       (URaise (u8 "connection reset"))).

Lemma stream_end_witness :
  List.filter is_closing
    (stream_analysis_generator Mock.world sample_error_text sample_dicts_of
       (u8 "t-1") sample_upstream)
  = [error_event (u8 "t-1") (u8 "connection reset"); final_event (u8 "t-1")].
Proof.
  destruct (stream_ends_with_terminal_frame Mock.world sample_error_text
              sample_dicts_of (u8 "t-1") sample_upstream) as (_ & _ & _ & _ & _ & H).
  destruct H as [H _]; [repeat constructor; vm_compute; discriminate|].
  rewrite H. vm_compute. reflexivity.
Defined.

End StreamExample.

(** ** Publish-time resolution *)

Section PublishTime.

Import Crawler.

Context (W : World) (local_offset : Z).

(** [re] refuses the pattern of step 3: both of its first two classes hold
    the range from the backslash down to the slash. *)
Lemma visible_date_re_rejected : visible_date_re = None.
Proof. vm_compute. reflexivity. Qed.

Lemma visible_published_at_empty (page_md : pystr) : visible_published_at page_md = [].
Proof. unfold visible_published_at. by rewrite visible_date_re_rejected. Qed.

(** C8.  For an item with a URL whose article page was fetched, the
    published time is the first schema field that parses, else the date in
    the URL, else the relative phrase of snippet and title resolved against
    the end of the window.  The visible text of the page never gives it: the
    step that searches it finds nothing, whatever the page. *)
Theorem visible_text_never_gives_published_at (it : item) (r : crawl_result)
    (end_dt : Dates.datetime) :
  url it <> [] ->
  visible_published_at (page_md_of r) = [] /\
  resolve_published_at W local_offset it (Some r) end_dt =
    match or_else (schema_published_at W r) (default [] (_parse_dt_from_url (url it))) with
    | [] =>
        match _infer_relative_time W local_offset (snippet it ++ [32%N] ++ title it) end_dt with
        | Returned rel => Returned (default [] rel)
        | Raised e => Raised e
        end
    | published_at => Returned published_at
    end.
Proof.
  intros Hurl. split; [apply visible_published_at_empty|].
  unfold resolve_published_at, extracted_published_at.
  rewrite visible_published_at_empty.
  destruct (url it) as [|c u] eqn:E; [done|].
  cbn [or_else]. destruct (schema_published_at W r) as [|a s]; cbn [or_else].
  - by destruct (default [] (_parse_dt_from_url (c :: u))).
  - reflexivity.
Qed.

End PublishTime.

Section PublishTimeExample.

Import Crawler.

(** An article whose page shows "发布时间：2025-09-05 08:10", under a URL
    dated 2025/09/04, found with a snippet that says "3 小时前"; the schema
    extraction returned no time field. *)
Definition sample_item : item :=
  mkitem (u8 "公司回购股份") (u8 "3 小时前 公司公告称将回购股份")
    (u8 "https://finance.example.com/2025/09/04/a.html").

Definition sample_page : crawl_result :=
  mkcrawl true (u8 "{}") (u8 "发布时间：2025-09-05 08:10 公司公告称将回购股份") [].

Definition sample_page_with_schema : crawl_result :=
  mkcrawl true
    (u8 "{" ++ Mock.quoted "datePublished" ++ u8 ": " ++ Mock.quoted "2025-09-06 09:30" ++ u8 "}")
    (u8 "发布时间：2025-09-05 08:10 公司公告称将回购股份") [].

Definition sample_end_dt : Dates.datetime := Dates.mkdt 2025 9 5 12 0 0.

Lemma published_at_witness :
  resolve_published_at Mock.world (8 * 3600) sample_item (Some sample_page) sample_end_dt
    = Returned (u8 "2025-09-04 00:00").
Proof.
  destruct (visible_text_never_gives_published_at Mock.world (8 * 3600)
              sample_item sample_page sample_end_dt) as [_ H].
  - vm_compute. discriminate.
  - rewrite H. vm_compute. reflexivity.
Defined.

(** The same article: with the schema field the schema time is chosen;
    without it the date of the URL, not the time the page shows, although
    that text parses as a time. *)
Lemma visible_date_is_skipped :
  resolve_published_at Mock.world (8 * 3600) sample_item (Some sample_page_with_schema)
    sample_end_dt = Returned (u8 "2025-09-06 09:30") /\
  resolve_published_at Mock.world (8 * 3600) sample_item (Some sample_page) sample_end_dt
    = Returned (u8 "2025-09-04 00:00") /\
  (Dates.strftime_Y_m_d_HM <$>
     default None (_parse_any_dt_cn 40 (page_md_of sample_page)))
    = Some (u8 "2025-09-05 08:10").
Proof. repeat split; vm_compute; reflexivity. Qed.

End PublishTimeExample.

(** * Further properties of the code *)

(** ** The news batcher: nothing is lost *)

Section BatcherContent.

Import DataProcessor.

Lemma join_app (sep : pystr) (a b : list pystr) :
  a <> [] -> b <> [] -> join sep (a ++ b) = join sep a ++ sep ++ join sep b.
Proof.
  intros Ha Hb. induction a as [|x a IH]; [done|].
  destruct a as [|y a].
  - destruct b; [done|]. reflexivity.
  - change (join sep ((x :: y :: a) ++ b)) with (x ++ sep ++ join sep ((y :: a) ++ b)).
    rewrite IH by done.
    change (join sep (x :: y :: a)) with (x ++ sep ++ join sep (y :: a)).
    by rewrite <- !app_assoc.
Qed.

(** A closed batch stands for its items. *)
Lemma join_group (sep : pystr) (a g c : list pystr) :
  g <> [] -> join sep (a ++ join sep g :: c) = join sep (a ++ g ++ c).
Proof.
  intros Hg.
  assert (E : join sep (join sep g :: c) = join sep (g ++ c)).
  { destruct c as [|c0 c]; [by rewrite app_nil_r|].
    rewrite (join_app sep g (c0 :: c)) by done. reflexivity. }
  destruct a as [|a0 a]; [exact E|].
  rewrite (join_app sep (a0 :: a) (join sep g :: c)) by done.
  rewrite E. rewrite (join_app sep (a0 :: a) (g ++ c)); [done|done|].
  by destruct g.
Qed.

Lemma batch_loop_join (max_chars : Z) (parts batches buf : list pystr) (cur : Z) :
  join nlnl (batch_loop parts max_chars batches buf cur)
  = join nlnl (batches ++ buf ++ parts).
Proof.
  revert batches buf cur. induction parts as [|p rest IH]; intros batches buf cur;
    cbn [batch_loop].
  - destruct buf as [|b0 buf]; [by rewrite !app_nil_r|].
    rewrite app_nil_r.
    rewrite (join_group nlnl batches (b0 :: buf) []) by done. by rewrite app_nil_r.
  - destruct buf as [|b0 buf]; [by rewrite IH|].
    destruct (cur + 2 + len p <=? max_chars).
    + rewrite IH. by rewrite <- !app_assoc.
    + rewrite IH, <- app_assoc. cbn [app].
      by rewrite (join_group nlnl batches (b0 :: buf) (p :: rest)).
Qed.

(** X1.  The batches of [_batch_strings_by_chars], joined by a blank line,
    are the items joined by a blank line: no item is dropped, repeated,
    reordered or cut, whatever the cap. *)
Theorem batches_keep_every_item (parts : list pystr) (max_chars min_pack_chars : Z) :
  join nlnl (_batch_strings_by_chars parts max_chars min_pack_chars) = join nlnl parts.
Proof. unfold _batch_strings_by_chars. apply batch_loop_join. Qed.

(** X2.  A batch longer than the cap is one item of the corpus on its own:
    every batch that holds two items or more is within the cap. *)
Theorem batch_over_cap_is_single_item (parts : list pystr)
    (max_chars min_pack_chars : Z) :
  Forall (fun b => len b <= max_chars \/ In b parts)
    (_batch_strings_by_chars parts max_chars min_pack_chars).
Proof. apply batch_strings_by_chars_ok. Qed.

(** X3.  Whatever the sample, the window, the ratio and the reserves, a cap
    that [_calc_batch_char_cap] returns lies between 4000 and 38000
    characters. *)
Theorem batch_char_cap_within_bounds (sample : list pystr) (model_max_tokens : Z)
    (input_ratio : PyFloat.float) (prompt_tokens output_tokens cap : Z) :
  _calc_batch_char_cap sample model_max_tokens input_ratio prompt_tokens output_tokens
    = Some cap ->
  4000 <= cap <= 38000.
Proof. apply calc_batch_char_cap_bounds. Qed.

End BatcherContent.

Lemma batch_char_cap_witness : 4000 <= 34485 <= 38000.
Proof.
  apply (batch_char_cap_within_bounds [u8 "公司发布回购公告"] 65000 (PyFloat.lit 6 10)
           1200 1500 34485).
  vm_compute. reflexivity.
Defined.

(** ** The assembled tool results *)

Section ToolResults.

Import StockTools.

#[local] Opaque u8.

Context (W : World).

Lemma count_status_cons (s : pystr) (e : pystr * interface_result)
    (ifaces : list (pystr * interface_result)) :
  count_status s (e :: ifaces)
  = (if bool_decide (status e.2 = s) then 1 else 0) + count_status s ifaces.
Proof.
  unfold count_status. rewrite filter_cons.
  destruct (decide (status e.2 = s)) as [E|E].
  - rewrite bool_decide_eq_true_2 by done. cbn [length]. lia.
  - rewrite bool_decide_eq_false_2 by done. lia.
Qed.

Lemma counts_add_up (ifaces : list (pystr * interface_result)) :
  Forall status_matches_result ifaces ->
  count_status SUCCESS ifaces + count_status ERROR ifaces = Z.of_nat (length ifaces).
Proof.
  induction 1 as [|e ifaces He _ IH]; [reflexivity|].
  rewrite !count_status_cons. cbn [length].
  pose proof success_is_not_error as D.
  destruct He as [[_ Hs] [_ He]].
  destruct (decide (status e.2 = SUCCESS)) as [E1|E1],
           (decide (status e.2 = ERROR)) as [E2|E2].
  - congruence.
  - rewrite bool_decide_eq_true_2, bool_decide_eq_false_2 by done. lia.
  - rewrite bool_decide_eq_false_2, bool_decide_eq_true_2 by done. lia.
  - exfalso. apply E2, He. intros F. by apply E1, Hs.
Qed.

Lemma collect_keys (w : pystr -> pystr -> payload) (objs : list (pystr * pystr)) :
  map (fun e : pystr * interface_result => (e.1, objective e.2)) (collect w objs) = objs.
Proof.
  unfold collect. induction objs as [|[dtype obj] objs IH]; [reflexivity|].
  cbn [map fst snd]. rewrite IH. reflexivity.
Qed.

Lemma tool_interfaces_status (tool : tool_kind) (st : ResultManager.store)
    (stock_code : pystr) (end_date : option pystr) :
  Forall status_matches_result (tool_interfaces W tool st stock_code end_date).
Proof.
  destruct tool; unfold tool_interfaces, get_fundamental_data, get_fund_data,
    get_tech_data, get_news;
    destruct (cm W); try destruct (news_provider_ready W); cbn [snd];
    try apply collect_status; constructor.
Qed.


Lemma diagnostic_is_error (d s : pystr) :
  In d diagnostics -> py_in d s = true -> status_of s = ERROR.
Proof.
  intros Hd Hs. unfold status_of.
  replace (any_in diagnostics s) with true; [reflexivity|].
  symmetry. apply existsb_exists. by exists d.
Qed.

Lemma summary_error_text (objective text e : pystr) (d : pystr) :
  In d diagnostics -> py_in d text = true ->
  status_of (u8 "【" ++ objective ++ u8 "】" ++ [10%N] ++ text ++ e) = ERROR.
Proof.
  intros Hd Ht. apply (diagnostic_is_error d); [done|].
  do 4 apply py_in_app_r. by apply py_in_app_l.
Qed.


End ToolResults.

Section ToolResultsExample.

Import StockTools.

Definition sample_table : table := mktable [u8 "close"] [[JInt 10]].

(** A provider that returns one row for every interface and an LLM that
    fails every call. *)
Definition world_with_failing_llm : World := {|
  json_loads := MiniJson.loads;
  now := Dates.mkdt 2025 9 20 10 30 0;
  py_str := fun _ => u8 "<value>";
  json_dumps := fun _ => u8 "<json>";
  type_error := fun _ => u8 "TypeError";
  agent_role := fun role => role;
  cm := CmReady;
  news_provider_ready := true;
  fetch := fun _ _ _ _ => Returned (Some sample_table);
  select_columns := fun t _ => columns t;
  project := fun t _ => t;
  news_parts := fun _ _ => [];
  llm := fun _ => Raised (u8 "Connection error.");
  company_summary := fun _ => None;
|}.


End ToolResultsExample.

(** ** The artifact store: what is saved is what is loaded *)

Section StoreRoundTrip.

Import ResultManager.

#[local] Opaque u8.

Context (W : World).

Lemma tool_payload_key (k : string) (a b c : json) (last : pystr * json) :
  k = "tool"%string \/ k = "data"%string \/ k = "text"%string ->
  dict_get (u8 k)
    ([(u8 "tool", a); (u8 "timestamp", b); (u8 "analysis_period", c)] ++ [last])
  = if str_eqb (u8 k) (u8 "tool") then Some a
    else if str_eqb (u8 k) last.1 then Some last.2 else None.
Proof.
  destruct last as [lk lv].
  intros [-> | [-> | ->]]; cbn [app dict_get fst snd];
    repeat match goal with
    | |- context [str_eqb (u8 ?x) (u8 ?y)] =>
        let b := eval vm_compute in (str_eqb (u8 x) (u8 y)) in
        replace (str_eqb (u8 x) (u8 y)) with b by (vm_compute; reflexivity)
    end; reflexivity.
Qed.

(** X6.  A tool result that was saved is what [load_tool_result] returns for
    the same symbol, tool and end date: the document names the tool, and it
    holds a dict or a list as it was given under "data", a string that is
    JSON decoded under "data", any other string as it is under "text".
    Documents saved under another tool name, symbol or date are not
    touched. *)
Theorem saved_tool_result_is_loaded (st : store) (stock_code tool_name : pystr)
    (tool_result : json) (end_date : option pystr) :
  let st' := (save_tool_result W st stock_code tool_name tool_result end_date).1 in
  let doc := load_tool_result W st' stock_code tool_name end_date in
  doc ≫= get (u8 "tool") = Some (JStr tool_name) /\
  match tool_result with
  | JDict _ | JList _ => doc ≫= get (u8 "data") = Some tool_result
  | JStr s =>
      match json_loads W s with
      | Some parsed => doc ≫= get (u8 "data") = Some parsed
      | None => doc ≫= get (u8 "text") = Some (JStr s) /\ doc ≫= get (u8 "data") = None
      end
  | other => doc ≫= get (u8 "text") = Some (JStr (py_str W other))
  end /\
  forall stock_code' tool_name' end_date',
    (stock_code', _get_date_dir W end_date', tool_name')
      <> (stock_code, _get_date_dir W end_date, tool_name) ->
    load_tool_result W st' stock_code' tool_name' end_date'
    = load_tool_result W st stock_code' tool_name' end_date'.
Proof.
  intros st' doc. subst st' doc.
  unfold load_tool_result, save_tool_result. cbn [fst]. rewrite lookup_insert_eq.
  cbn [mbind option_bind get].
  assert (T : str_eqb (u8 "tool") (u8 "tool") = true) by apply str_eqb_refl.
  assert (D1 : str_eqb (u8 "data") (u8 "tool") = false) by (vm_compute; reflexivity).
  assert (D2 : str_eqb (u8 "text") (u8 "tool") = false) by (vm_compute; reflexivity).
  assert (D3 : str_eqb (u8 "data") (u8 "text") = false) by (vm_compute; reflexivity).
  split; [|split].
  - destruct tool_result as [| | |s| |]; try destruct (json_loads W s);
      rewrite tool_payload_key by tauto; by rewrite T.
  - destruct tool_result as [| | |s| |]; try destruct (json_loads W s);
      try split; rewrite tool_payload_key by tauto; cbn [fst snd];
      rewrite ?D1, ?D2, ?D3, ?str_eqb_refl; reflexivity.
  - intros s' t' e' Hne. apply lookup_insert_ne. intros E. apply Hne.
    injection E as -> -> E. f_equal. by apply app_inv_tail in E.
Qed.

(** *** [save_all_reports] *)

Lemma dict_set_fresh (k : pystr) (v : json) (d : dict) :
  dict_get k d = None -> dict_set k v d = d ++ [(k, v)].
Proof.
  induction d as [|[k0 v0] d IH]; cbn [dict_get dict_set app]; [done|].
  destruct (str_eqb k k0); [discriminate|]. intros H. by rewrite IH.
Qed.

Lemma dict_get_app_None (k : pystr) (d d' : dict) :
  dict_get k d = None -> dict_get k (d ++ d') = dict_get k d'.
Proof.
  induction d as [|[k0 v0] d IH]; cbn [dict_get app]; [done|].
  destruct (str_eqb k k0); [discriminate|]. exact IH.
Qed.

Lemma dict_get_not_key (k : pystr) (d : dict) :
  k ∉ map fst d -> dict_get k d = None.
Proof.
  induction d as [|[k0 v0] d IH]; cbn [dict_get map fst]; [done|].
  intros H. apply not_elem_of_cons in H as [H1 H2].
  rewrite str_eqb_neq by done. by apply IH.
Qed.

(** The reports of the state that the final node saves again: those of the
    mapping whose value is there and truthy. *)
Definition report_present (state : dict) (kt : pystr * pystr) : bool :=
  match dict_get kt.1 state with
  | Some v => truthy v
  | None => false
  end.

Definition report_file (stock_code : pystr) (end_date : option pystr)
    (report_type : pystr) : path :=
  (stock_code, _get_date_dir W end_date, (report_type ++ u8 "_report") ++ u8 ".json").

Lemma report_payload_field (rt ts ap data : json) :
  get (u8 "data")
    (JDict [(u8 "report_type", rt); (u8 "timestamp", ts);
            (u8 "analysis_period", ap); (u8 "data", data)]) = Some data.
Proof. vm_compute. reflexivity. Qed.

Section Fold.

Variables (stock_code : pystr) (state : dict) (end_date : option pystr).

Let step : store * dict -> pystr * pystr -> store * dict :=
  fun '(st, saved) '(report_key, report_type) =>
    match dict_get report_key state with
    | Some v =>
        if truthy v then
          let '(st', filepath) :=
            save_report W st stock_code report_type v None end_date in
          match filepath with
          | [] => (st', saved)
          | _ => (st', dict_set report_key (JStr filepath) saved)
          end
        else (st, saved)
    | None => (st, saved)
    end.

Lemma step_present (st : store) (saved : dict) (k t : pystr) (v : json) :
  dict_get k state = Some v -> truthy v = true ->
  step (st, saved) (k, t)
  = ((save_report W st stock_code t v None end_date).1,
     dict_set k (JStr (filepath_str (report_file stock_code end_date t))) saved).
Proof.
  intros Hk Hv. unfold step. rewrite Hk, Hv. unfold save_report, report_file.
  cbn [fst]. unfold filepath_str at 1.
  destruct (u8 "result/" ++ _) eqn:E; [|reflexivity].
  exfalso. apply app_eq_nil in E as [E _]. revert E. vm_compute. discriminate.
Qed.

Lemma step_absent (st : store) (saved : dict) (kt : pystr * pystr) :
  report_present state kt = false -> step (st, saved) kt = (st, saved).
Proof.
  destruct kt as [k t]. unfold report_present, step. cbn [fst].
  destruct (dict_get k state) as [v|]; [|done]. by intros ->.
Qed.

Lemma report_file_inj (t t' : pystr) :
  report_file stock_code end_date t = report_file stock_code end_date t' -> t = t'.
Proof.
  unfold report_file. intros [= E]. by do 2 apply app_inv_tail in E.
Qed.

Definition saved_entry (kt : pystr * pystr) : pystr * json :=
  (kt.1, JStr (filepath_str (report_file stock_code end_date kt.2))).

Lemma fold_step (l : list (pystr * pystr)) :
  NoDup (map fst l) -> NoDup (map snd l) ->
  forall (st : store) (saved : dict),
    (forall k, k ∈ map fst l -> k ∉ map fst saved) ->
    let r := fold_left step l (st, saved) in
    r.2 = saved ++ map saved_entry (List.filter (report_present state) l) /\
    (forall k t v, (k, t) ∈ l -> dict_get k state = Some v -> truthy v = true ->
       (r.1 !! report_file stock_code end_date t) ≫= get (u8 "data") = Some v) /\
    (forall p,
       (forall kt, kt ∈ l -> report_present state kt = true ->
          p <> report_file stock_code end_date kt.2) ->
       r.1 !! p = st !! p).
Proof.
  induction l as [|[k t] l IH]; intros Hk Ht st saved Hfresh; cbv zeta;
    cbn [fold_left].
  - cbn [List.filter map fst snd]. rewrite app_nil_r.
    split; [done|]. split; [|done]. intros k t v H. by apply elem_of_nil in H.
  - cbn [map fst snd] in Hk, Ht.
    apply NoDup_cons in Hk as [Hk1 Hk2]. apply NoDup_cons in Ht as [Ht1 Ht2].
    destruct (report_present state (k, t)) eqn:P.
    + assert (exists v, dict_get k state = Some v /\ truthy v = true) as (v & Hv & Hv').
      { unfold report_present in P. cbn [fst] in P.
        destruct (dict_get k state) as [v|]; [eauto|discriminate]. }
      rewrite (step_present st saved k t v Hv Hv').
      rewrite dict_set_fresh.
      2:{ apply dict_get_not_key, Hfresh. cbn [map fst]. apply list_elem_of_here. }
      change (k, JStr (filepath_str (report_file stock_code end_date t)))
        with (saved_entry (k, t)).
      specialize (IH Hk2 Ht2 (save_report W st stock_code t v None end_date).1
                    (saved ++ [saved_entry (k, t)])).
      cbv zeta in IH. destruct IH as (I1 & I2 & I3).
      { intros k' Hk'. rewrite map_app. cbn [map fst saved_entry].
        intros Hin. apply elem_of_app in Hin as [Hin|Hin].
        - revert Hin. apply Hfresh. cbn [map fst]. by apply list_elem_of_further.
        - apply list_elem_of_singleton in Hin as ->. done. }
      cbn [List.filter]. rewrite P. cbn [map].
      split; [by rewrite I1, <- app_assoc|]. split.
      * intros k' t' v' Hin Hv1 Hv2. apply elem_of_cons in Hin as [[= -> ->]|Hin].
        -- rewrite I3.
           ++ unfold save_report. cbn [fst]. unfold report_file.
              rewrite lookup_insert_eq. cbn [mbind option_bind].
              rewrite Hv in Hv1. injection Hv1 as <-. apply report_payload_field.
           ++ intros [k2 t2] Hin2 _ E. cbn [snd] in E. apply report_file_inj in E as ->.
              apply Ht1. apply list_elem_of_fmap. by exists (k2, t2).
        -- by apply (I2 k' t' v').
      * intros p Hp. rewrite I3.
        -- unfold save_report. cbn [fst]. apply lookup_insert_ne. intros E.
           apply (Hp (k, t)); [apply list_elem_of_here|done|]. by rewrite <- E.
        -- intros kt Hin Hpres. apply Hp; [by apply list_elem_of_further|done].
    + rewrite (step_absent st saved (k, t) P).
      specialize (IH Hk2 Ht2 st saved). cbv zeta in IH. destruct IH as (I1 & I2 & I3).
      { intros k' Hk'. apply Hfresh. cbn [map fst]. by apply list_elem_of_further. }
      cbn [List.filter]. rewrite P.
      split; [done|]. split.
      * intros k' t' v' Hin Hv1 Hv2. apply elem_of_cons in Hin as [[= -> ->]|Hin].
        -- unfold report_present in P. cbn [fst] in P. rewrite Hv1, Hv2 in P. discriminate.
        -- by apply (I2 k' t' v').
      * intros p Hp. apply I3. intros kt Hin Hpres.
        apply Hp; [by apply list_elem_of_further|done].
Qed.

End Fold.

(** X7.  [save_all_reports] saves again, under <type>_report.json in the
    directory of the state's end date, every report of its mapping that the
    state holds with a truthy value, and only those: the dict it returns has
    one path per such report, in the order of the mapping; the file of each
    holds the report of the state as its data; every other file of the store
    is as it was. *)
Theorem save_all_reports_saves_present_reports (st : store) (stock_code : pystr)
    (state : dict) :
  let end_date := Nodes.state_end_date state in
  let r := save_all_reports W st stock_code state in
  r.2 = map (saved_entry stock_code end_date)
          (List.filter (report_present state) report_mapping) /\
  (forall k t v, (k, t) ∈ report_mapping -> dict_get k state = Some v ->
     truthy v = true ->
     (r.1 !! report_file stock_code end_date t) ≫= get (u8 "data") = Some v) /\
  (forall p,
     (forall kt, kt ∈ report_mapping -> report_present state kt = true ->
        p <> report_file stock_code end_date kt.2) ->
     r.1 !! p = st !! p).
Proof.
  intros end_date r.
  assert (K : NoDup (map fst report_mapping)).
  { apply (bool_decide_unpack _). vm_compute. constructor. }
  assert (T : NoDup (map snd report_mapping)).
  { apply (bool_decide_unpack _). vm_compute. constructor. }
  pose proof (fold_step stock_code state end_date report_mapping K T st []) as F.
  cbn zeta in F. rewrite app_nil_l in F. apply F.
  intros k _ Hin. by apply elem_of_nil in Hin.
Qed.

End StoreRoundTrip.

(** ** The report parsers: a decoded object is completed, never altered *)

Section ParsedObjects.

Import Parsers DebateParsers.

#[local] Opaque u8.

(** What a report read from the object [d] must look like: every required
    field is there; a field of [d] keeps its value; a required field that [d]
    lacks has its default; nothing else is added. *)
Definition completes (required_fields : list pystr) (default : pystr -> json)
    (d : dict) (report : json) : Prop :=
  (forall f, f ∈ required_fields -> is_Some (get f report)) /\
  (forall k v, dict_get k d = Some v -> get k report = Some v) /\
  (forall f, f ∈ required_fields -> dict_get f d = None ->
     get f report = Some (default f)) /\
  (forall k, k ∉ required_fields -> get k report = dict_get k d).

Lemma fill_missing_get (fs : list pystr) (default : pystr -> json) (d : dict)
    (k : pystr) :
  dict_get k (fill_missing fs default d)
  = match dict_get k d with
    | Some v => Some v
    | None => if bool_decide (k ∈ fs) then Some (default k) else None
    end.
Proof.
  unfold fill_missing. revert d. induction fs as [|f fs IH]; intros d; cbn [fold_left].
  - destruct (dict_get k d); [done|]. by rewrite bool_decide_eq_false_2 by apply not_elem_of_nil.
  - rewrite IH. clear IH. destruct (dict_get f d) as [vf|] eqn:Ef.
    + destruct (dict_get k d) as [v|] eqn:Ek; [done|].
      assert (k <> f) by (intros ->; congruence).
      destruct (decide (k ∈ fs)) as [Hin|Hin].
      * rewrite !bool_decide_eq_true_2; [done| |done]. by apply list_elem_of_further.
      * rewrite !bool_decide_eq_false_2; [done| |done].
        intros Hc. apply elem_of_cons in Hc as [?|?]; done.
    + rewrite dict_get_set. destruct (str_eqb k f) eqn:E.
      * apply str_eqb_eq in E as ->. rewrite Ef.
        rewrite bool_decide_eq_true_2 by apply list_elem_of_here. done.
      * apply str_eqb_neq' in E. destruct (dict_get k d) as [v|]; [done|].
        destruct (decide (k ∈ fs)) as [Hin|Hin].
        -- rewrite !bool_decide_eq_true_2; [done| |done]. by apply list_elem_of_further.
        -- rewrite !bool_decide_eq_false_2; [done| |done].
           intros Hc. apply elem_of_cons in Hc as [?|?]; done.
Qed.

Lemma fill_missing_completes (fs : list pystr) (default : pystr -> json) (d : dict) :
  completes fs default d (JDict (fill_missing fs default d)).
Proof.
  unfold completes. cbn [get]. repeat split.
  - intros f Hf. rewrite fill_missing_get. destruct (dict_get f d); [done|].
    by rewrite bool_decide_eq_true_2.
  - intros k v Hk. by rewrite fill_missing_get, Hk.
  - intros f Hf Hd. rewrite fill_missing_get, Hd. by rewrite bool_decide_eq_true_2.
  - intros k Hk. rewrite fill_missing_get. destruct (dict_get k d); [done|].
    by rewrite bool_decide_eq_false_2.
Qed.

Context (W : World).

(** [""] for every field but [scores], which gets [{}]. *)
Definition analyst_default (field : pystr) : json :=
  if str_eqb field (u8 "scores") then JDict [] else JStr [].

(** X8.  When the response of an analyst decodes to a JSON object, the
    parsed report is that object completed: each of analyst_name, viewpoint,
    reason, scores and detailed_analysis is present; every field the object
    has, required or not, keeps its value; a required field it lacks is the
    empty string, or the empty dict for scores; no other field is added. *)
Theorem analyst_report_is_completed_object (content : pystr) (d : dict) :
  json_loads W (json_str content) = Some (JDict d) ->
  completes required_fields analyst_default d (parse_analyst_report W content).
Proof.
  intros H. unfold parse_analyst_report. rewrite H.
  apply (fill_missing_completes required_fields analyst_default d).
Qed.

(** X9.  The debater and debate parsers treat a decoded object the same
    way, with the empty list as the default of core_arguments, rebuttals,
    bull_summary and bear_summary and the empty dict for score_comparison;
    and a response that does not decode gives their fallback report, which
    names the debater it was called for, is neutral, and ends with the first
    200 characters of the response. *)
Theorem debate_reports_are_completed_or_fallback (content default_name : pystr) :
  (forall d, json_loads W (json_str content) = Some (JDict d) ->
     completes debater_fields debater_default d
       (parse_debater_report W content default_name) /\
     completes debate_fields debate_default d (parse_debate_report W content)) /\
  (json_loads W (json_str content) = None ->
     let report := parse_debater_report W content default_name in
     get (u8 "analyst_name") report = Some (JStr default_name) /\
     get (u8 "viewpoint") report = Some (JStr (u8 "中性")) /\
     get (u8 "core_arguments") report = Some (JList [JStr (u8 "解析失败")]) /\
     get (u8 "rebuttals") report = Some (JList [JStr (u8 "解析失败")]) /\
     get (u8 "final_statement") report
       = Some (JStr (u8 "解析失败" ++ u8 ": " ++ take 200 content ++ u8 "...")) /\
     get (u8 "final_viewpoint") (parse_debate_report W content)
       = Some (JStr (u8 "中性")) /\
     get (u8 "final_reason") (parse_debate_report W content)
       = Some (JStr (u8 "解析失败" ++ u8 ": " ++ take 200 content ++ u8 "..."))).
Proof.
  split.
  - intros d H. unfold parse_debater_report, parse_debate_report, checked.
    rewrite H. split; apply fill_missing_completes.
  - intros H report. subst report.
    unfold parse_debater_report, parse_debate_report, checked. rewrite H.
    repeat split; vm_compute; reflexivity.
Qed.

End ParsedObjects.

Definition partial_response : pystr :=
  u8 "{" ++ Mock.quoted "viewpoint" ++ u8 ": " ++ Mock.quoted "看多" ++ u8 "}".

Lemma analyst_report_witness :
  get (u8 "scores") (Parsers.parse_analyst_report Mock.world partial_response)
    = Some (JDict []) /\
  get (u8 "viewpoint") (Parsers.parse_analyst_report Mock.world partial_response)
    = Some (JStr (u8 "看多")).
Proof.
  destruct (analyst_report_is_completed_object Mock.world partial_response
              [(u8 "viewpoint", JStr (u8 "看多"))]) as (_ & Hkeep & Hdef & _).
  - vm_compute. reflexivity.
  - split.
    + rewrite (Hdef (u8 "scores")); [reflexivity| |reflexivity].
      apply (bool_decide_unpack _). vm_compute. constructor.
    + apply Hkeep. vm_compute. reflexivity.
Defined.

(** ** The nodes: failures and what they leave behind *)

Section NodeFailures.

Import ResultManager StockTools Parsers Nodes MainGraph.

#[local] Opaque u8.

Context (W : World).

(** X10.  [run_fund_analysis] never raises.  It returns a fund report and
    writes it to fund_report.json, after the tool result fund_data: the
    parsed response of the LLM when the chain answers, and when the chain
    raises the default report built from the message of the exception. *)
Theorem fund_analysis_always_reports (st : store) (state : dict) :
  let s := state_stock_code state in
  let e := state_end_date state in
  let fund_data := (get_fund_data W st s e).1.2 in
  let call :=
    Chain (u8 "FUND_PROMPT")
      (analyst_inputs W s e "fund_data" (JStr fund_data) "fund_analyst") in
  let report :=
    match llm W call with
    | Returned content => parse_analyst_report W content
    | Raised msg => fund_default_report msg
    end in
  exists st',
    run_fund_analysis W st state = NodeOk st' [(u8 "fund_report", report)] /\
    (st' !! (s, _get_date_dir W e, u8 "fund_report" ++ u8 ".json"))
      ≫= get (u8 "data") = Some report /\
    is_Some (st' !! (s, _get_date_dir W e, u8 "fund_data" ++ u8 "_tool_result.json")).
Proof.
  intros s e fund_data call report. subst fund_data call report.
  unfold run_fund_analysis. fold s e.
  pose proof (get_fund_data_dom W st s e) as D.
  destruct (get_fund_data W st s e) as [[st1 txt] ifs]. cbn [fst snd] in *.
  assert (T : is_Some (st1 !! (s, _get_date_dir W e, u8 "fund_data" ++ u8 "_tool_result.json"))).
  { apply elem_of_dom. rewrite D. apply elem_of_union_l. by apply elem_of_singleton_2. }
  unfold analyse. destruct (llm W _) as [content|msg].
  - eexists. split; [reflexivity|]. unfold save_report. cbn [fst]. split.
    + rewrite lookup_insert_eq. apply report_payload_data.
    + rewrite lookup_insert_ne; [done|]. apply other_name. differ.
  - eexists. split; [reflexivity|]. unfold save_report. cbn [fst]. split.
    + rewrite lookup_insert_eq. apply report_payload_data.
    + rewrite lookup_insert_ne; [done|]. apply other_name. differ.
Qed.

Lemma get_news_other (st : store) (s : pystr) (e : option pystr) (p : path) :
  p.2 <> u8 "news_data" ++ u8 "_tool_result.json" ->
  (get_news W st s e).1.1 !! p = st !! p.
Proof.
  intros H. unfold get_news.
  destruct (cm W), (news_provider_ready W); cbn [fst]; by apply save_tool_result_other.
Qed.

(** A report file is not a tool result. *)
Lemma report_is_no_tool_result (n : pystr) :
  n ∈ report_names -> Forall (fun t => n <> t) tool_result_names.
Proof.
  unfold report_names, tool_result_names. cbn [map]. intros H.
  repeat (apply elem_of_cons in H as [->|H]); [..|by apply elem_of_nil in H];
    repeat constructor; differ.
Qed.

Lemma fund_analysis_returns (st : store) (state : dict) :
  exists st' upd, run_fund_analysis W st state = NodeOk st' upd.
Proof.
  unfold run_fund_analysis. destruct (get_fund_data W st _ _) as [[st1 txt] ifs].
  destruct (analyse W st1 _ _ _ _ _ _); eauto.
Qed.

Lemma final_result_save_returns (st : store) (state : dict) :
  exists st' upd, run_final_result_save W st state = NodeOk st' upd.
Proof.
  unfold run_final_result_save.
  destruct (save_all_reports W st _ state) as [st1 saved].
  destruct (save_report W st1 _ _ _ _ _) as [st2 fp]. eauto.
Qed.


Lemma sentiment_input_news (a b c d : json) :
  get (u8 "news_combined_summary")
    (JDict [(u8 "stock_code", a); (u8 "end_date", b);
            (u8 "news_combined_summary", c); (u8 "fundamental_result", d)]) = Some c.
Proof. vm_compute. reflexivity. Qed.

(** X12.  What [get_news] returns with a provider is what the sentiment
    node then reads back: the news_combined_summary of the sentiment input,
    taken from the store [get_news] left, is the text [get_news] returned,
    and that text is never empty. *)
Theorem sentiment_input_holds_the_news_summary (st : store) (state : dict) :
  cm W = CmReady -> news_provider_ready W = true ->
  let news := get_news W st (state_stock_code state) (state_end_date state) in
  get (u8 "news_combined_summary") (sentiment_input W news.1.1 state)
    = Some (JStr news.1.2) /\
  news.1.2 <> [].
Proof.
  intros C R news. subst news.
  destruct (get_news_stores W st (state_stock_code state) (state_end_date state) C R)
    as [G1 G2].
  split; [|done]. unfold sentiment_input. rewrite sentiment_input_news. by rewrite G1.
Qed.

End NodeFailures.

Section NodeFailuresExample.

Import ResultManager Nodes MainGraph.


Lemma sentiment_input_witness :
  get (u8 "news_combined_summary")
    (sentiment_input Mock.world
       (StockTools.get_news Mock.world ∅ Mock.SYMBOL (Some (u8 "20250914"))).1.1
       (initial_state Mock.SYMBOL (Some (u8 "20250914"))))
  = Some (JStr (StockTools.get_news Mock.world ∅ Mock.SYMBOL (Some (u8 "20250914"))).1.2).
Proof.
  apply (sentiment_input_holds_the_news_summary Mock.world ∅
           (initial_state Mock.SYMBOL (Some (u8 "20250914"))) eq_refl eq_refl).
Defined.

End NodeFailuresExample.

(** ** The event stream: what a frame can be *)

(** Comparisons of two literals, evaluated. *)
Ltac eval_str_eqb :=
  repeat match goal with
  | |- context [str_eqb (u8 ?x) (u8 ?y)] =>
      let b := eval vm_compute in (str_eqb (u8 x) (u8 y)) in
      replace (str_eqb (u8 x) (u8 y)) with b by (vm_compute; reflexivity)
  end.

(** No other branch returns two frames. *)
Ltac not_two H :=
  repeat match type of H with
  | Raised _ = Returned _ => discriminate H
  | Returned [_] = Returned [_; _] => discriminate H
  | Returned [] = Returned [_; _] => discriminate H
  | context [match ?x with _ => _ end] => destruct x eqn:?
  | context [if ?x then _ else _] => destruct x eqn:?
  end.

Section StreamFrames.

Import Streaming StreamProtocol.

#[local] Opaque u8.

Context (W : World) (error_text : lg_event -> pystr)
  (dicts_of : list json -> option json).

Local Abbreviation format_event := (Streaming.format_event W error_text dicts_of).
Local Abbreviation generator := (Streaming.stream_analysis_generator W error_text dicts_of).

Definition well_formed (thread : pystr) (f : frame) : Prop :=
  thread_id f = thread /\ event_type f ∈ EVENT_TYPES.

Lemma format_event_well_formed (ev : lg_event) (thread : pystr) (frames : list frame) :
  format_event ev thread = Returned frames -> Forall (well_formed thread) frames.
Proof.
  unfold Streaming.format_event, stream_event. intros H.
  repeat match type of H with
  | Returned _ = Returned _ => injection H as <-
  | Raised _ = Returned _ => discriminate H
  | context [match ?x with _ => _ end] => destruct x eqn:?
  | context [if ?x then _ else _] => destruct x eqn:?
  end; repeat constructor; cbn [event_type]; unfold EVENT_TYPES, MESSAGE_CHUNK;
    cbn [map]; pick.
Qed.

(** X13.  Every frame of a stream, relayed or closing, carries the thread id
    of the request and one of the six event types of the protocol. *)
Theorem stream_frames_follow_the_protocol (thread : pystr) (up : upstream) :
  Forall (well_formed thread) (generator thread up).
Proof.
  assert (C : forall e, Forall (well_formed thread)
                          [error_event thread e; final_event thread]).
  { intros e. repeat constructor; cbn [event_type error_event final_event];
      unfold EVENT_TYPES, MESSAGE_CHUNK; cbn [map]; pick. }
  induction up as [| e | ev rest IH]; cbn [stream_analysis_generator].
  - specialize (C []). by apply Forall_cons in C as [_ C].
  - apply C.
  - destruct (format_event ev thread) as [frames|e] eqn:E; [|apply C].
    apply Forall_app. split; [by apply (format_event_well_formed ev)|exact IH].
Qed.

Lemma Returned_inj {A : Type} (x y : A) : Returned x = Returned y -> x = y.
Proof. by intros [= ->]. Qed.

Lemma two_inj {A : Type} (a b c d : A) : [a; b] = [c; d] -> a = c /\ b = d.
Proof. by intros [= -> ->]. Qed.

(** X14.  One event of the graph gives at most two frames; an
    on_graph_end event gives none; two frames are the node_complete frame of
    an analyst node followed by its analysis_result frame, which carries the
    node's output as result_data, and both close with finish_reason stop.
    So a stream has at most two frames per event of the graph and two
    closing frames. *)
Theorem event_gives_at_most_two_frames (ev : lg_event) (thread : pystr)
    (frames : list frame) :
  format_event ev thread = Returned frames ->
  (length frames <= 2)%nat /\
  (ev_event ev = u8 "on_graph_end" -> frames = []) /\
  (forall f1 f2, frames = [f1; f2] ->
     ev_event ev = u8 "on_chain_end" /\
     event_type f1 = u8 "node_complete" /\ event_type f2 = u8 "analysis_result" /\
     finish_reason f1 = Some STOP /\ finish_reason f2 = Some STOP /\
     result_data f2 = ev_output ev /\ agent f1 = agent f2) /\
  (forall up, (length (generator thread up) <= 2 * length (events up) + 2)%nat).
Proof.
  intros H. split; [|split; [|split]].
  - revert H. unfold Streaming.format_event, stream_event. intros H.
    repeat match type of H with
    | Returned _ = Returned _ => injection H as <-
    | Raised _ = Returned _ => discriminate H
    | context [match ?x with _ => _ end] => destruct x eqn:?
    | context [if ?x then _ else _] => destruct x eqn:?
    end; cbn [length]; lia.
  - intros Hev. revert H. unfold Streaming.format_event. rewrite Hev, str_eqb_refl.
    by intros [= <-].
  - intros f1 f2 ->. revert H. unfold Streaming.format_event, stream_event.
    destruct (str_eqb (ev_event ev) (u8 "on_graph_end")); [discriminate|].
    destruct (str_eqb (ev_event ev) (u8 "on_chain_end")) eqn:E; cbn [andb];
      [apply str_eqb_eq in E|]; intros H.
    + destruct (ev_name ev) as [| ? | ? | node_name | ? | ?];
        cbv beta iota zeta in H; [not_two H..| |not_two H|not_two H].
      destruct (existsb (str_eqb node_name) analyst_nodes); [|not_two H].
      destruct (ev_run_id ev) as [| ? | ? | run_id | ? | ?]; try discriminate H.
      destruct (ev_output ev) as [out|]; cbn [default from_option Datatypes.id] in H;
        [|discriminate H].
      destruct (truthy out); [|discriminate H].
      destruct out as [| ? | ? | ? | ? | d]; try discriminate H.
      destruct (report_content W node_name d); [|discriminate H].
      apply Returned_inj in H. apply two_inj in H as [<- <-].
      cbn [event_type finish_reason result_data agent]. by repeat split.
    + not_two H.
  - clear H frames. intros up.
    assert (B : forall e t fs, Streaming.format_event W error_text dicts_of e t = Returned fs ->
                  (length fs <= 2)%nat).
    { intros e t fs. unfold Streaming.format_event, stream_event. intros H.
      repeat match type of H with
      | Returned _ = Returned _ => injection H as <-
      | Raised _ = Returned _ => discriminate H
      | context [match ?x with _ => _ end] => destruct x eqn:?
      | context [if ?x then _ else _] => destruct x eqn:?
      end; cbn [length]; lia. }
    induction up as [| e | e rest IH]; cbn [stream_analysis_generator events length];
      [lia..|].
    destruct (format_event e thread) as [fs|msg] eqn:E; [|cbn [length]; lia].
    rewrite length_app. apply B in E. lia.
Qed.

End StreamFrames.

Section StreamFramesExample.

Import Streaming.

(** The supervisor node ends with a final report. *)
Definition supervisor_end : lg_event :=
  mkevent (u8 "on_chain_end") (JStr (u8 "run-9")) (JStr (u8 "supervisor"))
    (Some (JDict [(u8 "final_report", JStr (u8 "买入"))])) None None.

Definition no_error_text (ev : lg_event) : pystr := u8 "validation error".

Definition list_of_dicts (l : list json) : option json := Some (JList l).

Lemma event_frames_witness :
  exists f1 f2,
    format_event Mock.world no_error_text list_of_dicts supervisor_end (u8 "t-1")
    = Returned [f1; f2]
    /\ event_type f1 = u8 "node_complete" /\ event_type f2 = u8 "analysis_result"
    /\ result_data f2 = Some (JDict [(u8 "final_report", JStr (u8 "买入"))])
    /\ content f2 = Some (u8 "=== 总决策报告 ===" ++ [10%N] ++ u8 "买入" ++ [10; 10]%N).
Proof.
  destruct (format_event Mock.world no_error_text list_of_dicts supervisor_end
              (u8 "t-1")) as [[|f1 [|f2 [|f3 fs]]]|msg] eqn:E;
    try (exfalso; revert E; vm_compute; discriminate).
  exists f1, f2. split; [reflexivity|].
  destruct (event_gives_at_most_two_frames Mock.world no_error_text list_of_dicts
              supervisor_end (u8 "t-1") [f1; f2] E) as (_ & _ & H & _).
  destruct (H f1 f2 eq_refl) as (_ & H1 & H2 & _ & _ & H3 & _).
  repeat split; [exact H1|exact H2|exact H3|].
  revert E. vm_compute. by intros [= _ <-].
Defined.

End StreamFramesExample.

(** ** The analysis period, for every end date *)

Section AnalysisPeriodCases.

Import Dates ResultManager.

#[local] Opaque u8.

(** A 29 February is never followed, two years earlier, by a leap year. *)
Lemma no_leap_day_two_years_back (dt : datetime) :
  valid dt = true -> month dt = 2 -> day dt = 29 ->
  replace_year dt (year dt - 2) = None.
Proof.
  intros Hv Hm Hd. unfold replace_year.
  assert (E : valid (mkdt (year dt - 2) (month dt) (day dt) (hour dt) (minute dt)
                          (second dt)) = false); [|now rewrite E].
  unfold valid in *. cbn [year month day hour minute second] in *.
  repeat (apply andb_prop in Hv as [Hv ?]).
  rewrite Hm, Hd in *.
  assert (L : is_leap (year dt) = true).
  { match goal with
    | H : (29 <=? days_in_month (year dt) 2) = true |- _ =>
        apply Z.leb_le in H; revert H
    end.
    unfold days_in_month. cbn. destruct (is_leap (year dt)); [done|lia]. }
  assert (N : is_leap (year dt - 2) = false).
  { unfold is_leap in *. apply andb_prop in L as [L _]. apply Z.eqb_eq in L.
    apply andb_false_intro1. apply Z.eqb_neq.
    Z.div_mod_to_equations. lia. }
  assert (D : (29 <=? days_in_month (year dt - 2) 2) = false).
  { unfold days_in_month. cbn. rewrite N. reflexivity. }
  rewrite D, andb_false_r. reflexivity.
Qed.

Lemma no_year_before_one (dt : datetime) :
  year dt < 3 -> replace_year dt (year dt - 2) = None.
Proof.
  intros Hy. unfold replace_year, valid. cbn [year month day hour minute second].
  replace (1 <=? year dt - 2) with false by (symmetry; apply Z.leb_gt; lia).
  reflexivity.
Qed.


End AnalysisPeriodCases.

(** ** The background tasks: how a task ends *)

Section BackgroundTasks.

Import ResultManager StockTools Nodes MainGraph Background.

#[local] Opaque u8.

Context (W : World).

(** The text [final_result_save] returns as [final_report]. *)
Definition saved_text (stock_code : pystr) : json :=
  JStr (u8 "分析完成！所有结果已保存到 result/" ++ stock_code ++ u8 "/ 目录").

(** What a node returns: nothing, one report, or the three entries of
    [final_result_save]. *)
Lemma node_update (n : node) (st st' : store) (state upd : dict) :
  run_node W n st state = NodeOk st' upd ->
  (n <> final_result_save /\
   (upd = [] \/ exists k t r, upd = [(k, r)] /\ (k, t) ∈ report_mapping)) \/
  (n = final_result_save /\
   exists files path,
     upd = [(u8 "saved_files", files); (u8 "summary_filepath", path);
            (u8 "final_report", saved_text (state_stock_code state))]).
Proof.
  destruct n; cbn [run_node]; intros H.
  - left. split; [done|]. left. by injection H as _ <-.
  - left. split; [done|]. right. unfold run_fundamental_analysis in H.
    destruct (get_fundamental_data W st _ _) as [[st1 txt] ifs].
    apply analyse_dom in H as [_ [r ->]].
    exists (u8 "fundamental_report"), (u8 "fundamental"), r. split; [done|].
    unfold report_mapping. cbn [map]. pick.
  - left. split; [done|]. right. unfold run_news_analysis in H.
    destruct (cached_news W st _ _).
    + apply analyse_dom in H as [_ [r ->]].
      exists (u8 "news_report"), (u8 "news"), r. split; [done|].
      unfold report_mapping. cbn [map]. pick.
    + destruct (get_news W st _ _) as [[st1 txt] ifs].
      apply analyse_dom in H as [_ [r ->]].
      exists (u8 "news_report"), (u8 "news"), r. split; [done|].
      unfold report_mapping. cbn [map]. pick.
  - left. split; [done|]. right. unfold run_sentiment_analysis in H.
    apply analyse_dom in H as [_ [r ->]].
    exists (u8 "sentiment_report"), (u8 "sentiment"), r. split; [done|].
    unfold report_mapping. cbn [map]. pick.
  - left. split; [done|]. right. unfold run_technical_analysis in H.
    destruct (get_tech_data W st _ _) as [[st1 txt] ifs].
    apply analyse_dom in H as [_ [r ->]].
    exists (u8 "technical_report"), (u8 "technical"), r. split; [done|].
    unfold report_mapping. cbn [map]. pick.
  - left. split; [done|]. right. unfold run_fund_analysis in H.
    destruct (get_fund_data W st _ _) as [[st1 txt] ifs].
    destruct (analyse W st1 _ _ _ _ _ _) as [st2 u|st2 msg] eqn:A.
    + apply NodeOk_inj in H as [_ <-]. apply analyse_dom in A as [_ [r ->]].
      exists (u8 "fund_report"), (u8 "fund"), r. split; [done|].
      unfold report_mapping. cbn [map]. pick.
    + apply NodeOk_inj in H as [_ <-].
      exists (u8 "fund_report"), (u8 "fund"), (fund_default_report msg).
      split; [done|]. unfold report_mapping. cbn [map]. pick.
  - left. split; [done|]. right. unfold run_supervisor in H.
    destruct (llm W _); [|discriminate]. apply NodeOk_inj in H as [_ <-].
    exists (u8 "supervisor_report"), (u8 "supervisor"),
      (Parsers.parse_supervisor_report W a).
    split; [done|]. unfold report_mapping. cbn [map]. pick.
  - right. split; [done|]. unfold run_final_result_save in H.
    destruct (save_all_reports W st _ state) as [st1 saved].
    destruct (save_report W st1 _ _ _ _ _) as [st2 fp].
    apply NodeOk_inj in H as [_ <-]. by eexists _, _.
Qed.

(** No report is stored under one of the keys of the request or as the
    final report. *)
Lemma report_key_other (k t : pystr) :
  (k, t) ∈ report_mapping ->
  str_eqb (u8 "stock_code") k = false /\ str_eqb (u8 "final_report") k = false.
Proof.
  unfold report_mapping. cbn [map]. intros H.
  repeat (apply elem_of_cons in H as [[= -> _]|H]); [..|by apply elem_of_nil in H];
    split; vm_compute; reflexivity.
Qed.

Lemma merge_three (state : dict) (a b c : pystr) (x y z : json) :
  merge state [(a, x); (b, y); (c, z)] = dict_set c z (dict_set b y (dict_set a x state)).
Proof. reflexivity. Qed.

(** A run that reaches the saving node ends with its text as the final
    report. *)
Lemma run_final_report (sched : list node) (s : pystr) :
  forall (st st' : store) (state state' : dict),
    state_stock_code state = s ->
    run_schedule W sched st state = (st', state', None) ->
    final_result_save ∈ sched \/ dict_get (u8 "final_report") state = Some (saved_text s) ->
    dict_get (u8 "final_report") state' = Some (saved_text s).
Proof.
  induction sched as [|n sched IH]; intros st st' state state' Hs R H.
  - injection R as _ <-. destruct H as [H|H]; [by apply elem_of_nil in H|done].
  - cbn [run_schedule] in R.
    destruct (run_node W n st state) as [st1 upd|st1 e] eqn:E; [|discriminate].
    destruct (node_update n st st1 state upd E)
      as [[Hn [->|(k & t & r & -> & Hk)]]|[-> (files & path & ->)]].
    + apply (IH st1 st' (merge state []) state'); [done|exact R|].
      destruct H as [H|H]; [|by right].
      apply elem_of_cons in H as [H|H]; [congruence|by left].
    + apply report_key_other in Hk as [K1 K2]. rewrite merge_one in R.
      apply (IH st1 st' (dict_set k r state) state'); [|exact R|].
      * unfold state_stock_code in *. by rewrite dict_get_set, K1.
      * destruct H as [H|H].
        -- apply elem_of_cons in H as [H|H]; [congruence|by left].
        -- right. by rewrite dict_get_set, K2.
    + rewrite merge_three in R. eapply (IH st1 st'); [|exact R|].
      * unfold state_stock_code in *. rewrite !dict_get_set.
        replace (str_eqb (u8 "stock_code") (u8 "final_report")) with false
          by (vm_compute; reflexivity).
        replace (str_eqb (u8 "stock_code") (u8 "summary_filepath")) with false
          by (vm_compute; reflexivity).
        replace (str_eqb (u8 "stock_code") (u8 "saved_files")) with false
          by (vm_compute; reflexivity).
        done.
      * right. rewrite dict_get_set, str_eqb_refl. by rewrite Hs.
Qed.

(** The record of a task after the three assignments of a run. *)
Lemma task_record (status : pystr) (result : json) :
  dict_set (u8 "result") result
    (dict_set (u8 "status") (JStr status)
       (dict_set (u8 "status") (JStr RUNNING)
          [(u8 "status", JStr PENDING); (u8 "result", JNull)]))
  = [(u8 "status", JStr status); (u8 "result", result)].
Proof. cbn [dict_set]. rewrite !str_eqb_refl. cbn [dict_set]. rewrite !str_eqb_refl.
  cbn [dict_set].
  replace (str_eqb (u8 "result") (u8 "status")) with false by (vm_compute; reflexivity).
  cbn [dict_set]. by rewrite str_eqb_refl.
Qed.

Lemma initial_stock_code (s : pystr) (e : option pystr) :
  state_stock_code (initial_state s e) = s.
Proof.
  unfold state_stock_code, initial_state. cbn [dict_get]. by rewrite str_eqb_refl.
Qed.

(** X16.  A registered background task always ends, and ends in one of two
    records: completed, with the text of the saving node that names the
    result directory of the symbol, when no node raised; failed, with the
    message of the exception, when one did.  The fallback text for a run
    without final report is never the result, the other tasks are not
    touched, and the status request finds the record.  For an id that was
    never registered the run raises and the status request answers 404. *)
Theorem background_task_completes_or_fails (sched : list node) (ts : tasks)
    (st : store) (task_id stock_code : pystr) (end_date : option pystr) :
  final_result_save ∈ sched ->
  let date := default (Dates.strftime_Ymd (now W)) end_date in
  let run := run_schedule W sched st (initial_state stock_code (Some date)) in
  exists ts',
    run_analysis_background W sched (analyze_stock ts task_id) st task_id
      stock_code end_date = Some (ts', run.1.1) /\
    get_task_status ts' task_id
    = Some [(u8 "status", JStr match run.2 with Some _ => FAILED | None => COMPLETED end);
            (u8 "result",
             match run.2 with
             | None => saved_text stock_code
             | Some e => JDict [(u8 "error", JStr e)]
             end)] /\
    (forall other, other <> task_id -> ts' !! other = ts !! other) /\
    (ts !! task_id = None ->
     run_analysis_background W sched ts st task_id stock_code end_date = None /\
     get_task_status ts task_id = None).
Proof.
  intros Hin date run.
  assert (Ed : match end_date with
               | None => Dates.strftime_Ymd (now W)
               | Some d => d
               end = date) by (by destruct end_date).
  unfold run_analysis_background, analyze_stock, set_field.
  rewrite lookup_insert_eq, Ed. fold run.
  destruct run as [[st' final_state] raised] eqn:R. cbn [fst snd].
  assert (F : raised = None ->
              dict_get (u8 "final_report") final_state = Some (saved_text stock_code)).
  { intros ->. eapply (run_final_report sched stock_code);
      [apply initial_stock_code|exact R|by left]. }
  assert (K : ts !! task_id = None ->
              match ts !! task_id with
              | Some t => Some (<[task_id := dict_set (u8 "status") (JStr RUNNING) t]> ts)
              | None => None
              end = None /\ get_task_status ts task_id = None).
  { intros E. unfold get_task_status. by rewrite E. }
  destruct raised as [e|]; [|rewrite (F eq_refl); cbn [default from_option Datatypes.id]];
    cbv beta iota zeta; rewrite !lookup_insert_eq, task_record;
    (eexists; split; [reflexivity|]; split; [|split]).
  - unfold get_task_status. by rewrite lookup_insert_eq.
  - intros other Ho. by rewrite !lookup_insert_ne.
  - intros E. destruct (K E) as [K1 K2]. by rewrite K1.
  - unfold get_task_status. by rewrite lookup_insert_eq.
  - intros other Ho. by rewrite !lookup_insert_ne.
  - intros E. destruct (K E) as [K1 K2]. by rewrite K1.
Qed.

End BackgroundTasks.

Section BackgroundTasksExample.

Import ResultManager StockTools Nodes MainGraph Background.

Lemma background_task_witness :
  exists ts',
    run_analysis_background Mock.world topological_order
      (analyze_stock ∅ (u8 "task-1")) ∅ (u8 "task-1") Mock.SYMBOL None
    = Some (ts',
            (run_schedule Mock.world topological_order ∅
               (initial_state Mock.SYMBOL (Some (u8 "20250920")))).1.1) /\
    get_task_status ts' (u8 "task-1")
    = Some [(u8 "status", JStr COMPLETED);
            (u8 "result", JStr (u8 "分析完成！所有结果已保存到 result/000001.SZ/ 目录"))].
Proof.
  assert (Hin : final_result_save ∈ topological_order)
    by (unfold topological_order; repeat constructor).
  destruct (background_task_completes_or_fails Mock.world topological_order ∅ ∅
              (u8 "task-1") Mock.SYMBOL None Hin) as (ts' & H1 & H2 & _).
  exists ts'. split; [exact H1|]. rewrite H2.
  rewrite (run_schedule_returns Mock.world topological_order);
    [reflexivity|intros c; destruct c; eexists; reflexivity].
Defined.

End BackgroundTasksExample.

(** ** Industry keywords: what the expansion keeps and never emits *)

Section IndustryKeywords.

Import IndustryTerms.

#[local] Opaque u8.

Lemma existsb_str_eqb (c : pystr) (l : list pystr) :
  existsb (str_eqb c) l = true <-> c ∈ l.
Proof.
  rewrite existsb_exists. split.
  - intros (x & Hx & E). apply str_eqb_eq in E as <-. by apply list_elem_of_In.
  - intros H. exists c. split; [by apply list_elem_of_In|apply str_eqb_refl].
Qed.

Lemma not_existsb_str_eqb (c : pystr) (l : list pystr) :
  existsb (str_eqb c) l = false <-> c ∉ l.
Proof.
  rewrite <- existsb_str_eqb. destruct (existsb (str_eqb c) l); split; try done;
    intros H; by destruct H.
Qed.

(** *** The pieces of a split hold no separator *)

Definition no_sep (s : pystr) : Prop := Forall (fun ch => is_sep ch = false) s.

Lemma split_runs_no_sep (s cur : pystr) (b : bool) :
  no_sep cur -> Forall no_sep (split_runs s cur b).
Proof.
  revert cur b. induction s as [|c s IH]; intros cur b Hc; cbn [split_runs].
  - repeat constructor. by apply Forall_rev.
  - destruct (is_sep c) eqn:E.
    + destruct b; [apply IH; constructor|].
      constructor; [by apply Forall_rev|apply IH; constructor].
    + apply IH. by constructor.
Qed.

Lemma lstrip_of_Forall (P : N -> Prop) (chars : N -> bool) (s : pystr) :
  Forall P s -> Forall P (lstrip_of chars s).
Proof.
  induction 1 as [|c s Hc Hs IH]; cbn [lstrip_of]; [constructor|].
  destruct (chars c); [exact IH|by constructor].
Qed.

Lemma strip_of_Forall (P : N -> Prop) (chars : N -> bool) (s : pystr) :
  Forall P s -> Forall P (strip_of chars s).
Proof.
  intros H. unfold strip_of.
  apply Forall_rev, lstrip_of_Forall, Forall_rev, lstrip_of_Forall, H.
Qed.

Lemma lstrip_Forall (P : N -> Prop) (s : pystr) : Forall P s -> Forall P (lstrip s).
Proof.
  induction 1 as [|c s Hc Hs IH]; cbn [lstrip]; [constructor|].
  destruct (isspace c); [exact IH|by constructor].
Qed.

Lemma strip_Forall (P : N -> Prop) (s : pystr) : Forall P s -> Forall P (strip s).
Proof.
  intros H. unfold strip, rstrip.
  apply Forall_rev, lstrip_Forall, Forall_rev, lstrip_Forall, H.
Qed.

(** *** The loop that stops at five *)

Lemma first_five_spec (P : pystr -> Prop) (cand : list pystr) :
  forall out : list pystr,
    (length out < 5)%nat -> NoDup out -> Forall P out -> Forall P cand ->
    (length (first_five cand out) <= 5)%nat /\ NoDup (first_five cand out)
    /\ Forall P (first_five cand out).
Proof.
  induction cand as [|c cand IH]; intros out L N F C; cbn [first_five].
  - repeat split; [lia|done|done].
  - apply Forall_cons in C as [Pc C].
    destruct (existsb (str_eqb c) out) eqn:E.
    + replace (5 <=? Z.of_nat (length out)) with false
        by (symmetry; apply Z.leb_gt; lia).
      by apply IH.
    + apply not_existsb_str_eqb in E.
      assert (N' : NoDup (out ++ [c])).
      { apply NoDup_app. repeat split; [done| |apply NoDup_singleton].
        intros x Hx Hc. apply list_elem_of_singleton in Hc as ->. done. }
      assert (F' : Forall P (out ++ [c])) by (apply Forall_app; by repeat constructor).
      assert (L' : length (out ++ [c]) = S (length out))
        by (rewrite length_app; cbn; lia).
      destruct (5 <=? Z.of_nat (length (out ++ [c]))) eqn:T.
      * repeat split; [lia|done|done].
      * apply Z.leb_gt in T. apply IH; [lia|done|done|done].
Qed.

(** X17.  The upper terms proposed for an industry term are at most five,
    pairwise different, none of them the term itself, none longer than
    twelve characters and none holding a comma or a line break; a failing
    LLM call gives the empty list.  The call raises only when filling the
    prompt template raises. *)
Theorem proposed_terms_are_few_short_and_distinct
    (format_term : pystr -> pystr -> outcome pystr) (invoke : pystr -> outcome pystr)
    (term : pystr) (prompt_template : option pystr) :
  match propose_upper_industry_terms format_term invoke term prompt_template with
  | Returned out =>
      (length out <= 5)%nat /\ NoDup out /\
      Forall (fun c => c <> term /\ len c <= 12 /\ no_sep c) out /\
      ((forall prompt, exists e, invoke prompt = Raised e) -> out = [])
  | Raised e => exists tpl, format_term tpl term = Raised e
  end.
Proof.
  unfold propose_upper_industry_terms. destruct term as [|t0 term].
  { repeat split; [cbn; lia|constructor|constructor]. }
  set (tpl := match prompt_template with Some (c :: t) => c :: t | _ => DEFAULT_TEMPLATE end).
  destruct (format_term tpl (t0 :: term)) as [prompt|e] eqn:Ef; [|by exists tpl].
  destruct (invoke prompt) as [text|e] eqn:Ei.
  2:{ repeat split; [cbn; lia|constructor|constructor]. }
  unfold terms_of.
  set (P := fun c : pystr => c <> t0 :: term /\ len c <= 12 /\ no_sep c).
  match goal with
  | |- context [first_five ?cand []] =>
      destruct (first_five_spec P cand []) as (H1 & H2 & H3)
  end.
  - cbn. lia.
  - constructor.
  - constructor.
  - apply Forall_forall. intros c Hc. apply list_elem_of_In in Hc.
    apply filter_In in Hc as [Hc Hf]. apply andb_prop in Hf as [Hne Hlen].
    apply in_map_iff in Hc as (p & <- & Hp). apply filter_In in Hp as [Hp _].
    repeat split.
    + intros E. rewrite E, str_eqb_refl in Hne. discriminate.
    + by apply Z.leb_le.
    + apply strip_of_Forall, strip_Forall.
      assert (S : Forall no_sep (re_split (strip text)))
        by (apply split_runs_no_sep; constructor).
      rewrite Forall_forall in S. apply S. by apply list_elem_of_In.
  - repeat split; [done|done|done|].
    intros Hall. destruct (Hall prompt) as [e He]. congruence.
Qed.

(** *** The expansion loop *)

Definition ne (t : pystr) : Prop := t <> [].

Lemma emit_spec (out : list pystr) (t : pystr) :
  NoDup out -> Forall ne out ->
  NoDup (_emit out t) /\ Forall ne (_emit out t) /\
  (t <> [] -> t ∈ _emit out t) /\
  (forall x, x ∈ out -> x ∈ _emit out t) /\
  (forall x, x ∈ _emit out t -> x ∈ out \/ x = t).
Proof.
  intros N F. unfold _emit.
  destruct (nonempty t) eqn:Et; cbn [andb].
  - destruct (existsb (str_eqb t) out) eqn:E; cbn [negb].
    + apply existsb_str_eqb in E. repeat split; auto.
    + apply not_existsb_str_eqb in E. repeat split.
      * apply NoDup_app. repeat split; [done| |apply NoDup_singleton].
        intros x Hx Hc. apply list_elem_of_singleton in Hc as ->. done.
      * apply Forall_app. split; [done|]. repeat constructor.
        intros ->. discriminate.
      * intros _. apply elem_of_app. right. by apply list_elem_of_singleton.
      * intros x Hx. apply elem_of_app. by left.
      * intros x Hx. apply elem_of_app in Hx as [Hx|Hx]; [by left|right].
        by apply list_elem_of_singleton in Hx.
  - repeat split; auto. intros H. by destruct t.
Qed.

Lemma emit_all_spec (ts : list pystr) :
  forall out : list pystr,
    NoDup out -> Forall ne out ->
    NoDup (fold_left _emit ts out) /\ Forall ne (fold_left _emit ts out) /\
    (forall x, x ∈ out -> x ∈ fold_left _emit ts out) /\
    (forall x, x ∈ fold_left _emit ts out -> x ∈ out \/ x ∈ ts).
Proof.
  induction ts as [|t ts IH]; intros out N F; cbn [fold_left].
  - repeat split; auto.
  - destruct (emit_spec out t N F) as (N1 & F1 & _ & K1 & O1).
    destruct (IH (_emit out t) N1 F1) as (N2 & F2 & K2 & O2).
    repeat split; auto.
    intros x Hx. apply O2 in Hx as [Hx|Hx].
    + apply O1 in Hx as [Hx| ->]; [by left|right; by left].
    + right. by right.
Qed.

(** Where an expanded term comes from: the request, or the upper terms of
    one of its keywords. *)
Definition origin (format_term : pystr -> pystr -> outcome pystr)
    (invoke : pystr -> outcome pystr) (new_processor : outcome unit)
    (cfg : industry_cfg) (raw : list pystr) (t : pystr) : Prop :=
  t ∈ raw \/
  exists k uppers,
    k ∈ raw /\ uppers_of format_term invoke new_processor cfg k = Returned uppers
    /\ t ∈ uppers.

Lemma dict_fromkeys_NoDup (l : list pystr) :
  forall out : list pystr,
    NoDup (out ++ l) ->
    fold_left (fun out k => if existsb (str_eqb k) out then out else out ++ [k]) l out
    = out ++ l.
Proof.
  induction l as [|k l IH]; intros out N; cbn [fold_left]; [by rewrite app_nil_r|].
  assert (E : existsb (str_eqb k) out = false).
  { apply not_existsb_str_eqb. apply NoDup_app in N as (_ & N & _).
    intros H. apply (N k H). by left. }
  rewrite E, IH; [by rewrite <- app_assoc|]. by rewrite <- app_assoc.
Qed.

Section Expansion.

Context (format_term : pystr -> pystr -> outcome pystr)
  (invoke : pystr -> outcome pystr) (new_processor : outcome unit)
  (cfg : industry_cfg).

Local Abbreviation expand := (expand_industry_keywords format_term invoke new_processor cfg).
Local Abbreviation loop := (expand_loop format_term invoke new_processor cfg).
Local Abbreviation uppers := (uppers_of format_term invoke new_processor cfg).

Lemma uppers_of_raised (k e : pystr) :
  uppers k = Raised e -> industry_upper_llm_enabled cfg = true.
Proof.
  unfold uppers_of. destruct (default [] _); [|discriminate].
  by destruct (industry_upper_llm_enabled cfg).
Qed.

Lemma expand_loop_spec (raw : list pystr) :
  forall out : list pystr,
    NoDup out -> Forall ne out ->
    match loop raw out with
    | Returned res =>
        NoDup res /\ Forall ne res /\
        (forall x, x ∈ out -> x ∈ res) /\
        (forall k, k ∈ raw -> k <> [] -> k ∈ res) /\
        (forall t, t ∈ res ->
           t ∈ out \/ origin format_term invoke new_processor cfg raw t)
    | Raised e => industry_upper_llm_enabled cfg = true
    end.
Proof.
  induction raw as [|k raw IH]; intros out N F; cbn [expand_loop].
  - repeat split; auto. intros k H. by apply elem_of_nil in H.
  - destruct (nonempty k) eqn:Ek.
    + destruct (uppers k) as [ups|e] eqn:Eu; [|by apply uppers_of_raised in Eu].
      destruct (emit_spec out k N F) as (N1 & F1 & I1 & K1 & O1).
      destruct (emit_all_spec ups (_emit out k) N1 F1) as (N2 & F2 & K2 & O2).
      specialize (IH (fold_left _emit ups (_emit out k)) N2 F2).
      destruct (loop raw _) as [res|e]; [|exact IH].
      destruct IH as (N3 & F3 & K3 & R3 & O3). repeat split; auto.
      * intros k' Hk' Hne. apply elem_of_cons in Hk' as [->|Hk']; [|by apply R3].
        apply K3, K2, I1, Hne.
      * intros t Ht. apply O3 in Ht as [Ht|[Ht|(k' & u' & Hk' & Hu' & Ht)]].
        -- apply O2 in Ht as [Ht|Ht].
           ++ apply O1 in Ht as [Ht| ->]; [by left|right; left; by left].
           ++ right. right. exists k, ups. repeat split; [by left|done|done].
        -- right. left. by right.
        -- right. right. exists k', u'. repeat split; [by right|done|done].
    + specialize (IH out N F). destruct (loop raw out) as [res|e]; [|exact IH].
      destruct IH as (N3 & F3 & K3 & R3 & O3). repeat split; auto.
      * intros k' Hk' Hne. apply elem_of_cons in Hk' as [->|Hk']; [|by apply R3].
        by destruct k.
      * intros t Ht. apply O3 in Ht as [Ht|[Ht|(k' & u' & Hk' & Hu' & Ht)]].
        -- by left.
        -- right. left. by right.
        -- right. right. exists k', u'. repeat split; [by right|done|done].
Qed.

(** X18.  The expanded industry keywords hold every non-empty keyword of
    the request, no empty term and no term twice, so that removing
    duplicates from them again changes nothing; each of them is a keyword of
    the request or an upper term of one, configured or proposed by the LLM.
    The expansion raises only with the LLM fallback switched on. *)
Theorem expansion_keeps_keywords_without_duplicates (raw : list pystr) :
  match expand raw with
  | Returned out =>
      NoDup out /\ Forall ne out /\
      (forall k, k ∈ raw -> k <> [] -> k ∈ out) /\
      (forall t, t ∈ out -> origin format_term invoke new_processor cfg raw t) /\
      dict_fromkeys out = out
  | Raised e => industry_upper_llm_enabled cfg = true
  end.
Proof.
  unfold expand_industry_keywords.
  pose proof (expand_loop_spec raw [] (NoDup_nil_2) (Forall_nil_2 _)) as H.
  destruct (loop raw []) as [out|e]; [|exact H].
  destruct H as (N & F & _ & R & O). repeat split; auto.
  - intros t Ht. apply O in Ht as [Ht|Ht]; [by apply elem_of_nil in Ht|done].
  - unfold dict_fromkeys. by rewrite dict_fromkeys_NoDup.
Qed.

End Expansion.

End IndustryKeywords.

(** ** The hot reload writes into the defaults *)

Section ReloadAliasing.

Import NewsConfig.

#[local] Opaque u8.

Context {leaf mtime : Type} `{EqDecision mtime}.

Local Abbreviation value := (NewsConfig.value leaf).
Local Abbreviation object := (NewsConfig.object leaf).
Local Abbreviation heap := (NewsConfig.heap leaf).

(** The dicts a dict refers to. *)
Definition nested (d : object) : list nat :=
  omap (fun e : pystr * value =>
          match e.2 with Ref l => Some l | Leaf _ => None end) d.

(** The assignments [dst[k] = v] for the items of [s], in order. *)
Definition assign_all (s d : object) : object :=
  fold_left (fun d (e : pystr * value) => obj_set e.1 e.2 d) s d.

Lemma obj_get_set (k k' : pystr) (v : value) (d : object) :
  obj_get k (obj_set k' v d) = if str_eqb k k' then Some v else obj_get k d.
Proof.
  induction d as [|[k0 v0] d IH]; cbn [obj_set obj_get]; [done|].
  destruct (str_eqb k' k0) eqn:E.
  - apply str_eqb_eq in E as ->. cbn [obj_get]. by destruct (str_eqb k k0).
  - cbn [obj_get]. destruct (str_eqb k k0) eqn:E2.
    + apply str_eqb_eq in E2 as ->. rewrite str_eqb_neq; [done|].
      intros ->. by rewrite str_eqb_refl in E.
    + by rewrite IH.
Qed.

Lemma obj_get_nested (k : pystr) (d : object) (l : nat) :
  obj_get k d = Some (Ref l) -> l ∈ nested d.
Proof.
  induction d as [|[k0 v0] d IH]; cbn [obj_get]; [discriminate|].
  unfold nested. cbn [omap]. fold (nested d).
  destruct (str_eqb k k0).
  - intros [= ->]. cbn. by left.
  - intros H. specialize (IH H). cbn. destruct v0; [done|by right].
Qed.

Lemma obj_get_flat (k : pystr) (d : object) (l : nat) :
  nested d = [] -> obj_get k d <> Some (Ref l).
Proof. intros F H. apply obj_get_nested in H. rewrite F in H. by apply elem_of_nil in H. Qed.

Lemma obj_get_elem (k : pystr) (v : value) (d : object) :
  obj_get k d = Some v -> (k, v) ∈ d.
Proof.
  induction d as [|[k0 v0] d IH]; cbn [obj_get]; [discriminate|].
  destruct (str_eqb k k0) eqn:E.
  - apply str_eqb_eq in E as ->. intros [= ->]. by left.
  - intros H. right. by apply IH.
Qed.

Lemma obj_get_key (k : pystr) (v : value) (d : object) :
  obj_get k d = Some v -> k ∈ d.*1.
Proof.
  intros H. apply obj_get_elem in H. apply list_elem_of_fmap. by exists (k, v).
Qed.

(** Different keys of a dict whose nested dicts are different objects lead
    to different objects. *)
Lemma nested_inj (d : object) (k1 k2 : pystr) (l : nat) :
  NoDup (nested d) ->
  obj_get k1 d = Some (Ref l) -> obj_get k2 d = Some (Ref l) -> k1 = k2.
Proof.
  induction d as [|[k0 v0] d IH]; cbn [obj_get]; [discriminate|].
  unfold nested. cbn [omap]. fold (nested d). intros N.
  assert (N' : NoDup (nested d)).
  { cbn in N. destruct v0; [done|]. by apply NoDup_cons in N as [_ N]. }
  destruct (str_eqb k1 k0) eqn:E1, (str_eqb k2 k0) eqn:E2.
  - apply str_eqb_eq in E1 as ->. apply str_eqb_eq in E2 as ->. done.
  - intros [= ->] H2. apply obj_get_nested in H2. cbn in N.
    apply NoDup_cons in N as [N _]. done.
  - intros H1 [= ->]. apply obj_get_nested in H1. cbn in N.
    apply NoDup_cons in N as [N _]. done.
  - by apply IH.
Qed.

(** A key assigned once holds what was assigned. *)
Lemma assign_all_get (s : object) :
  forall (d : object) (k : pystr) (v : value),
    NoDup s.*1 -> (k, v) ∈ s -> obj_get k (assign_all s d) = Some v.
Proof.
  assert (Keep : forall (s : object) (d : object) (k : pystr),
             k ∉ s.*1 -> obj_get k (assign_all s d) = obj_get k d).
  { clear. induction s as [|[k0 v0] s IH]; intros d k Hk; [done|].
    cbn [assign_all fold_left]. fold (assign_all s (obj_set k0 v0 d)).
    rewrite fmap_cons in Hk. apply not_elem_of_cons in Hk as [Hk0 Hk].
    rewrite IH by done. rewrite obj_get_set. cbn [fst].
    rewrite str_eqb_neq; done. }
  induction s as [|[k0 v0] s IH]; intros d k v N Hin; [by apply elem_of_nil in Hin|].
  rewrite fmap_cons in N. apply NoDup_cons in N as [N0 N].
  cbn [assign_all fold_left]. fold (assign_all s (obj_set k0 v0 d)).
  apply elem_of_cons in Hin as [[= -> ->]|Hin].
  - rewrite Keep by done. rewrite obj_get_set. cbn [fst snd]. by rewrite str_eqb_refl.
  - by apply IH.
Qed.

(** *** Updating a dict that holds no dict

    Nothing is descended into: every item is assigned. *)
Lemma fold_assign (descend : heap -> nat -> nat -> option heap) (dst : nat)
    (s : object) :
  forall (h : heap) (d : object),
    h !! dst = Some d -> NoDup s.*1 ->
    (forall k l, k ∈ s.*1 -> obj_get k d <> Some (Ref l)) ->
    fold_left (update_item descend dst) s (Some h)
    = Some (<[dst := assign_all s d]> h).
Proof.
  induction s as [|[k v] s IH]; intros h d Hd N F.
  - cbn [fold_left assign_all]. by rewrite insert_id.
  - rewrite fmap_cons in N. apply NoDup_cons in N as [N0 N].
    assert (Next :
      fold_left (update_item descend dst) s (Some (<[dst := obj_set k v d]> h))
      = Some (<[dst := assign_all ((k, v) :: s) d]> h)).
    { rewrite (IH _ (obj_set k v d)).
      - by rewrite insert_insert_eq.
      - by rewrite lookup_insert_eq.
      - done.
      - intros k' l Hk'. rewrite obj_get_set.
        rewrite str_eqb_neq; [|intros ->; done].
        apply F. rewrite fmap_cons. by right. }
    cbn [fold_left update_item]. rewrite Hd. cbn [fst snd].
    destruct v as [a|ls]; [exact Next|].
    destruct (obj_get k d) as [[?|ld]|] eqn:G; [exact Next| |exact Next].
    exfalso. apply (F k ld); [rewrite fmap_cons; by left|done].
Qed.

Lemma deep_update_S (fuel : nat) (h : heap) (dst src : nat) :
  _deep_update (S fuel) h dst src
  = match h !! src with
    | None => None
    | Some items => fold_left (update_item (_deep_update fuel) dst) items (Some h)
    end.
Proof. reflexivity. Qed.

Lemma deep_update_flat (fuel : nat) (h : heap) (dst src : nat) (s d : object) :
  h !! src = Some s -> h !! dst = Some d -> NoDup s.*1 -> nested d = [] ->
  _deep_update (S fuel) h dst src = Some (<[dst := assign_all s d]> h).
Proof.
  intros Hs Hd N F. cbn [_deep_update]. rewrite Hs.
  apply fold_assign; [done|done|]. intros k l _. by apply obj_get_flat.
Qed.

(** *** The reload *)

Section Reload.

Context (h : heap) (l0 ly : nat) (D0 y : object).

Hypothesis defaults : h !! l0 = Some D0.
Hypothesis loaded : h !! ly = Some y.
Hypothesis yaml_keys : NoDup y.*1.
Hypothesis distinct : NoDup (nested D0).
Hypothesis flat :
  forall l, l ∈ nested D0 ->
    l <> l0 /\ (l ∉ nested y) /\ exists d, h !! l = Some d /\ nested d = [].
Hypothesis yaml_dicts :
  forall l, l ∈ nested y -> exists s, h !! l = Some s /\ NoDup s.*1.

Local Abbreviation lc := (fresh (dom h)).

Lemma lc_fresh (l : nat) (d : object) : h !! l = Some d -> l <> lc.
Proof.
  intros H ->. apply (is_fresh (dom h)). apply elem_of_dom. by eexists.
Qed.

(** What holds after the items before [r] were processed. *)
Record inv_reload (r : object) (hi : heap) : Prop := {
  inv_defaults : hi !! l0 = Some D0;
  inv_cfg : exists ci,
    hi !! lc = Some ci /\
    (forall k, k ∈ r.*1 -> obj_get k ci = obj_get k D0) /\
    (forall k ld ls, obj_get k D0 = Some (Ref ld) -> obj_get k y = Some (Ref ls) ->
       obj_get k ci = Some (Ref ld));
  inv_todo : forall k l, k ∈ r.*1 -> obj_get k D0 = Some (Ref l) -> hi !! l = h !! l;
  inv_yaml : forall l, l ∈ nested y -> hi !! l = h !! l;
  inv_done : forall k ld ls d s,
    k ∉ r.*1 -> obj_get k D0 = Some (Ref ld) -> obj_get k y = Some (Ref ls) ->
    h !! ld = Some d -> h !! ls = Some s -> hi !! ld = Some (assign_all s d);
}.

Lemma inv_start : inv_reload y (<[lc := D0]> h).
Proof.
  split.
  - rewrite lookup_insert_ne; [done|]. symmetry. by eapply lc_fresh.
  - exists D0. rewrite lookup_insert_eq. by repeat split.
  - intros k l _ Hk. rewrite lookup_insert_ne; [done|].
    destruct (flat l (obj_get_nested _ _ _ Hk)) as (_ & _ & d & Hd & _).
    symmetry. by eapply lc_fresh.
  - intros l Hl. rewrite lookup_insert_ne; [done|].
    destruct (yaml_dicts l Hl) as (s & Hs & _). symmetry. by eapply lc_fresh.
  - intros k ld ls d s Hk _ Hy. exfalso. apply Hk. by eapply obj_get_key.
Qed.

Lemma inv_step (fuel : nat) (k : pystr) (v : value) (r : object) (hi : heap) :
  obj_get k y = Some v -> k ∉ r.*1 ->
  inv_reload ((k, v) :: r) hi ->
  exists hi',
    update_item (_deep_update (S fuel)) lc (Some hi) (k, v) = Some hi' /\
    inv_reload r hi'.
Proof.
  intros Hy Hk [Id (ci & Ic & Ic1 & Ic2) It Iy Idn].
  assert (Hhead : k ∈ ((k, v) :: r).*1) by (rewrite fmap_cons; by left).
  assert (Htail : forall k', k' ∈ r.*1 -> k' ∈ ((k, v) :: r).*1)
    by (intros k' H'; rewrite fmap_cons; by right).
  assert (Hother : forall k', k' ∉ r.*1 -> k' <> k -> k' ∉ ((k, v) :: r).*1).
  { intros k' H1 H2. rewrite fmap_cons. by apply not_elem_of_cons. }
  cbn [update_item]. rewrite Ic. cbn [fst snd]. rewrite (Ic1 k Hhead).
  (* the two ways an item is processed *)
  assert (Assign :
    (forall ld ls, v = Ref ls -> obj_get k D0 <> Some (Ref ld)) ->
    inv_reload r (<[lc := obj_set k v ci]> hi)).
  { intros Hno. split.
    - rewrite lookup_insert_ne; [done|]. symmetry. by eapply lc_fresh.
    - exists (obj_set k v ci). rewrite lookup_insert_eq. repeat split.
      + intros k' Hk'. rewrite obj_get_set, str_eqb_neq; [|intros ->; done].
        by apply Ic1, Htail.
      + intros k' ld ls G1 G2. rewrite obj_get_set.
        destruct (str_eqb k' k) eqn:E; [|by eapply Ic2].
        apply str_eqb_eq in E as ->. rewrite Hy in G2. injection G2 as Ev.
        by destruct (Hno ld ls Ev G1).
    - intros k' l Hk' G. rewrite lookup_insert_ne; [by eapply It; [apply Htail|]|].
      destruct (flat l (obj_get_nested _ _ _ G)) as (_ & _ & d & Hd & _).
      symmetry. by eapply lc_fresh.
    - intros l Hl. rewrite lookup_insert_ne; [by apply Iy|].
      destruct (yaml_dicts l Hl) as (s & Hs & _). symmetry. by eapply lc_fresh.
    - intros k' ld ls d s Hk' G1 G2 Hd Hs.
      rewrite lookup_insert_ne; [|symmetry; by eapply lc_fresh].
      eapply Idn; [|done..]. apply Hother; [done|].
      intros ->. rewrite Hy in G2. injection G2 as Ev. by destruct (Hno ld ls Ev G1). }
  destruct v as [a|ls].
  { exists (<[lc := obj_set k (Leaf a) ci]> hi). split.
    - by destruct (obj_get k D0) as [[?|?]|].
    - apply Assign. intros ld ls [=]. }
  destruct (obj_get k D0) as [[a|ld]|] eqn:G.
  { exists (<[lc := obj_set k (Ref ls) ci]> hi). split; [done|].
    apply Assign. intros ld ls' _ [=]. }
  2:{ exists (<[lc := obj_set k (Ref ls) ci]> hi). split; [done|].
      apply Assign. intros ld ls' _ [=]. }
  (* both are dicts: the dict of the defaults is updated in place *)
  pose proof (obj_get_nested _ _ _ G) as Hld.
  pose proof (obj_get_nested _ _ _ Hy) as Hls.
  destruct (flat ld Hld) as (Hl0 & Hny & d & Hd & Fd).
  destruct (yaml_dicts ls Hls) as (s & Hs & Ns).
  exists (<[ld := assign_all s d]> hi). split.
  { apply deep_update_flat; [by rewrite Iy|by rewrite (It k ld Hhead G)|done|done]. }
  split.
  - by rewrite lookup_insert_ne.
  - exists ci. rewrite lookup_insert_ne; [|by eapply lc_fresh].
    repeat split; [done| |done]. intros k' Hk'. by apply Ic1, Htail.
  - intros k' l Hk' G'. rewrite lookup_insert_ne; [by eapply It; [apply Htail|]|].
    intros <-. apply Hk. by rewrite (nested_inj D0 k k' ld distinct G G').
  - intros l Hl. rewrite lookup_insert_ne; [by apply Iy|]. by intros <-.
  - intros k' ld' ls' d' s' Hk' G1 G2 Hd' Hs'.
    destruct (decide (k' = k)) as [->|Hne].
    + rewrite G in G1. rewrite Hy in G2. injection G1 as <-. injection G2 as <-.
      rewrite Hd in Hd'. rewrite Hs in Hs'. injection Hd' as <-. injection Hs' as <-.
      by rewrite lookup_insert_eq.
    + rewrite lookup_insert_ne.
      * eapply Idn; [|done..]. by apply Hother.
      * intros <-. apply Hne. by rewrite (nested_inj D0 k k' ld distinct G G1).
Qed.

Lemma obj_get_NoDup (k : pystr) (v : value) (d : object) :
  NoDup d.*1 -> (k, v) ∈ d -> obj_get k d = Some v.
Proof.
  induction d as [|[k0 v0] d IH]; intros N Hin; [by apply elem_of_nil in Hin|].
  rewrite fmap_cons in N. apply NoDup_cons in N as [N0 N]. cbn [obj_get].
  apply elem_of_cons in Hin as [[= -> ->]|Hin]; [by rewrite str_eqb_refl|].
  rewrite str_eqb_neq; [by apply IH|]. intros ->. apply N0.
  apply list_elem_of_fmap. by exists (k0, v).
Qed.

Lemma inv_run (fuel : nat) (r : object) :
  forall (p : object) (hi : heap),
    y = p ++ r -> inv_reload r hi ->
    exists h',
      fold_left (update_item (_deep_update (S fuel)) lc) r (Some hi) = Some h' /\
      inv_reload [] h'.
Proof.
  induction r as [|[k v] r IH]; intros p hi Ey I; [by exists hi|].
  assert (Hy : obj_get k y = Some v).
  { apply obj_get_NoDup; [done|]. rewrite Ey. apply elem_of_app. right. by left. }
  assert (Hk : k ∉ r.*1).
  { pose proof yaml_keys as N. rewrite Ey, fmap_app, fmap_cons in N.
    apply NoDup_app in N as (_ & _ & N). by apply NoDup_cons in N as [N _]. }
  destruct (inv_step fuel k v r hi Hy Hk I) as (hi' & E & I').
  cbn [fold_left]. rewrite E. apply (IH (p ++ [(k, v)])); [|done].
  by rewrite <- app_assoc.
Qed.

(** X19.  A reload of the news configuration writes the nested entries of
    the external file into the dicts of the module's default configuration
    themselves, not into a copy: after the reload the returned configuration
    and the defaults both hold the file's value under every nested key the
    file gives, and a later reload from an empty file, which should give the
    defaults, still returns the overridden value. *)
Theorem reload_writes_overrides_into_the_defaults (cache : cfg_cache mtime)
    (mt : option mtime) (fuel : nat) (k k' : pystr) (ld ls : nat) (s : object)
    (v : value) :
  cache_mtime cache <> mt -> (2 <= fuel)%nat ->
  obj_get k D0 = Some (Ref ld) -> obj_get k y = Some (Ref ls) ->
  h !! ls = Some s -> (k', v) ∈ s ->
  exists h',
    get_news_config fuel l0 h cache mt ly = Some (h', mkcache mt lc, lc) /\
    nested_get h' lc k k' = Some v /\
    nested_get h' l0 k k' = Some v /\
    forall (fuel' : nat) (mt' : option mtime) (ly' : nat),
      (1 <= fuel')%nat -> mt <> mt' -> ly' ∉ dom h' ->
      exists h'' cfg',
        get_news_config fuel' l0 (<[ly' := []]> h') (mkcache mt lc) mt' ly'
        = Some (h'', mkcache mt' cfg', cfg') /\
        nested_get h'' cfg' k k' = Some v.
Proof.
  intros Hmt Hfuel G Hy Hs Hv.
  destruct fuel as [|[|fuel]]; [lia|lia|].
  pose proof (obj_get_nested _ _ _ G) as Hld.
  pose proof (obj_get_nested _ _ _ Hy) as Hls.
  destruct (flat ld Hld) as (Hl0 & Hny & d & Hd & Fd).
  destruct (yaml_dicts ls Hls) as (s' & Hs' & Ns).
  rewrite Hs in Hs'. injection Hs' as <-.
  destruct (inv_run fuel y [] (<[lc := D0]> h) eq_refl inv_start)
    as (h' & E & [Id (ci & Ic & _ & Ic2) _ _ Idn]).
  assert (Eld : h' !! ld = Some (assign_all s d)).
  { eapply Idn; [|done..]. rewrite fmap_nil. apply not_elem_of_nil. }
  assert (Ev : obj_get k' (assign_all s d) = Some v) by by apply assign_all_get.
  exists h'. split; [|split; [|split]].
  - unfold get_news_config. rewrite decide_False by done. rewrite defaults.
    rewrite deep_update_S, lookup_insert_ne; [|symmetry; by eapply lc_fresh].
    rewrite loaded. by rewrite E.
  - unfold nested_get. rewrite Ic. cbn. rewrite (Ic2 k ld ls G Hy).
    rewrite Eld. exact Ev.
  - unfold nested_get. rewrite Id. cbn. rewrite G. rewrite Eld. exact Ev.
  - intros fuel' mt' ly' Hf' Hmt' Hly'.
    destruct fuel' as [|fuel']; [lia|].
    assert (N0 : l0 <> ly') by (intros ->; apply Hly', elem_of_dom; by eexists).
    assert (Nd : ld <> ly') by (intros ->; apply Hly', elem_of_dom; by eexists).
    set (hh := <[ly' := []]> h').
    assert (Nc : forall l x, hh !! l = Some x -> l <> fresh (dom hh)).
    { intros l x Hx ->. apply (is_fresh (dom hh)). apply elem_of_dom. by eexists. }
    assert (Hly2 : hh !! ly' = Some []) by (unfold hh; by rewrite lookup_insert_eq).
    assert (Hl02 : hh !! l0 = Some D0) by (unfold hh; by rewrite lookup_insert_ne).
    assert (Hld2 : hh !! ld = Some (assign_all s d))
      by (unfold hh; by rewrite lookup_insert_ne).
    exists (<[fresh (dom hh) := D0]> hh), (fresh (dom hh)). split.
    + unfold get_news_config. cbn [cache_mtime]. rewrite decide_False by done.
      rewrite Hl02, deep_update_S.
      rewrite lookup_insert_ne; [|symmetry; by eapply Nc]. by rewrite Hly2.
    + unfold nested_get. rewrite lookup_insert_eq. cbn. rewrite G.
      rewrite lookup_insert_ne; [|symmetry; by eapply Nc]. rewrite Hld2. exact Ev.
Qed.

End Reload.

End ReloadAliasing.

Section ReloadExample.

Import NewsConfig.

(** The defaults with one nested dict, and a file that overrides one of its
    weights; leaves are written as the file writes them. *)
Definition sample_defaults : object pystr :=
  [(u8 "news_topk", Leaf (u8 "10")); (u8 "source_weights", Ref 1%nat)].

Definition sample_yaml : object pystr := [(u8 "source_weights", Ref 3%nat)].

Definition sample_heap : heap pystr :=
  <[0%nat := sample_defaults]>
    (<[1%nat := [(u8 "财联社", Leaf (u8 "1.15"))]]>
       (<[2%nat := sample_yaml]>
          (<[3%nat := [(u8 "财联社", Leaf (u8 "2.0"))]]> ∅))).

Lemma reload_witness :
  exists h',
    get_news_config 2 0 sample_heap (mkcache None 0%nat) (Some 1) 2
    = Some (h', mkcache (Some 1) (fresh (dom sample_heap)), fresh (dom sample_heap)) /\
    nested_get h' 0 (u8 "source_weights") (u8 "财联社") = Some (Leaf (u8 "2.0")).
Proof.
  assert (P1 : sample_heap !! 0%nat = Some sample_defaults) by reflexivity.
  assert (P2 : sample_heap !! 2%nat = Some sample_yaml) by reflexivity.
  assert (P3 : NoDup sample_yaml.*1) by apply NoDup_singleton.
  assert (P4 : NoDup (nested sample_defaults)) by apply NoDup_singleton.
  assert (P5 : forall l : nat, l ∈ nested sample_defaults ->
            l <> 0%nat /\ (l ∉ nested sample_yaml) /\
            exists d, sample_heap !! l = Some d /\ nested d = []).
  { intros l Hl. apply list_elem_of_singleton in Hl as ->.
    split; [discriminate|]. split.
    - intros Hl. apply list_elem_of_singleton in Hl. discriminate.
    - eexists. split; reflexivity. }
  assert (P6 : forall l : nat, l ∈ nested sample_yaml ->
            exists s, sample_heap !! l = Some s /\ NoDup s.*1).
  { intros l Hl. apply list_elem_of_singleton in Hl as ->.
    eexists. split; [reflexivity|apply NoDup_singleton]. }
  destruct (reload_writes_overrides_into_the_defaults (mtime := Z)
              sample_heap 0%nat 2%nat sample_defaults sample_yaml P1 P2 P3 P4 P5 P6
              (mkcache None 0%nat) (Some 1) 2%nat (u8 "source_weights") (u8 "财联社")
              1%nat 3%nat [(u8 "财联社", Leaf (u8 "2.0"))] (Leaf (u8 "2.0")))
    as (h' & E & _ & Hd & _).
  - discriminate.
  - lia.
  - vm_compute. reflexivity.
  - vm_compute. reflexivity.
  - reflexivity.
  - by left.
  - exists h'. split; [exact E|exact Hd].
Defined.

End ReloadExample.

(** ** What the sentiment node reads of the fundamental tool result *)

Section FundamentalRead.

Import ResultManager StockTools Nodes.

#[local] Opaque u8.

Context (W : World).

(** An interface as the sentiment node shows it, and the interfaces it
    shows: those whose result is not blank. *)
Definition shown (e : pystr * interface_result) : pystr :=
  u8 "【" ++ objective e.2 ++ u8 "】" ++ [10%N] ++ result e.2.

Definition nonblank (e : pystr * interface_result) : bool :=
  match strip (result e.2) with [] => false | _ => true end.

Lemma iface_fields (o r raw s : json) :
  let d := [(u8 "objective", o); (u8 "result", r); (u8 "raw", raw); (u8 "status", s)] in
  dict_get (u8 "result") d = Some r /\ dict_get (u8 "objective") d = Some o.
Proof. vm_compute. split; reflexivity. Qed.

Lemma interface_texts_stored (ifaces : list (pystr * interface_result)) :
  interface_texts W (map (fun e => (e.1, iface_json e.2)) ifaces)
  = Some (map shown (List.filter nonblank ifaces)).
Proof.
  induction ifaces as [|[k i] ifaces IH]; [reflexivity|].
  cbn [map interface_texts List.filter fst snd]. rewrite IH. unfold iface_json.
  destruct (iface_fields (JStr (objective i)) (JStr (result i)) (JList (raw_rows i))
              (JStr (status i))) as [-> ->].
  unfold nonblank. cbn [snd truthy].
  destruct (result i) as [|c r] eqn:E; [reflexivity|].
  destruct (strip (c :: r)) eqn:S; [reflexivity|].
  unfold shown. cbn [snd app map]. by rewrite E.
Qed.

Lemma final_result_interfaces (t o i s : json) :
  dict_get (u8 "interfaces")
    ([(u8 "analysis_type", t)] ++ [(u8 "company_overview", o)]
       ++ [(u8 "interfaces", i); (u8 "summary", s)]) = Some i.
Proof. vm_compute. reflexivity. Qed.

Lemma payload_data (a b c data : json) :
  dict_get (u8 "data")
    ([(u8 "tool", a); (u8 "timestamp", b); (u8 "analysis_period", c)]
       ++ [(u8 "data", data)]) = Some data.
Proof. vm_compute. reflexivity. Qed.

Lemma sentiment_input_fundamental (a b c d : json) :
  get (u8 "fundamental_result")
    (JDict [(u8 "stock_code", a); (u8 "end_date", b);
            (u8 "news_combined_summary", c); (u8 "fundamental_result", d)]) = Some d.
Proof. vm_compute. reflexivity. Qed.

(** X20.  What the fundamental tool stored is what the sentiment node reads
    back: its fundamental_result is the results of the stored interfaces
    that are not blank, each under its objective in brackets, joined by
    blank lines, in the order the tool stored them; when every result is
    blank, it is the fallback taken from the fundamental report of the
    state. *)
Theorem sentiment_reads_the_fundamental_results (st : store) (state : dict) :
  cm W = CmReady ->
  let s := state_stock_code state in
  let e := state_end_date state in
  let tool := get_fundamental_data W st s e in
  let text := JStr (join [10; 10]%N (map shown (List.filter nonblank tool.2))) in
  fundamental_result_of W (load_tool_result W tool.1.1 s (u8 "fundamental_data") e)
    = text /\
  get (u8 "fundamental_result") (sentiment_input W tool.1.1 state)
    = Some (with_report_backup text state).
Proof.
  intros C s e tool text.
  assert (E : fundamental_result_of W
                (load_tool_result W tool.1.1 s (u8 "fundamental_data") e) = text).
  { subst tool text. unfold get_fundamental_data. rewrite C. cbn [fst snd].
    unfold load_tool_result, save_tool_result, final_result. cbn [fst].
    rewrite lookup_insert_eq. unfold fundamental_result_of.
    rewrite payload_data. cbn [default from_option Datatypes.id].
    rewrite final_result_interfaces. cbn [default from_option Datatypes.id].
    rewrite interface_texts_stored.
    set (ifaces := collect _ data_objectives).
    assert (T : truthy (JDict (map (fun e0 => (e0.1, iface_json e0.2)) ifaces)) = true).
    { subst ifaces. unfold collect, data_objectives, utf8_pairs. cbn [map truthy].
      reflexivity. }
    rewrite T.
    by destruct (map shown (List.filter nonblank ifaces)). }
  split; [exact E|].
  unfold sentiment_input. rewrite sentiment_input_fundamental. fold s e.
  by rewrite E.
Qed.

End FundamentalRead.

Section FundamentalReadExample.

Import ResultManager StockTools Nodes MainGraph.

(** The fundamental tool in the mocked setting, from an empty store. *)
Definition mock_fundamental :
    store * pystr * list (pystr * interface_result) :=
  get_fundamental_data Mock.world ∅ Mock.SYMBOL (Some (u8 "20250914")).

Lemma sentiment_fundamental_witness :
  fundamental_result_of Mock.world
    (load_tool_result Mock.world mock_fundamental.1.1 Mock.SYMBOL
       (u8 "fundamental_data") (Some (u8 "20250914")))
  = JStr (join [10; 10]%N (map shown (List.filter nonblank mock_fundamental.2))).
Proof.
  exact (proj1 (sentiment_reads_the_fundamental_results Mock.world ∅
                  (initial_state Mock.SYMBOL (Some (u8 "20250914"))) eq_refl)).
Defined.

End FundamentalReadExample.

(** ** The text a tool returns shows every interface *)

Section ToolText.

Import ResultManager StockTools.

#[local] Opaque u8.

Context (W : World).

Lemma py_in_refl (x : pystr) : py_in x x = true.
Proof. rewrite <- (app_nil_r x) at 2. apply py_in_prefix. Qed.

Lemma py_in_join (sep x y : pystr) (l : list pystr) :
  y ∈ l -> py_in x y = true -> py_in x (join sep l) = true.
Proof.
  intros Hy Hx. induction l as [|a l IH]; [by apply elem_of_nil in Hy|].
  destruct l as [|b l].
  - apply list_elem_of_singleton in Hy as ->. exact Hx.
  - change (join sep (a :: b :: l)) with (a ++ sep ++ join sep (b :: l)).
    apply elem_of_cons in Hy as [->|Hy]; [by apply py_in_app_l|].
    apply py_in_app_r, py_in_app_r. by apply IH.
Qed.

(** The mark and the block of an interface in the text. *)
Definition status_prefix (i : interface_result) : pystr :=
  if str_eqb (status i) SUCCESS then u8 "✅"
  else if str_eqb (status i) ERROR then u8 "❌"
  else u8 "⚠️".

Definition block (i : interface_result) : pystr :=
  status_prefix i ++ u8 "【" ++ objective i ++ u8 "】" ++ [10%N] ++ result i.

Lemma format_shows_interfaces (result_data : json) (overview : list pystr)
    (analysis_type : pystr) (ifaces : list (pystr * interface_result)) :
  Forall (fun e => py_in (block e.2)
                     (_format_result_as_text W result_data overview analysis_type ifaces)
                   = true) ifaces /\
  Forall (fun c => py_in c
                     (_format_result_as_text W result_data overview analysis_type ifaces)
                   = true) overview.
Proof.
  unfold _format_result_as_text.
  set (texts := map _ ifaces).
  assert (Hb : forall e, e ∈ ifaces -> block e.2 ∈ texts).
  { intros e He. subst texts. apply list_elem_of_fmap. exists e. split; [|done].
    reflexivity. }
  split; apply Forall_forall.
  - intros e He.
    destruct ifaces as [|i0 ifaces]; [by apply elem_of_nil in He|].
    set (part := analysis_type ++ u8 "：" ++ [10%N] ++ join SEP texts).
    assert (Hp : py_in (block e.2) part = true).
    { subst part. apply py_in_app_r, py_in_app_r, py_in_app_r.
      eapply py_in_join; [by apply Hb|apply py_in_refl]. }
    destruct overview as [|c0 overview]; cbn [app].
    + exact Hp.
    + eapply (py_in_join SEP _ part); [|exact Hp]. right. by left.
  - intros c Hc.
    destruct overview as [|c0 overview]; [by apply elem_of_nil in Hc|].
    set (head := u8 "公司概况：" ++ [10%N] ++ join SEP (c0 :: overview)).
    assert (Hp : py_in c head = true).
    { subst head. apply py_in_app_r, py_in_app_r.
      eapply py_in_join; [exact Hc|apply py_in_refl]. }
    destruct ifaces as [|i0 ifaces]; cbn [app].
    + exact Hp.
    + eapply (py_in_join SEP _ head); [|exact Hp]. by left.
Qed.

Lemma collect_statuses (w : pystr -> pystr -> payload) (objs : list (pystr * pystr)) :
  Forall (fun e : pystr * interface_result =>
            status e.2 = SUCCESS \/ status e.2 = ERROR) (collect w objs).
Proof.
  unfold collect. apply Forall_forall. intros e He. apply list_elem_of_fmap in He.
  destruct He as ([d o] & -> & _). cbn [snd entry_of status]. unfold status_of.
  destruct (negb _); auto.
Qed.

(** X21.  The text the fundamental, the fund and the technical tool return
    shows every interface they assembled: the block
    "<mark>【objective】" / result of each interface occurs in it, with the
    mark ✅ for the status success and ❌ for error (no interface has another
    status, so the third mark is never used); the company summary, when
    there is one, occurs in the text of the fundamental tool. *)
Theorem tool_text_shows_every_interface (st : store) (stock_code : pystr)
    (end_date : option pystr) :
  let shows (r : store * pystr * list (pystr * interface_result)) :=
    Forall (fun e : pystr * interface_result =>
              py_in (block e.2) r.1.2 = true /\
              (status e.2 = SUCCESS \/ status e.2 = ERROR)) r.2 in
  shows (get_fundamental_data W st stock_code end_date) /\
  shows (get_fund_data W st stock_code end_date) /\
  shows (get_tech_data W st stock_code end_date) /\
  (cm W = CmReady ->
   forall c, company_summary W stock_code = Some c -> c <> [] ->
     py_in c (get_fundamental_data W st stock_code end_date).1.2 = true).
Proof.
  intros shows. subst shows. cbv beta.
  assert (Both : forall (P Q : pystr * interface_result -> Prop) l,
             Forall P l -> Forall Q l -> Forall (fun e => P e /\ Q e) l).
  { intros P Q l HP HQ. apply Forall_forall. intros e He.
    rewrite Forall_forall in HP, HQ. split; auto. }
  repeat split.
  - unfold get_fundamental_data.
    destruct (cm W); cbn [fst snd]; [constructor|constructor|].
    apply Both; [apply format_shows_interfaces|apply collect_statuses].
  - unfold get_fund_data.
    destruct (cm W); cbn [fst snd]; [constructor|constructor|].
    apply Both; [apply format_shows_interfaces|apply collect_statuses].
  - unfold get_tech_data.
    destruct (cm W); cbn [fst snd]; [constructor|constructor|].
    apply Both; [apply format_shows_interfaces|apply collect_statuses].
  - intros C c Hc Hne. unfold get_fundamental_data. rewrite C, Hc. cbn [fst snd].
    destruct c as [|c0 c]; [done|].
    match goal with
    | |- py_in _ (_format_result_as_text W ?rd ?ov ?at' ?ifs) = true =>
        destruct (format_shows_interfaces rd ov at' ifs) as [_ H]
    end.
    by inversion H.
Qed.

End ToolText.

(** ** The result summary lists every file *)

Section ResultSummary.

Import ResultManager.

#[local] Opaque u8.

Lemma elem_of_insert_sorted (x y : pystr) (l : list pystr) :
  y ∈ insert_sorted x l <-> y = x \/ y ∈ l.
Proof.
  induction l as [|a l IH]; cbn [insert_sorted].
  - rewrite list_elem_of_singleton, elem_of_nil. tauto.
  - destruct (str_leb x a).
    + by rewrite elem_of_cons.
    + rewrite !elem_of_cons, IH. tauto.
Qed.

Lemma elem_of_sorted (y : pystr) (l : list pystr) : y ∈ sorted l <-> y ∈ l.
Proof.
  unfold sorted. induction l as [|a l IH]; cbn [fold_right]; [done|].
  by rewrite elem_of_insert_sorted, elem_of_cons, IH.
Qed.

Lemma fold_append {A : Type} (g : A -> pystr) (l : list A) (init : pystr) :
  fold_left (fun acc a => acc ++ g a) l init = init ++ concat (map g l).
Proof.
  revert init. induction l as [|a l IH]; intros init; cbn [fold_left map concat].
  - by rewrite app_nil_r.
  - by rewrite IH, <- app_assoc.
Qed.

Lemma py_in_concat (x y : pystr) (ys : list pystr) :
  y ∈ ys -> py_in x y = true -> py_in x (concat ys) = true.
Proof.
  intros Hy Hx. induction ys as [|a ys IH]; [by apply elem_of_nil in Hy|].
  cbn [concat]. apply elem_of_cons in Hy as [->|Hy].
  - by apply py_in_app_l.
  - by apply py_in_app_r, IH.
Qed.

(** The line of a file follows a line break: the one that ends the count,
    or the one that ends the line before. *)
Lemma line_of_its_own (name : pystr) (l : list pystr) :
  name ∈ l ->
  py_in ([10%N] ++ u8 "- " ++ name ++ [10%N])
    ([10%N] ++ concat (map (fun f => u8 "- " ++ f ++ [10%N]) l)) = true.
Proof.
  induction l as [|a l IH]; intros H; [by apply elem_of_nil in H|].
  cbn [map concat]. apply py_in_spec. apply elem_of_cons in H as [->|H].
  - exists [], (concat (map (fun f => u8 "- " ++ f ++ [10%N]) l)).
    cbn [app]. by rewrite <- !app_assoc.
  - apply IH, py_in_spec in H as (x & y & E).
    exists (([10%N] ++ u8 "- " ++ a) ++ x), y.
    rewrite <- (app_assoc _ x), <- E. cbn [app]. by rewrite <- !app_assoc.
Qed.

(** The lines of one date directory in the summary. *)
Definition listed (st : store) (stock_code date_dir : pystr) : pystr :=
  let files :=
    filter (fun f => endswith (u8 ".md") f || endswith (u8 ".json") f = true)
      (elements (names_in st stock_code date_dir)) in
  u8 "## " ++ date_dir ++ u8 " 分析结果" ++ [10; 10]%N
    ++ u8 "**文件总数**: " ++ str_of_nonneg (Z.of_nat (length files)) ++ [10; 10]%N
    ++ concat (map (fun f => u8 "- " ++ f ++ [10%N]) (sorted files))
    ++ [10%N].

Lemma summary_blocks (st : store) (stock_code : pystr) :
  get_result_summary st stock_code
  = u8 "# 股票 " ++ stock_code ++ u8 " 分析结果摘要" ++ [10; 10]%N
      ++ concat (map (listed st stock_code)
                   (rev (sorted (elements (date_dirs st stock_code))))).
Proof.
  unfold get_result_summary.
  rewrite (fold_append (listed st stock_code)). by rewrite <- !app_assoc.
Qed.

(** X22.  The result summary of a symbol names every date directory that
    holds a file of the symbol and, under it, every .json and .md file of
    that directory on a line of its own; it opens with the title line of the
    symbol. *)
Theorem summary_lists_every_file (st : store) (stock_code date_dir name : pystr)
    (doc : json) :
  st !! (stock_code, date_dir, name) = Some doc ->
  let summary := get_result_summary st stock_code in
  startswith (u8 "# 股票 " ++ stock_code ++ u8 " 分析结果摘要") summary = true /\
  py_in (u8 "## " ++ date_dir ++ u8 " 分析结果") summary = true /\
  (endswith (u8 ".md") name || endswith (u8 ".json") name = true ->
   py_in ([10%N] ++ u8 "- " ++ name ++ [10%N]) summary = true).
Proof.
  intros H summary. subst summary. rewrite summary_blocks.
  assert (Hd : date_dir ∈ rev (sorted (elements (date_dirs st stock_code)))).
  { apply list_elem_of_In. rewrite <- in_rev. apply list_elem_of_In.
    apply elem_of_sorted. apply elem_of_elements.
    unfold date_dirs. apply elem_of_map. exists (stock_code, date_dir, name).
    split; [done|]. apply elem_of_filter. split; [done|].
    apply elem_of_dom. by eexists. }
  split; [|split].
  - apply startswith_spec. eexists. by rewrite <- !app_assoc.
  - do 4 apply py_in_app_r.
    eapply py_in_concat; [apply list_elem_of_fmap; by eexists|].
    unfold listed. apply py_in_spec. exists []. eexists. cbn [app].
    rewrite <- !app_assoc. reflexivity.
  - intros Hn. do 4 apply py_in_app_r.
    eapply py_in_concat; [apply list_elem_of_fmap; by eexists|].
    unfold listed.
    set (files := filter _ (elements (names_in st stock_code date_dir))).
    assert (Hf : name ∈ sorted files).
    { apply elem_of_sorted. subst files. apply list_elem_of_filter. split; [done|].
      apply elem_of_elements, elem_of_names_in. apply elem_of_dom. by eexists. }
    do 6 apply py_in_app_r.
    apply line_of_its_own, py_in_spec in Hf as (x & y & E).
    change ([10; 10]%N ++ ?z) with ([10%N] ++ ([10%N] ++ z)).
    rewrite (app_assoc [10%N] (concat _) [10%N]), E.
    apply py_in_spec. exists ([10%N] ++ x), (y ++ [10%N]). by rewrite <- !app_assoc.
Qed.

End ResultSummary.

Section ResultSummaryExample.

Import ResultManager.

(** A store with one report of one day. *)
Definition one_report : store :=
  <[(Mock.SYMBOL, u8 "20250914", u8 "news_report.json") := JDict []]> ∅.

Lemma summary_witness :
  py_in ([10%N] ++ u8 "- " ++ u8 "news_report.json" ++ [10%N])
    (get_result_summary one_report Mock.SYMBOL) = true.
Proof.
  destruct (summary_lists_every_file one_report Mock.SYMBOL (u8 "20250914")
              (u8 "news_report.json") (JDict [])) as (_ & _ & H).
  - apply lookup_insert_eq.
  - apply H. vm_compute. reflexivity.
Defined.

End ResultSummaryExample.
